(** * The request engine of the Kisanlink ERP service client

    A shallow embedding of [src/utils/errors.ts],
    [src/api-client/erp-service/config.ts] and the current revision of
    [src/utils/apiClient.ts] (the one with multipart support), followed by the
    properties of the engine: error classification, configuration
    normalisation, URL and header construction, body encoding and the
    interpretation of the outcome of one exchange.

    Conventions.  JavaScript strings are [string]s (sequences of bytes, read as
    UTF-8); a status code and a delay in milliseconds are integers ([Z]); a
    number that the caller or a decoded text supplies is given by the text that
    [String] prints for it; an object used as a mapping from header names to
    values is a [gmap string string]; an object
    whose entries are enumerated in order is the list that [Object.entries]
    returns.  An operation that can throw returns a [Completion]. *)

From Stdlib Require Import ZArith String Ascii List Bool Lia.
From stdpp Require Import gmap strings pretty.

Open Scope string_scope.
Open Scope Z_scope.

(** String concatenation computes under [simpl] on a literal prefix. *)
#[local] Arguments String.append !_ _ : simpl nomatch.

(* ===================================================================== *)
(** * JavaScript values *)
(* ===================================================================== *)

(** The values a JSON text denotes.  A number is given by the text that
    [String] prints for it ([1e+21], [0.1], [NaN], and [0] for both zeros):
    the engine never computes with a number, it only tests and prints it. *)
#[warnings="-register-all"]
Inductive JSON : Type :=
  | JNull
  | JBool (b : bool)
  | JNumber (text : string)
  | JString (s : string)
  | JArray (items : list JSON)
  | JObject (fields : list (string * JSON)).

(** The values that reach the engine with the type [unknown]: nothing, a
    JSON-serialisable value, or a [FormData] with its entries. *)
Inductive JSValue : Type :=
  | Undefined
  | Json (j : JSON)
  | FormData (entries : list (string * string)).

(** [instanceof FormData] *)
Definition instanceof_FormData (v : JSValue) : bool :=
  match v with FormData _ => true | _ => false end.

(** ToBoolean on JSON values: [null], [false], the zeros, [NaN] and the
    empty string are falsy. *)
Definition json_truthy (j : JSON) : bool :=
  match j with
  | JNull => false
  | JBool b => b
  | JNumber text => negb (String.eqb text "0" || String.eqb text "NaN")
  | JString s => negb (String.eqb s "")
  | JArray _ => true
  | JObject _ => true
  end.

(** ToBoolean: [undefined] is falsy, every object (a [FormData] too) truthy. *)
Definition truthy (v : JSValue) : bool :=
  match v with
  | Undefined => false
  | Json j => json_truthy j
  | FormData _ => true
  end.

(** [xs.join(sep)] on strings. *)
Fixpoint join (sep : string) (xs : list string) : string :=
  match xs with
  | [] => ""
  | [x] => x
  | x :: rest => x +:+ sep +:+ join sep rest
  end.

(** The object has a member of its own with that name. *)
Definition has_own (key : string) (fields : list (string * JSON)) : bool :=
  existsb (fun kv => String.eqb (fst kv) key) fields.

(** ToString on JSON values, as the [Error] constructor applies it; [None]
    where it throws a [TypeError].  An array joins the strings of its elements
    with commas ([null] elements give the empty string).  Any other object is
    converted by its [toString] method: the inherited one prints
    [[object Object]]; a member named [toString] of the object itself hides
    it and is not callable, and [valueOf], tried next, gives no primitive
    value either (inherited, it returns the object; a member of the object,
    it is not callable), so the conversion throws. *)
Fixpoint json_toString (j : JSON) : option string :=
  match j with
  | JNull => Some "null"
  | JBool true => Some "true"
  | JBool false => Some "false"
  | JNumber text => Some text
  | JString s => Some s
  | JArray items =>
      join "," <$>
        (fix elements (items : list JSON) : option (list string) :=
           match items with
           | [] => Some []
           | x :: rest =>
               match (match x with JNull => Some "" | _ => json_toString x end),
                     elements rest with
               | Some s, Some ss => Some (s :: ss)
               | _, _ => None
               end
           end) items
  | JObject fields => if has_own "toString" fields then None else Some "[object Object]"
  end.

(* ===================================================================== *)
(** * errors.ts *)
(* ===================================================================== *)

(** An instance of [Error]: what [errors.ts] and the engine read of it.  The
    [response] of an [ERPServiceError] is the pair of a status and the raw
    data; the stack trace is not modelled. *)
Record Error : Type := mkError {
  name : string;
  message : string;
  status : option Z;
  response : option (Z * JSValue)
}.

(** [new Error(message)] *)
Definition new_Error (message : string) : Error :=
  {| name := "Error"; message := message; status := None; response := None |}.

(** [new ERPServiceError(message, status, response)] *)
Definition new_ERPServiceError (message : string) (status : option Z)
    (response : option (Z * JSValue)) : Error :=
  {| name := "ERPServiceError"; message := message; status := status; response := response |}.

(** [new NetworkError(message, originalError)]: [super(message)], then the
    name; the original error only extends the stack trace. *)
Definition new_NetworkError (message : string) : Error :=
  {| name := "NetworkError"; message := message; status := None; response := None |}.

Definition new_ValidationError (message : string) (response : option (Z * JSValue)) : Error :=
  {| name := "ValidationError"; message := message; status := Some 400; response := response |}.

Definition new_AuthenticationError (message : string) (response : option (Z * JSValue)) : Error :=
  {| name := "AuthenticationError"; message := message; status := Some 401; response := response |}.

Definition new_AuthorizationError (message : string) (response : option (Z * JSValue)) : Error :=
  {| name := "AuthorizationError"; message := message; status := Some 403; response := response |}.

Definition new_NotFoundError (message : string) (response : option (Z * JSValue)) : Error :=
  {| name := "NotFoundError"; message := message; status := Some 404; response := response |}.

Definition new_ConflictError (message : string) (response : option (Z * JSValue)) : Error :=
  {| name := "ConflictError"; message := message; status := Some 409; response := response |}.

Definition new_ServerError (message : string) (status : Z) (response : option (Z * JSValue)) : Error :=
  {| name := "ServerError"; message := message; status := Some status; response := response |}.

(** [createErrorFromStatus(status, message, responseBody)] *)
Definition createErrorFromStatus (status : Z) (message : string) (responseBody : JSValue) : Error :=
  let response := if truthy responseBody then Some (status, responseBody) else None in
  if status =? 400 then new_ValidationError message response
  else if status =? 401 then new_AuthenticationError message response
  else if status =? 403 then new_AuthorizationError message response
  else if status =? 404 then new_NotFoundError message response
  else if status =? 409 then new_ConflictError message response
  else if 500 <=? status then new_ServerError message status response
  else new_ERPServiceError message (Some status) response.

(** The kinds of Error Record of the specification, and the kind of an error:
    the class it was built by, which is what its [name] records.  An error of
    another class (a plain [Error], a [TypeError], a [DOMException]) is not an
    Error Record. *)
Inductive Kind : Type :=
  | Validation | Authentication | Authorization | NotFound | Conflict
  | Server | Network | Generic.

Definition kind (e : Error) : option Kind :=
  let n := name e in
  if String.eqb n "ValidationError" then Some Validation
  else if String.eqb n "AuthenticationError" then Some Authentication
  else if String.eqb n "AuthorizationError" then Some Authorization
  else if String.eqb n "NotFoundError" then Some NotFound
  else if String.eqb n "ConflictError" then Some Conflict
  else if String.eqb n "ServerError" then Some Server
  else if String.eqb n "NetworkError" then Some Network
  else if String.eqb n "ERPServiceError" then Some Generic
  else None.

(** What a [throw] carries: an instance of [Error], or any other value. *)
Inductive Thrown : Type :=
  | ThrownError (e : Error)
  | ThrownValue (v : JSValue).

(** The completion of an operation that can throw. *)
Inductive Completion (A : Type) : Type :=
  | Return (a : A)
  | Throw (t : Thrown).
Arguments Return {A} a.
Arguments Throw {A} t.

(* ===================================================================== *)
(** * config.ts *)
(* ===================================================================== *)

(** [ERPServiceConfig]: every field but the base address is optional, and an
    untyped caller can leave out the base address too. *)
Module ERPServiceConfig.
Record t : Type := mk {
  baseURL : option string;
  defaultHeaders : option (gmap string string);
  getAccessToken : option (unit -> option string);
  timeout : option Z
}.
End ERPServiceConfig.

(** [ApiConfig]: the normalised configuration. *)
Module ApiConfig.
Record t : Type := mk {
  baseURL : string;
  defaultHeaders : gmap string string;
  getAccessToken : option (unit -> option string);
  timeout : Z
}.
End ApiConfig.

(** [s.replace(/\/$/, '')]: a slash in final position is removed. *)
Fixpoint replace_final_slash (s : string) : string :=
  match s with
  | EmptyString => EmptyString
  | String c rest =>
      match rest with
      | EmptyString => if Ascii.eqb c "/" then EmptyString else s
      | String _ _ => String c (replace_final_slash rest)
      end
  end.

(** [validateConfig(config)] *)
Definition validateConfig (config : ERPServiceConfig.t) : Completion ApiConfig.t :=
  match ERPServiceConfig.baseURL config with
  | None => Throw (ThrownError (new_Error "ERPServiceConfig.baseURL is required"))
  | Some b =>
      if String.eqb b ""
      then Throw (ThrownError (new_Error "ERPServiceConfig.baseURL is required"))
      else
        let baseURL := replace_final_slash b in
        Return {|
          ApiConfig.baseURL := baseURL;
          ApiConfig.defaultHeaders :=
            match ERPServiceConfig.defaultHeaders config with
            | Some h => h
            | None => ∅
            end;
          ApiConfig.getAccessToken := ERPServiceConfig.getAccessToken config;
          ApiConfig.timeout :=
            match ERPServiceConfig.timeout config with
            | Some t => if t =? 0 then 30000 else t
            | None => 30000
            end
        |}
  end.

(* ===================================================================== *)
(** * Strings *)
(* ===================================================================== *)

(** The character code of a byte. *)
Definition code (c : ascii) : Z := Z.of_N (N_of_ascii c).

Definition is_slash (c : ascii) : bool := Ascii.eqb c "/".

(** [s.includes(sub)] *)
Fixpoint includes (s sub : string) : bool :=
  String.prefix sub s
  || match s with
     | EmptyString => false
     | String _ rest => includes rest sub
     end.

(** A run of [n] slashes. *)
Fixpoint slashes (n : nat) : string :=
  match n with
  | O => EmptyString
  | S n' => String "/" (slashes n')
  end.

(** [s.every(p)] on the bytes of a string. *)
Fixpoint every (p : ascii -> bool) (s : string) : bool :=
  match s with
  | EmptyString => true
  | String c rest => p c && every p rest
  end.

(** [s.split('/')] *)
Fixpoint split_slash (s : string) : list string :=
  match s with
  | EmptyString => [EmptyString]
  | String c rest =>
      if is_slash c then EmptyString :: split_slash rest
      else match split_slash rest with
           | seg :: segs => String c seg :: segs
           | [] => [String c EmptyString]
           end
  end.

(** The text before the first slash, and the text after it when there is
    one. *)
Fixpoint until_slash (s : string) : string * option string :=
  match s with
  | EmptyString => (EmptyString, None)
  | String c rest =>
      if is_slash c then (EmptyString, Some rest)
      else let (h, t) := until_slash rest in (String c h, t)
  end.

(** The text after the leading slashes. *)
Fixpoint skip_slashes (s : string) : string :=
  match s with
  | EmptyString => EmptyString
  | String c rest => if is_slash c then skip_slashes rest else s
  end.

(** [s] without the prefix [p], when it starts with it. *)
Fixpoint strip_prefix (p s : string) : option string :=
  match p with
  | EmptyString => Some s
  | String a p' =>
      match s with
      | EmptyString => None
      | String b s' => if Ascii.eqb a b then strip_prefix p' s' else None
      end
  end.

(* ===================================================================== *)
(** * The platform's URL class *)
(* ===================================================================== *)

(** The URL record of the URL Standard, for the URLs that the engine meets:
    an [http] or [https] URL with a host, an optional port, a list of path
    segments, and the list of name-value pairs of its [searchParams]; no
    credentials, no fragment.  [host] is the [host] of the URL class: the
    serialised host, followed by a colon and the port when the URL has one. *)
Record URL : Type := mkURL {
  scheme : string;
  host : string;
  path : list string;
  searchParams : list (string * string)
}.

Definition is_lower (c : ascii) : bool := (97 <=? code c) && (code c <=? 122).
Definition is_upper (c : ascii) : bool := (65 <=? code c) && (code c <=? 90).
Definition is_digit (c : ascii) : bool := (48 <=? code c) && (code c <=? 57).
Definition is_alpha (c : ascii) : bool := is_lower c || is_upper c.
Definition is_alnum (c : ascii) : bool := is_lower c || is_upper c || is_digit c.

(** ASCII lower-casing. *)
Definition to_lower (c : ascii) : ascii :=
  if is_upper c then ascii_of_N (N_of_ascii c + 32) else c.

Fixpoint lower (s : string) : string :=
  match s with
  | EmptyString => EmptyString
  | String c rest => String (to_lower c) (lower rest)
  end.

(** [s.split(sep)] for a separator of one byte. *)
Fixpoint split_on (sep : ascii) (s : string) : list string :=
  match s with
  | EmptyString => [EmptyString]
  | String c rest =>
      if Ascii.eqb c sep then EmptyString :: split_on sep rest
      else match split_on sep rest with
           | seg :: segs => String c seg :: segs
           | [] => [String c EmptyString]
           end
  end.

(** The text before the first colon, and the text after it when there is
    one. *)
Fixpoint until_colon (s : string) : string * option string :=
  match s with
  | EmptyString => (EmptyString, None)
  | String c rest =>
      if Ascii.eqb c ":" then (EmptyString, Some rest)
      else let (h, t) := until_colon rest in (String c h, t)
  end.

(** [s] without the prefix [p], when it starts with it in any letter case
    ([p] is in lower case). *)
Fixpoint strip_prefix_ci (p s : string) : option string :=
  match p with
  | EmptyString => Some s
  | String a p' =>
      match s with
      | EmptyString => None
      | String b s' => if Ascii.eqb a (to_lower b) then strip_prefix_ci p' s' else None
      end
  end.

(** The sixteen upper-case hexadecimal digits. *)
Definition hex_digit (n : Z) : ascii :=
  if n <? 10 then ascii_of_N (Z.to_N (48 + n)) else ascii_of_N (Z.to_N (55 + n)).

(** Percent-encoding of one byte. *)
Definition percent_encode (c : ascii) : string :=
  String "%" (String (hex_digit (code c / 16)) (String (hex_digit (code c mod 16)) EmptyString)).

(** ** Hosts and ports *)

(** The value of a digit in any radix up to sixteen. *)
Definition digit_value (c : ascii) : option Z :=
  if is_digit c then Some (code c - 48)
  else if (97 <=? code c) && (code c <=? 102) then Some (code c - 87)
  else if (65 <=? code c) && (code c <=? 70) then Some (code c - 55)
  else None.

(** The number that the digits of [s] denote in the radix, read after the
    value [acc]; [None] when a byte is not a digit of the radix. *)
Fixpoint number_of (radix acc : Z) (s : string) : option Z :=
  match s with
  | EmptyString => Some acc
  | String c rest =>
      match digit_value c with
      | Some d => if d <? radix then number_of radix (radix * acc + d) rest else None
      | None => None
      end
  end.

(** The IPv4 number parser: [0x] starts a hexadecimal number, any other [0]
    followed by something an octal one. *)
Definition ipv4_number (input : string) : option Z :=
  match input with
  | EmptyString => None
  | String c EmptyString => number_of 10 0 input
  | String c (String x rest) =>
      if Ascii.eqb c "0" then
        if Ascii.eqb x "x" || Ascii.eqb x "X" then number_of 16 0 rest
        else number_of 8 0 (String x rest)
      else number_of 10 0 input
  end.

(** The last label of a host, a final empty label apart. *)
Definition final_label (h : string) : option string :=
  let parts := split_on "." h in
  if String.eqb (List.last parts EmptyString) EmptyString
  then match removelast parts with
       | [] => None
       | parts' => Some (List.last parts' EmptyString)
       end
  else Some (List.last parts EmptyString).

(** The "ends in a number" checker of the host parser. *)
Definition ends_in_a_number (h : string) : bool :=
  match final_label h with
  | None => false
  | Some label =>
      (negb (String.eqb label EmptyString) && every is_digit label)
      || match ipv4_number label with Some _ => true | None => false end
  end.

(** The numbers of an IPv4 address but the last, each at its place. *)
Fixpoint ipv4_sum (counter : Z) (numbers : list Z) : Z :=
  match numbers with
  | [] => 0
  | n :: rest => n * 256 ^ (3 - counter) + ipv4_sum (counter + 1) rest
  end.

(** The IPv4 parser: at most four numbers, of which the last fills the
    bytes that the others leave. *)
Definition ipv4_parse (h : string) : option Z :=
  let parts := split_on "." h in
  let parts :=
    if String.eqb (List.last parts EmptyString) EmptyString && (1 <? Z.of_nat (length parts))
    then removelast parts else parts in
  if 4 <? Z.of_nat (length parts) then None
  else
    match mapM ipv4_number parts with
    | None => None
    | Some numbers =>
        if existsb (fun n => 255 <? n) (removelast numbers) then None
        else
          let final := List.last numbers 0 in
          if 256 ^ (5 - Z.of_nat (length numbers)) <=? final then None
          else Some (final + ipv4_sum 0 (removelast numbers))
    end.

(** The IPv4 serialiser. *)
Definition ipv4_serialize (address : Z) : string :=
  pretty (address / 16777216 mod 256) +:+ "."
  +:+ pretty (address / 65536 mod 256) +:+ "."
  +:+ pretty (address / 256 mod 256) +:+ "."
  +:+ pretty (address mod 256).

(** The bytes of the hosts that are modelled: ASCII letters, digits,
    hyphens, dots and underscores. *)
Definition host_byte (c : ascii) : bool :=
  is_alnum c || Ascii.eqb c "-" || Ascii.eqb c "." || Ascii.eqb c "_".

(** A label of the domain is in Punycode. *)
Definition has_punycode_label (domain : string) : bool :=
  existsb (String.prefix "xn--") (split_on "." domain).

(** The host parser on a domain or an IPv4 address, and the host serialiser
    after it: the domain in lower case, or the address in dotted decimal form
    when the host ends in a number.  [None]: the parser fails (no host, a
    host that ends in a number and is no IPv4 address), or the host is not
    modelled (a byte other than a [host_byte], which covers IPv6 literals,
    percent-encoded and non-ASCII hosts; a Punycode label). *)
Definition host_parse (input : string) : option string :=
  if String.eqb input EmptyString then None
  else if negb (every host_byte input) then None
  else
    let domain := lower input in
    if has_punycode_label domain then None
    else if ends_in_a_number domain then ipv4_serialize <$> ipv4_parse domain
    else Some domain.

Definition default_port (scheme : string) : Z :=
  if String.eqb scheme "https" then 443 else 80.

(** The port state of the URL parser: no port for no digit and for the
    default port of the scheme; [None]: a byte that is not a digit, or a port
    above 65535. *)
Definition parse_port (scheme digits : string) : option (option Z) :=
  match number_of 10 0 digits with
  | None => None
  | Some n =>
      if String.eqb digits EmptyString then Some None
      else if 65535 <? n then None
      else if n =? default_port scheme then Some None
      else Some (Some n)
  end.

(** The authority of a URL without credentials: a host, then possibly a
    colon and a port.  The result is the [host] of the URL class. *)
Definition parse_host_port (scheme authority : string) : option string :=
  if negb (every (fun c => host_byte c || Ascii.eqb c ":") authority) then None
  else
    let (h, after) := until_colon authority in
    match host_parse h,
          match after with
          | None => Some None
          | Some digits => parse_port scheme digits
          end with
    | Some h', Some None => Some h'
    | Some h', Some (Some n) => Some (h' +:+ ":" +:+ pretty n)
    | _, _ => None
    end.

(** ** Paths *)

(** The unreserved characters. *)
Definition path_char (c : ascii) : bool :=
  is_alnum c || Ascii.eqb c "-" || Ascii.eqb c "." || Ascii.eqb c "_" || Ascii.eqb c "~".

(** The bytes of a path or of a relative reference that are modelled: the
    printable ASCII characters and the bytes of the UTF-8 encoding of any
    other character, except the question mark and the number sign (that end
    the path), the backslash, and the circumflex (that came into the path
    percent-encode set only lately).  Spaces and control characters, that the
    parser strips or removes in places, are left out. *)
Definition url_byte (c : ascii) : bool :=
  (33 <=? code c) && negb (Ascii.eqb c "127")
  && negb (Ascii.eqb c "?") && negb (Ascii.eqb c "#") && negb (Ascii.eqb c "092")
  && negb (Ascii.eqb c "^").

(** The path percent-encode set. *)
Definition in_path_percent_encode_set (c : ascii) : bool :=
  (code c <=? 32) || (127 <=? code c)
  || Ascii.eqb c "034" || Ascii.eqb c "#" || Ascii.eqb c "<" || Ascii.eqb c ">"
  || Ascii.eqb c "?" || Ascii.eqb c "^" || Ascii.eqb c "`" || Ascii.eqb c "{"
  || Ascii.eqb c "}".

(** A segment as the path state stores it. *)
Fixpoint path_encode (seg : string) : string :=
  match seg with
  | EmptyString => EmptyString
  | String c rest =>
      if in_path_percent_encode_set c then percent_encode c +:+ path_encode rest
      else String c (path_encode rest)
  end.

(** Single-dot and double-dot segments, with the dot possibly written
    [%2e]. *)
Definition is_dot_segment (seg : string) : bool :=
  let l := lower seg in String.eqb l "." || String.eqb l "%2e".

Definition is_double_dot_segment (seg : string) : bool :=
  let l := lower seg in
  String.eqb l ".." || String.eqb l ".%2e" || String.eqb l "%2e." || String.eqb l "%2e%2e".

(** The path state of the URL parser, run over the segments that the slashes
    of the remaining input delimit: a double-dot segment shortens the path, a
    single-dot segment is dropped, and either one in final position leaves an
    empty last segment. *)
Fixpoint path_state (path : list string) (segments : list string) : list string :=
  match segments with
  | [] => path
  | seg :: rest =>
      let final := match rest with [] => true | _ => false end in
      let path' :=
        if is_double_dot_segment seg
        then (removelast path ++ (if final then [EmptyString] else []))%list
        else if is_dot_segment seg
        then (path ++ (if final then [EmptyString] else []))%list
        else (path ++ [seg])%list in
      path_state path' rest
  end.

(** The path that the path state builds from the text after the slash that
    starts it. *)
Definition parse_path (path : list string) (input : string) : list string :=
  path_state path (map path_encode (split_slash input)).

(** From the authority on: the host and the port up to the first slash, then
    the path.  [None]: the parser fails, or the input is not modelled. *)
Definition parse_authority (scheme input : string) : option URL :=
  let (authority, after) := until_slash input in
  match parse_host_port scheme authority with
  | None => None
  | Some h =>
      match after with
      | None => Some {| scheme := scheme; host := h; path := [EmptyString];
                        searchParams := [] |}
      | Some p =>
          if every url_byte p
          then Some {| scheme := scheme; host := h; path := parse_path [] p;
                       searchParams := [] |}
          else None
      end
  end.

(** [new URL(input)] for an absolute [input]: the scheme in any letter case,
    any number of slashes, the authority and the path.  [None]: the parser
    fails, or the input is not modelled (another scheme, credentials, a query
    or a fragment, and what [host_parse] and [url_byte] leave out). *)
Definition URL_parse (input : string) : option URL :=
  match strip_prefix_ci "https:" input, strip_prefix_ci "http:" input with
  | Some rest, _ => parse_authority "https" (skip_slashes rest)
  | None, Some rest => parse_authority "http" (skip_slashes rest)
  | None, None => None
  end.

(** The bytes of a scheme after its first letter. *)
Definition scheme_byte (c : ascii) : bool :=
  is_alnum c || Ascii.eqb c "+" || Ascii.eqb c "-" || Ascii.eqb c ".".

Fixpoint scheme_run (s : string) : bool :=
  match s with
  | EmptyString => false
  | String c rest =>
      if Ascii.eqb c ":" then true
      else if scheme_byte c then scheme_run rest
      else false
  end.

(** The input starts with a scheme: it is no relative reference. *)
Definition has_scheme (input : string) : bool :=
  match input with
  | EmptyString => false
  | String c rest => is_alpha c && scheme_run rest
  end.

(** [new URL(input, base)]: the relative [input] is resolved against [base]
    as the URL parser does from its "no scheme" state.  An empty input gives
    the base; one slash starts a path that replaces the path of the base; two
    or more slashes start an authority that replaces its host; anything else
    replaces the last segment of the path of the base.  [None]: the parser
    fails, or the input or the base is not modelled (an input with a scheme
    of its own, and what [URL_parse] leaves out). *)
Definition URL_new (input base : string) : option URL :=
  match URL_parse base with
  | None => None
  | Some b =>
      if negb (every url_byte input) then None
      else if has_scheme input then None
      else
        match input with
        | EmptyString => Some b
        | String c rest =>
            if is_slash c then
              match rest with
              | String c' _ =>
                  if is_slash c' then parse_authority (scheme b) (skip_slashes rest)
                  else Some {| scheme := scheme b; host := host b;
                               path := parse_path [] rest;
                               searchParams := [] |}
              | EmptyString =>
                  Some {| scheme := scheme b; host := host b;
                          path := parse_path [] rest;
                          searchParams := [] |}
              end
            else Some {| scheme := scheme b; host := host b;
                         path := parse_path (removelast (path b)) input;
                         searchParams := [] |}
        end
  end.

(** The bytes outside the [application/x-www-form-urlencoded] percent-encode
    set: letters, digits and [*-._]. *)
Definition urlencoded_plain (c : ascii) : bool :=
  is_alnum c || Ascii.eqb c "*" || Ascii.eqb c "-" || Ascii.eqb c "." || Ascii.eqb c "_".

(** The [application/x-www-form-urlencoded] byte serialiser: a space becomes
    a plus sign, a byte of the percent-encode set its percent-encoding. *)
Fixpoint urlencode (s : string) : string :=
  match s with
  | EmptyString => EmptyString
  | String c rest =>
      if urlencoded_plain c then String c (urlencode rest)
      else if Ascii.eqb c " " then String "+" (urlencode rest)
      else percent_encode c +:+ urlencode rest
  end.

(** The [application/x-www-form-urlencoded] serialiser of a list of pairs. *)
Definition urlencoded_serialize (pairs : list (string * string)) : string :=
  join "&" (map (fun kv => urlencode (fst kv) +:+ "=" +:+ urlencode (snd kv)) pairs).

(** The query of a URL whose [searchParams] hold [pairs]: none when the list
    is empty. *)
Definition query_string (pairs : list (string * string)) : string :=
  match pairs with
  | [] => EmptyString
  | _ :: _ => "?" +:+ urlencoded_serialize pairs
  end.

(** The path of the URL serialiser: a slash before every segment. *)
Fixpoint serialize_path (path : list string) : string :=
  match path with
  | [] => EmptyString
  | seg :: rest => "/" +:+ seg +:+ serialize_path rest
  end.

(** [url.toString()]: the URL serialiser. *)
Definition URL_toString (url : URL) : string :=
  scheme url +:+ "://" +:+ host url
  +:+ serialize_path (path url)
  +:+ query_string (searchParams url).

(** [url.searchParams.append(key, value)] *)
Definition searchParams_append (url : URL) (key value : string) : URL :=
  {| scheme := scheme url; host := host url; path := path url;
     searchParams := (searchParams url ++ [(key, value)])%list |}.

(* ===================================================================== *)
(** * The platform's JSON serialiser *)
(* ===================================================================== *)

(** The double quote and the backslash. *)
Definition dquote : ascii := "034".
Definition backslash : ascii := "092".

(** The lower-case hexadecimal digits of [\u00XX] escapes. *)
Definition hex_lower (n : Z) : ascii :=
  if n <? 10 then ascii_of_N (Z.to_N (48 + n)) else ascii_of_N (Z.to_N (87 + n)).

(** QuoteJSONString, without its quotes. *)
Fixpoint json_escape (s : string) : string :=
  match s with
  | EmptyString => EmptyString
  | String c rest =>
      let n := code c in
      (if Ascii.eqb c dquote then String backslash (String dquote EmptyString)
       else if Ascii.eqb c backslash then String backslash (String backslash EmptyString)
       else if n =? 8 then String backslash "b"
       else if n =? 9 then String backslash "t"
       else if n =? 10 then String backslash "n"
       else if n =? 12 then String backslash "f"
       else if n =? 13 then String backslash "r"
       else if n <? 32
       then String backslash
              (String "u" (String "0" (String "0"
                 (String (hex_lower (n / 16)) (String (hex_lower (n mod 16)) EmptyString)))))
       else String c EmptyString)
      +:+ json_escape rest
  end.

Definition json_quote (s : string) : string :=
  String dquote (json_escape s) +:+ String dquote EmptyString.

(** [JSON.stringify(value)] on a JSON value: a finite number is printed as
    [String] prints it, any other number as [null]. *)
Fixpoint JSON_stringify (j : JSON) : string :=
  match j with
  | JNull => "null"
  | JBool true => "true"
  | JBool false => "false"
  | JNumber text =>
      if String.eqb text "NaN" || String.eqb text "Infinity" || String.eqb text "-Infinity"
      then "null" else text
  | JString s => json_quote s
  | JArray items => "[" +:+ join "," (map JSON_stringify items) +:+ "]"
  | JObject fields =>
      "{" +:+ join "," (map (fun kv => match kv with
                                       | (k, v) => json_quote k +:+ ":" +:+ JSON_stringify v
                                       end) fields) +:+ "}"
  end.

(** [errorJson[key]] on a decoded value that is not [null]: the member of an
    object (the last one when the text repeats the key), [undefined] on any
    other value. *)
Fixpoint last_member (key : string) (fields : list (string * JSON)) : option JSON :=
  match fields with
  | [] => None
  | (k, v) :: rest =>
      match last_member key rest with
      | Some v' => Some v'
      | None => if String.eqb k key then Some v else None
      end
  end.

Definition get_member (j : JSON) (key : string) : option JSON :=
  match j with
  | JObject fields => last_member key fields
  | _ => None
  end.

(* ===================================================================== *)
(** * apiClient.ts *)
(* ===================================================================== *)

(** The values of a query parameter mapping.  A number is given by the text
    that [String] prints for it. *)
Inductive ParamValue : Type :=
  | PUndefined
  | PNull
  | PString (s : string)
  | PNumber (text : string)
  | PBoolean (b : bool).

(** [value !== undefined && value !== null] *)
Definition is_present (value : ParamValue) : bool :=
  match value with
  | PUndefined | PNull => false
  | _ => true
  end.

(** [String(value)] *)
Definition String_of (value : ParamValue) : string :=
  match value with
  | PUndefined => "undefined"
  | PNull => "null"
  | PString s => s
  | PNumber text => text
  | PBoolean true => "true"
  | PBoolean false => "false"
  end.

(** [RequestOptions] *)
Module RequestOptions.
Record t : Type := mk {
  headers : option (gmap string string);
  params : option (list (string * ParamValue));
  timeout : option Z
}.
End RequestOptions.

(** [buildHeaders(config, extraHeaders, isFormData)].  In an object literal
    the later spread wins, so the per-call headers lie over the defaults. *)
Definition buildHeaders (config : ApiConfig.t) (extraHeaders : option (gmap string string))
    (isFormData : bool) : gmap string string :=
  let headers : gmap string string :=
    match extraHeaders with
    | Some extra => extra ∪ ApiConfig.defaultHeaders config
    | None => ApiConfig.defaultHeaders config
    end in
  let headers :=
    if negb isFormData
       && negb (match headers !! "Content-Type" with
                | Some v => negb (String.eqb v "")
                | None => false
                end)
    then <["Content-Type" := "application/json"]> headers
    else headers in
  let token :=
    match ApiConfig.getAccessToken config with
    | Some getAccessToken => getAccessToken tt
    | None => None
    end in
  match token with
  | Some tok =>
      if negb (String.eqb tok "")
      then <["Authorization" := "Bearer " +:+ tok]> headers
      else headers
  | None => headers
  end.

(** [normalizeURLPath(path)]: [path.replace(/\/+$/, '')], the text before the
    first position from which only slashes follow. *)
Fixpoint normalizeURLPath (path : string) : string :=
  match path with
  | EmptyString => EmptyString
  | String c rest =>
      if is_slash c && every is_slash rest then EmptyString
      else String c (normalizeURLPath rest)
  end.

(** The loop of [buildURL] over [Object.entries(params)]. *)
Definition append_params (url : URL) (entries : list (string * ParamValue)) : URL :=
  fold_left
    (fun url kv =>
       match kv with
       | (key, value) =>
           if is_present value then searchParams_append url key (String_of value) else url
       end)
    entries url.

(** [buildURL(baseURL, endpoint, params)].  [None]: the URL constructor did not
    give a URL. *)
Definition buildURL (baseURL endpoint : string)
    (params : option (list (string * ParamValue))) : option string :=
  let normalizedBase := normalizeURLPath baseURL in
  let normalizedEndpoint := normalizeURLPath endpoint in
  match URL_new normalizedEndpoint normalizedBase with
  | None => None
  | Some url =>
      let url :=
        match params with
        | Some entries => append_params url entries
        | None => url
        end in
      Some (URL_toString url)
  end.

(** A response, as far as the engine reads it: the status, the value of the
    [content-length] header when there is one, and the text of the body, or
    [None] when reading the body fails. *)
Module Response.
Record t : Type := mk {
  status : Z;
  content_length : option string;
  body : option string
}.

(** [response.ok]: the status is in the range 200 to 299. *)
Definition ok (response : t) : bool :=
  (200 <=? status response) && (status response <=? 299).
End Response.

(** The body handed to [fetch]: the value as it is, or a text. *)
Inductive Payload : Type :=
  | AsIs (v : JSValue)
  | Text (s : string).

(** The arguments of the call of [fetch] (the abort signal apart). *)
Module FetchCall.
Record t : Type := mk {
  url : string;
  method : string;
  headers : gmap string string;
  body : option Payload
}.
End FetchCall.

(** [JSON.stringify(body)]: [undefined] gives no text, and a [FormData], that
    has no enumerable member of its own, the empty object. *)
Definition stringify (body : JSValue) : option string :=
  match body with
  | Undefined => None
  | Json j => Some (JSON_stringify j)
  | FormData _ => Some "{}"
  end.

(** [body ? (isFormData ? body : JSON.stringify(body)) : undefined] *)
Definition outgoing_body (body : JSValue) (isFormData : bool) : option Payload :=
  if truthy body
  then if isFormData then Some (AsIs body) else Text <$> stringify body
  else None.

(** [options?.timeout || config.timeout] *)
Definition effective_timeout (config : ApiConfig.t) (options : option RequestOptions.t) : Z :=
  match options ≫= RequestOptions.timeout with
  | Some t => if t =? 0 then ApiConfig.timeout config else t
  | None => ApiConfig.timeout config
  end.

(** What [request] calls [fetch] with; [None] when [buildURL] gives no URL, in
    which case no exchange takes place. *)
Definition fetch_call (config : ApiConfig.t) (method endpoint : string) (body : JSValue)
    (options : option RequestOptions.t) : option FetchCall.t :=
  match buildURL (ApiConfig.baseURL config) endpoint (options ≫= RequestOptions.params) with
  | None => None
  | Some url =>
      let isFormData := instanceof_FormData body in
      let headers := buildHeaders config (options ≫= RequestOptions.headers) isFormData in
      Some {| FetchCall.url := url;
              FetchCall.method := method;
              FetchCall.headers := headers;
              FetchCall.body := outgoing_body body isFormData |}
  end.

(** How [fetch] settles: fulfilled with a response, or rejected. *)
Inductive FetchResult : Type :=
  | Fulfilled (response : Response.t)
  | Rejected (reason : Thrown).

(** The race of one exchange against the timer that [request] starts: the
    timer fires first, or the exchange settles first. *)
Inductive Race : Type :=
  | TimerFirst
  | ExchangeFirst (result : FetchResult).

Section Engine.

(** The platform's JSON decoder: the value of a text, or [None] where
    [JSON.parse] throws a [SyntaxError]. *)
Variable JSON_parse : string -> option JSON.

(** The message of the [DOMException] of an aborted [fetch]; its text
    differs from one platform to another. *)
Variable abort_message : string.

(** The [DOMException] named [AbortError] that [fetch] is rejected with
    when its signal is aborted; it is an instance of [Error]. *)
Definition AbortError : Error :=
  {| name := "AbortError"; message := abort_message; status := None; response := None |}.

(** [fetch(url, init)] under the timer: when the timer fires first, the
    callback aborts the signal and [fetch] is rejected. *)
Definition fetch (race : Race) : FetchResult :=
  match race with
  | TimerFirst => Rejected (ThrownError AbortError)
  | ExchangeFirst result => result
  end.

(** [response.json()] *)
Definition Response_json (response : Response.t) : option JSON :=
  match Response.body response with
  | Some text => JSON_parse text
  | None => None
  end.

(** The [TypeError] of a conversion to a string that fails (with the message
    of V8). *)
Definition conversion_TypeError : Error :=
  {| name := "TypeError"; message := "Cannot convert object to primitive value";
     status := None; response := None |}.

(** The message of the error of a response that is not ok, as the [Error]
    constructor stores it: the value of [errorMessage] converted to a string;
    [None] where that conversion throws.  Reading a member of [null] throws
    inside the inner [try], so a body that decodes to [null] ends in its
    [catch] like a body that does not decode. *)
Definition error_message (method endpoint : string) (status : Z) (text : string)
    : option string :=
  let errorMessage :=
    "API " +:+ method +:+ " " +:+ endpoint +:+ " failed: " +:+ pretty status in
  let caught :=
    if negb (String.eqb text "") then errorMessage +:+ " - " +:+ text else errorMessage in
  match JSON_parse text with
  | None => Some caught
  | Some JNull => Some caught
  | Some errorJson =>
      match get_member errorJson "message" with
      | Some m =>
          if json_truthy m then json_toString m
          else match get_member errorJson "error" with
               | Some e => if json_truthy e then json_toString e else Some errorMessage
               | None => Some errorMessage
               end
      | None =>
          match get_member errorJson "error" with
          | Some e => if json_truthy e then json_toString e else Some errorMessage
          | None => Some errorMessage
          end
      end
  end.

(** The body of the [try] of [request] from the response on.  Where the
    conversion of the message throws, it does so in the constructor of the
    error that [createErrorFromStatus] builds, and the [TypeError] is what the
    [try] ends with. *)
Definition interpret (method endpoint : string) (response : Response.t) : Completion JSON :=
  if negb (Response.ok response) then
    let text := default EmptyString (Response.body response) in
    match error_message method endpoint (Response.status response) text with
    | Some errorMessage =>
        Throw (ThrownError
                 (createErrorFromStatus (Response.status response) errorMessage
                                        (Json (JString text))))
    | None => Throw (ThrownError conversion_TypeError)
    end
  else if (Response.status response =? 204)
          || bool_decide (Response.content_length response = Some "0")
  then Return (JObject [])
  else
    match Response_json response with
    | Some value => Return value
    | None => Throw (ThrownError (new_NetworkError "Failed to parse response JSON"))
    end.

(** What a request throws for a response that is not ok: the error that
    [createErrorFromStatus] builds, or the [TypeError] of its constructor. *)
Definition error_of_response (method endpoint : string) (response : Response.t) : Error :=
  let text := default EmptyString (Response.body response) in
  match error_message method endpoint (Response.status response) text with
  | Some errorMessage =>
      createErrorFromStatus (Response.status response) errorMessage (Json (JString text))
  | None => conversion_TypeError
  end.

(** The [catch] of [request]. *)
Definition on_catch (timeout : Z) (error : Thrown) : Thrown :=
  match error with
  | ThrownError e =>
      if includes (name e) "Error" then error
      else if String.eqb (name e) "AbortError"
      then ThrownError (new_NetworkError ("Request timeout after " +:+ pretty timeout +:+ "ms"))
      else ThrownError (new_NetworkError "Network request failed")
  | ThrownValue _ => ThrownError (new_NetworkError "Network request failed")
  end.

(** The [try] and its [catch], from the settlement of [fetch] on. *)
Definition settle (method endpoint : string) (timeout : Z) (result : FetchResult)
    : Completion JSON :=
  let attempt :=
    match result with
    | Fulfilled response => interpret method endpoint response
    | Rejected reason => Throw reason
    end in
  match attempt with
  | Return value => Return value
  | Throw error => Throw (on_catch timeout error)
  end.

(** [request(config, method, endpoint, body, options)] against a network
    that decides the race of the exchange it is given.  [None]: [buildURL]
    gave no URL, before the [try]. *)
Definition request (config : ApiConfig.t) (method endpoint : string) (body : JSValue)
    (options : option RequestOptions.t) (network : FetchCall.t -> Race)
    : option (Completion JSON) :=
  match fetch_call config method endpoint body options with
  | None => None
  | Some call =>
      let timeout := effective_timeout config options in
      Some (settle method endpoint timeout (fetch (network call)))
  end.

End Engine.

(** The earlier revision of [apiClient.ts], kept in the same file: it has no
    multipart support, so the JSON content type is always the first header
    and every truthy body is serialised. *)
Module Revision1.

Definition buildHeaders (config : ApiConfig.t) (extraHeaders : option (gmap string string))
    : gmap string string :=
  let headers : gmap string string :=
    match extraHeaders with
    | Some extra => extra ∪ (ApiConfig.defaultHeaders config ∪ {[ "Content-Type" := "application/json" ]})
    | None => ApiConfig.defaultHeaders config ∪ {[ "Content-Type" := "application/json" ]}
    end in
  let token :=
    match ApiConfig.getAccessToken config with
    | Some getAccessToken => getAccessToken tt
    | None => None
    end in
  match token with
  | Some tok =>
      if negb (String.eqb tok "")
      then <["Authorization" := "Bearer " +:+ tok]> headers
      else headers
  | None => headers
  end.

(** [body ? JSON.stringify(body) : undefined] *)
Definition outgoing_body (body : JSValue) : option Payload :=
  if truthy body then Text <$> stringify body else None.

End Revision1.

(* ===================================================================== *)
(** * A reference JSON decoder *)
(* ===================================================================== *)

(** A decoder for the JSON grammar with integer numbers and without [\u]
    escapes, to run the engine on concrete texts.  The properties of the
    engine below hold for every decoder. *)

(** [Number.MAX_SAFE_INTEGER]: up to it an integer is a number of its own,
    and [String] prints its decimal digits. *)
Definition MAX_SAFE_INTEGER : Z := 9007199254740991.

Definition is_ws (c : ascii) : bool :=
  (code c =? 32) || (code c =? 9) || (code c =? 10) || (code c =? 13).

Fixpoint skip_ws (s : string) : string :=
  match s with
  | EmptyString => EmptyString
  | String c rest => if is_ws c then skip_ws rest else s
  end.

(** The character that a one-letter escape denotes. *)
Definition unescape (e : ascii) : option ascii :=
  if Ascii.eqb e dquote then Some dquote
  else if Ascii.eqb e backslash then Some backslash
  else if Ascii.eqb e "/" then Some "/"%char
  else if Ascii.eqb e "b" then Some "008"%char
  else if Ascii.eqb e "f" then Some "012"%char
  else if Ascii.eqb e "n" then Some "010"%char
  else if Ascii.eqb e "r" then Some "013"%char
  else if Ascii.eqb e "t" then Some "009"%char
  else None.

(** A string literal from after its opening quote: its value and the text
    after its closing quote. *)
Fixpoint decode_string (s : string) : option (string * string) :=
  match s with
  | EmptyString => None
  | String c rest =>
      if Ascii.eqb c dquote then Some (EmptyString, rest)
      else if Ascii.eqb c backslash then
        match rest with
        | String e rest' =>
            match unescape e, decode_string rest' with
            | Some c', Some (str, r) => Some (String c' str, r)
            | _, _ => None
            end
        | EmptyString => None
        end
      else if code c <? 32 then None
      else
        match decode_string rest with
        | Some (str, r) => Some (String c str, r)
        | None => None
        end
  end.

(** The digits at the head of a text, read after the value [acc]. *)
Fixpoint decode_digits (acc : Z) (s : string) : Z * string :=
  match s with
  | EmptyString => (acc, s)
  | String c rest =>
      if is_digit c then decode_digits (10 * acc + (code c - 48)) rest else (acc, s)
  end.

(** An integer without sign: a single zero, or digits that start with a
    non-zero one; a fraction or an exponent is not decoded, nor is, by
    [decode_value], an integer beyond [MAX_SAFE_INTEGER]. *)
Definition decode_natural (s : string) : option (Z * string) :=
  match s with
  | EmptyString => None
  | String c rest =>
      if negb (is_digit c) then None
      else
        let (n, r) := if Ascii.eqb c "0" then (0, rest) else decode_digits 0 s in
        match r with
        | String d _ =>
            if is_digit d || Ascii.eqb d "." || Ascii.eqb d "e" || Ascii.eqb d "E"
            then None else Some (n, r)
        | EmptyString => Some (n, r)
        end
  end.

Fixpoint decode_value (fuel : nat) (s : string) : option (JSON * string) :=
  match fuel with
  | O => None
  | S fuel' =>
      match skip_ws s with
      | EmptyString => None
      | String c rest as s' =>
          if Ascii.eqb c dquote then
            match decode_string rest with
            | Some (str, r) => Some (JString str, r)
            | None => None
            end
          else if Ascii.eqb c "[" then
            match skip_ws rest with
            | String c' r =>
                if Ascii.eqb c' "]" then Some (JArray [], r)
                else match decode_items fuel' rest with
                     | Some (items, r') => Some (JArray items, r')
                     | None => None
                     end
            | EmptyString => None
            end
          else if Ascii.eqb c "{" then
            match skip_ws rest with
            | String c' r =>
                if Ascii.eqb c' "}" then Some (JObject [], r)
                else match decode_members fuel' rest with
                     | Some (fields, r') => Some (JObject fields, r')
                     | None => None
                     end
            | EmptyString => None
            end
          else if Ascii.eqb c "-" then
            match decode_natural rest with
            | Some (n, r) =>
                if n <=? MAX_SAFE_INTEGER then Some (JNumber (pretty (- n)), r) else None
            | None => None
            end
          else if is_digit c then
            match decode_natural s' with
            | Some (n, r) =>
                if n <=? MAX_SAFE_INTEGER then Some (JNumber (pretty n), r) else None
            | None => None
            end
          else
            match strip_prefix "true" s', strip_prefix "false" s', strip_prefix "null" s' with
            | Some r, _, _ => Some (JBool true, r)
            | _, Some r, _ => Some (JBool false, r)
            | _, _, Some r => Some (JNull, r)
            | _, _, _ => None
            end
      end
  end

with decode_items (fuel : nat) (s : string) : option (list JSON * string) :=
  match fuel with
  | O => None
  | S fuel' =>
      match decode_value fuel' s with
      | Some (v, r) =>
          match skip_ws r with
          | String c r' =>
              if Ascii.eqb c "," then
                match decode_items fuel' r' with
                | Some (vs, r'') => Some (v :: vs, r'')
                | None => None
                end
              else if Ascii.eqb c "]" then Some ([v], r')
              else None
          | EmptyString => None
          end
      | None => None
      end
  end

with decode_members (fuel : nat) (s : string) : option (list (string * JSON) * string) :=
  match fuel with
  | O => None
  | S fuel' =>
      match skip_ws s with
      | String q afterq =>
          if negb (Ascii.eqb q dquote) then None
          else
            match decode_string afterq with
            | Some (key, r) =>
                match skip_ws r with
                | String colon r1 =>
                    if negb (Ascii.eqb colon ":") then None
                    else
                      match decode_value fuel' r1 with
                      | Some (v, r2) =>
                          match skip_ws r2 with
                          | String c r3 =>
                              if Ascii.eqb c "," then
                                match decode_members fuel' r3 with
                                | Some (fs, r4) => Some ((key, v) :: fs, r4)
                                | None => None
                                end
                              else if Ascii.eqb c "}" then Some ([(key, v)], r3)
                              else None
                          | EmptyString => None
                          end
                      | None => None
                      end
                | EmptyString => None
                end
            | None => None
            end
      | EmptyString => None
      end
  end.

(** The value of a whole text. *)
Definition json_decode (text : string) : option JSON :=
  match decode_value (2 * String.length text + 2) text with
  | Some (v, r) => if String.eqb (skip_ws r) "" then Some v else None
  | None => None
  end.

(** A text between double quotes. *)
Definition quoted (s : string) : string :=
  String dquote s +:+ String dquote EmptyString.

(* ===================================================================== *)
(** * Vocabulary of the properties *)
(* ===================================================================== *)

(** The last byte of a text is a slash. *)
Fixpoint ends_with_slash (s : string) : bool :=
  match s with
  | EmptyString => false
  | String c rest =>
      match rest with
      | EmptyString => is_slash c
      | String _ _ => ends_with_slash rest
      end
  end.

(** An endpoint path in plain form: unreserved characters separated by
    slashes, a character other than a slash first and last, and no dot
    segment. *)
Definition plain_path (p : string) : bool :=
  match p with
  | EmptyString => false
  | String c _ => path_char c
  end
  && every (fun c => path_char c || is_slash c) p
  && negb (ends_with_slash p)
  && forallb (fun seg => negb (is_dot_segment seg) && negb (is_double_dot_segment seg))
             (split_slash p).

(** The pairs that the loop of [buildURL] appends for the entries of a
    mapping: the entries with a value, in order, with the value as a string. *)
Definition appended_pairs (entries : list (string * ParamValue)) : list (string * string) :=
  map (fun kv => (fst kv, String_of (snd kv)))
      (List.filter (fun kv => is_present (snd kv)) entries).

(** The bytes of the query of a built URL: the bytes that are not
    percent-encoded, the plus sign of a space, the percent sign of an
    encoded byte, and the three separators. *)
Definition query_byte (c : ascii) : bool :=
  urlencoded_plain c || Ascii.eqb c "+" || Ascii.eqb c "%"
  || Ascii.eqb c "=" || Ascii.eqb c "&" || Ascii.eqb c "?".

(** The configuration of the README, written with a slash after the host. *)
Definition readme_config : ERPServiceConfig.t :=
  {| ERPServiceConfig.baseURL := Some "https://erp-api.kisanlink.in/";
     ERPServiceConfig.defaultHeaders := None;
     ERPServiceConfig.getAccessToken := Some (fun _ => Some "abc123");
     ERPServiceConfig.timeout := None |}.

(** A normalised configuration with a token and no default header. *)
Definition example_config : ApiConfig.t :=
  {| ApiConfig.baseURL := "https://erp-api.kisanlink.in";
     ApiConfig.defaultHeaders := ∅;
     ApiConfig.getAccessToken := Some (fun _ => Some "abc123");
     ApiConfig.timeout := 30000 |}.

(** The same with the default headers that [config.ts] gives as its example. *)
Definition json_headers_config : ApiConfig.t :=
  {| ApiConfig.baseURL := "https://erp-api.kisanlink.in";
     ApiConfig.defaultHeaders := {[ "Content-Type" := "application/json" ]};
     ApiConfig.getAccessToken := Some (fun _ => Some "abc123");
     ApiConfig.timeout := 30000 |}.

(** The headers that the configuration and the call supply for a name: the
    per-call header when there is one, the default header otherwise. *)
Definition supplied_header (config : ApiConfig.t) (options : option RequestOptions.t)
    (name : string) : option string :=
  match (options ≫= RequestOptions.headers) ≫= (fun extra => extra !! name) with
  | Some v => Some v
  | None => ApiConfig.defaultHeaders config !! name
  end.

(** The text of an object with the single member [message]. *)
Definition message_text (m : string) : string :=
  "{" +:+ quoted "message" +:+ ":" +:+ quoted m +:+ "}".

(** A response without a [content-length] header. *)
Definition response_of (status : Z) (text : string) : Response.t :=
  {| Response.status := status; Response.content_length := None;
     Response.body := Some text |}.

(** A network that answers every call with the same response, in time. *)
Definition answers (response : Response.t) : FetchCall.t -> Race :=
  fun _ => ExchangeFirst (Fulfilled response).

(** A network that answers no call before the timer fires. *)
Definition too_slow : FetchCall.t -> Race := fun _ => TimerFirst.

(** The message of the abort on Node.js. *)
Definition node_abort_message : string := "This operation was aborted".

(** Per-call options that only set a timeout. *)
Definition with_timeout (ms : Z) : option RequestOptions.t :=
  Some {| RequestOptions.headers := None; RequestOptions.params := None;
          RequestOptions.timeout := Some ms |}.

(* ===================================================================== *)
(** * apiClient.ts: the client, and the earlier revision of the executor *)
(* ===================================================================== *)

(** How a network decides the race of a call, and what a request gives. *)
Abbreviation Backend := (FetchCall.t -> Race) (only parsing).
Abbreviation Outcome := (option (Completion JSON)) (only parsing).

(** [ApiClient]: the five methods that [createApiClient] returns. *)
Module ApiClient.
Record t : Type := mk {
  get : string -> option RequestOptions.t -> Backend -> Outcome;
  post : string -> JSValue -> option RequestOptions.t -> Backend -> Outcome;
  put : string -> JSValue -> option RequestOptions.t -> Backend -> Outcome;
  patch : string -> JSValue -> option RequestOptions.t -> Backend -> Outcome;
  delete : string -> option RequestOptions.t -> Backend -> Outcome
}.
End ApiClient.

(** The earlier revision of [buildURL] and [request]: the endpoint and the
    base address go to the URL constructor as they are, [buildURL] returns the
    URL and [request] serialises it; the [try] and its [catch] are the ones of
    the current revision. *)
Module Revision1Executor.

Definition buildURL (baseURL endpoint : string)
    (params : option (list (string * ParamValue))) : option URL :=
  match URL_new endpoint baseURL with
  | None => None
  | Some url =>
      Some match params with
           | Some entries => append_params url entries
           | None => url
           end
  end.

Definition fetch_call (config : ApiConfig.t) (method endpoint : string) (body : JSValue)
    (options : option RequestOptions.t) : option FetchCall.t :=
  match buildURL (ApiConfig.baseURL config) endpoint (options ≫= RequestOptions.params) with
  | None => None
  | Some url =>
      let headers := Revision1.buildHeaders config (options ≫= RequestOptions.headers) in
      Some {| FetchCall.url := URL_toString url;
              FetchCall.method := method;
              FetchCall.headers := headers;
              FetchCall.body := Revision1.outgoing_body body |}
  end.

Definition request (JSON_parse : string -> option JSON) (abort_message : string)
    (config : ApiConfig.t) (method endpoint : string) (body : JSValue)
    (options : option RequestOptions.t) (network : Backend) : Outcome :=
  match fetch_call config method endpoint body options with
  | None => None
  | Some call =>
      let timeout := effective_timeout config options in
      Some (settle JSON_parse method endpoint timeout (fetch abort_message (network call)))
  end.

End Revision1Executor.

(* ===================================================================== *)
(** * The callers: services and the client factory *)
(* ===================================================================== *)

(** [obj[key] = value] on the entries of an object: the value of a key that
    is there is replaced where it is, a new key comes last. *)
Fixpoint object_set (entries : list (string * ParamValue)) (key : string)
    (value : ParamValue) : list (string * ParamValue) :=
  match entries with
  | [] => [(key, value)]
  | (k, v) :: rest =>
      if String.eqb k key then (k, value) :: rest
      else (k, v) :: object_set rest key value
  end.

(** [obj[key]] on the entries of an object. *)
Fixpoint object_get (entries : list (string * ParamValue)) (key : string) : ParamValue :=
  match entries with
  | [] => PUndefined
  | (k, v) :: rest => if String.eqb k key then v else object_get rest key
  end.

(** [toQueryParams(filter)] of the report service.  The values of a filter
    are strings, numbers and booleans: a boolean and a number are kept, a
    string goes through [String].  The filter is given by its entries. *)
Definition toQueryParams (filter : option (list (string * ParamValue)))
    : option (list (string * ParamValue)) :=
  match filter with
  | None => None
  | Some entries =>
      let params :=
        fold_left
          (fun params kv =>
             match kv with
             | (key, value) =>
                 if is_present value then
                   match value with
                   | PBoolean _ => object_set params key value
                   | PNumber _ => object_set params key value
                   | _ => object_set params key (PString (String_of value))
                   end
                 else params
             end)
          entries [] in
      if (0 <? Z.of_nat (length params)) then Some params else None
  end.

(** [ReportService]: the seven reports. *)
Module ReportService.
Record t : Type := mk {
  products : option (list (string * ParamValue)) -> Backend -> Outcome;
  vendors : option (list (string * ParamValue)) -> Backend -> Outcome;
  customers : option (list (string * ParamValue)) -> Backend -> Outcome;
  inventory : option (list (string * ParamValue)) -> Backend -> Outcome;
  purchases : option (list (string * ParamValue)) -> Backend -> Outcome;
  sales : option (list (string * ParamValue)) -> Backend -> Outcome;
  returns : option (list (string * ParamValue)) -> Backend -> Outcome
}.
End ReportService.

(** [CategoryService]: the methods of [createCategoryService]. *)
Module CategoryService.
Record t : Type := mk {
  get : string -> Backend -> Outcome;
  getByName : string -> Backend -> Outcome;
  create : JSValue -> Backend -> Outcome;
  update : string -> JSValue -> Backend -> Outcome;
  delete : string -> Backend -> Outcome;
  seed : Backend -> Outcome;
  list : Backend -> Outcome
}.
End CategoryService.

Section Client.

Variable JSON_parse : string -> option JSON.
Variable abort_message : string.

(** [createApiClient(config)] *)
Definition createApiClient (config : ApiConfig.t) : ApiClient.t :=
  {| ApiClient.get := fun endpoint options =>
       request JSON_parse abort_message config "GET" endpoint Undefined options;
     ApiClient.post := fun endpoint body options =>
       request JSON_parse abort_message config "POST" endpoint body options;
     ApiClient.put := fun endpoint body options =>
       request JSON_parse abort_message config "PUT" endpoint body options;
     ApiClient.patch := fun endpoint body options =>
       request JSON_parse abort_message config "PATCH" endpoint body options;
     ApiClient.delete := fun endpoint options =>
       request JSON_parse abort_message config "DELETE" endpoint Undefined options |}.

(** [getReport(endpoint, filter)] of the report service: both branches return
    what [apiClient.get] gives; for the formats [xlsx] and [pdf] the call
    carries an [Accept] header. *)
Definition getReport (apiClient : ApiClient.t) (endpoint : string)
    (filter : option (list (string * ParamValue))) : Backend -> Outcome :=
  let params := toQueryParams filter in
  let format :=
    match filter with
    | Some entries => object_get entries "format"
    | None => PUndefined
    end in
  let is_format (name : string) :=
    match format with
    | PString f => String.eqb f name
    | _ => false
    end in
  if is_format "xlsx" || is_format "pdf" then
    ApiClient.get apiClient endpoint
      (Some {| RequestOptions.headers :=
                 Some {[ "Accept" :=
                           if is_format "xlsx"
                           then "application/vnd.openxmlformats-officedocument.spreadsheetml.sheet"
                           else "application/pdf" ]};
               RequestOptions.params := params;
               RequestOptions.timeout := None |})
  else
    ApiClient.get apiClient endpoint
      (Some {| RequestOptions.headers := None;
               RequestOptions.params := params;
               RequestOptions.timeout := None |}).

(** [createReportService(apiClient)] *)
Definition createReportService (apiClient : ApiClient.t) : ReportService.t :=
  {| ReportService.products := getReport apiClient "/api/v1/reports/products";
     ReportService.vendors := getReport apiClient "/api/v1/reports/vendors";
     ReportService.customers := getReport apiClient "/api/v1/reports/customers";
     ReportService.inventory := getReport apiClient "/api/v1/reports/inventory";
     ReportService.purchases := getReport apiClient "/api/v1/reports/purchases";
     ReportService.sales := getReport apiClient "/api/v1/reports/sales";
     ReportService.returns := getReport apiClient "/api/v1/reports/returns" |}.

(** [createCategoryService(apiClient)] *)
Definition createCategoryService (apiClient : ApiClient.t) : CategoryService.t :=
  {| CategoryService.list := ApiClient.get apiClient "/api/v1/categories" None;
     CategoryService.get := fun id =>
       ApiClient.get apiClient ("/api/v1/categories/" +:+ id) None;
     CategoryService.getByName := fun name =>
       ApiClient.get apiClient ("/api/v1/categories/name/" +:+ name) None;
     CategoryService.create := fun data =>
       ApiClient.post apiClient "/api/v1/categories" data None;
     CategoryService.update := fun id data =>
       ApiClient.patch apiClient ("/api/v1/categories/" +:+ id) data None;
     CategoryService.delete := fun id =>
       ApiClient.delete apiClient ("/api/v1/categories/" +:+ id) None;
     CategoryService.seed :=
       ApiClient.post apiClient "/api/v1/categories/seed" (Json (JObject [])) None |}.

(** [createERPService(config)]: the configuration is validated, one client is
    created from it, and every service factory is applied to that client.
    The table of the services is a parameter: [services apiClient] stands for
    the object literal of the source. *)
Definition createERPService {Services : Type} (services : ApiClient.t -> Services)
    (config : ERPServiceConfig.t) : Completion Services :=
  match validateConfig config with
  | Throw error => Throw error
  | Return validatedConfig =>
      let apiClient := createApiClient validatedConfig in
      Return (services apiClient)
  end.

End Client.

(** [AttachmentService]: the methods of [createAttachmentService].  A [File]
    is given by its text. *)
Module AttachmentService.
Record t : Type := mk {
  get : string -> Backend -> Outcome;
  getByEntity : string -> string -> Backend -> Outcome;
  upload : string -> string -> string -> Backend -> Outcome;
  getInfo : string -> Backend -> Outcome;
  getDownloadUrl : string -> Backend -> Outcome;
  download : string -> Backend -> Outcome;
  delete : string -> Backend -> Outcome;
  list : option (list (string * ParamValue)) -> Backend -> Outcome
}.
End AttachmentService.

(** [createAttachmentService(apiClient)] *)
Definition createAttachmentService (apiClient : ApiClient.t) : AttachmentService.t :=
  {| AttachmentService.list := fun params =>
       ApiClient.get apiClient "/api/v1/attachments"
         (Some {| RequestOptions.headers := None; RequestOptions.params := params;
                  RequestOptions.timeout := None |});
     AttachmentService.get := fun id =>
       ApiClient.get apiClient ("/api/v1/attachments/" +:+ id) None;
     AttachmentService.getByEntity := fun entityType entityId =>
       ApiClient.get apiClient
         ("/api/v1/attachments/entity/" +:+ entityType +:+ "/" +:+ entityId) None;
     AttachmentService.upload := fun file entityType entityId =>
       let formData :=
         FormData [("file", file); ("entity_type", entityType); ("entity_id", entityId)] in
       ApiClient.post apiClient "/api/v1/attachments" formData
         (Some {| RequestOptions.headers :=
                    Some {[ "Content-Type" := "multipart/form-data" ]};
                  RequestOptions.params := None; RequestOptions.timeout := None |});
     AttachmentService.getInfo := fun id =>
       ApiClient.get apiClient ("/api/v1/attachments/" +:+ id +:+ "/info") None;
     AttachmentService.getDownloadUrl := fun id =>
       ApiClient.get apiClient ("/api/v1/attachments/" +:+ id +:+ "/url") None;
     AttachmentService.download := fun id =>
       ApiClient.get apiClient ("/api/v1/attachments/" +:+ id +:+ "/download")
         (Some {| RequestOptions.headers :=
                    Some {[ "Accept" := "application/octet-stream" ]};
                  RequestOptions.params := None; RequestOptions.timeout := None |});
     AttachmentService.delete := fun id =>
       ApiClient.delete apiClient ("/api/v1/attachments/" +:+ id) None |}.

(** The configuration that [validateConfig] reads from a normalised one. *)
Definition as_supplied (config : ApiConfig.t) : ERPServiceConfig.t :=
  {| ERPServiceConfig.baseURL := Some (ApiConfig.baseURL config);
     ERPServiceConfig.defaultHeaders := Some (ApiConfig.defaultHeaders config);
     ERPServiceConfig.getAccessToken := ApiConfig.getAccessToken config;
     ERPServiceConfig.timeout := Some (ApiConfig.timeout config) |}.

(** An identifier in plain form: unreserved characters, at least one, and not
    a dot segment. *)
Definition plain_id (id : string) : bool :=
  negb (String.eqb id "") && every path_char id
  && negb (is_dot_segment id) && negb (is_double_dot_segment id).

(** The token that the configuration yields for a request, if any: the
    result of the capability when it is a non-empty string. *)
Definition current_token (config : ApiConfig.t) : option string :=
  match ApiConfig.getAccessToken config with
  | Some getAccessToken =>
      match getAccessToken tt with
      | Some tok => if String.eqb tok "" then None else Some tok
      | None => None
      end
  | None => None
  end.

(** The error that [fetch] is rejected with when the connection fails. *)
Definition fetch_failed : Error :=
  {| name := "TypeError"; message := "fetch failed"; status := None; response := None |}.

(* ===================================================================== *)
(** * Properties of the error taxonomy *)
(* ===================================================================== *)

(** Case analysis on the integer tests of a goal. *)
Ltac case_status :=
  repeat match goal with
         | |- context [Z.eqb ?a ?b] => destruct (Z.eqb_spec a b)
         | |- context [Z.leb ?a ?b] => destruct (Z.leb_spec a b)
         end.

Lemma createErrorFromStatus_message (st : Z) (msg : string) (raw : JSValue) :
  message (createErrorFromStatus st msg raw) = msg.
Proof. unfold createErrorFromStatus. case_status; reflexivity. Qed.

Lemma createErrorFromStatus_status (st : Z) (msg : string) (raw : JSValue) :
  status (createErrorFromStatus st msg raw) = Some st.
Proof. unfold createErrorFromStatus. case_status; subst; reflexivity. Qed.

Lemma createErrorFromStatus_includes_Error (st : Z) (msg : string) (raw : JSValue) :
  includes (name (createErrorFromStatus st msg raw)) "Error" = true.
Proof. unfold createErrorFromStatus. case_status; reflexivity. Qed.

(** C2. [createErrorFromStatus] gives every integer status an error of
    exactly one kind: Validation for 400, Authentication for 401,
    Authorization for 403, NotFound for 404, Conflict for 409, Server for a
    status of 500 or more and Generic for any other status, the last two with
    the status they were given; the kind is the same for every message and
    every raw body. *)
Theorem createErrorFromStatus_classification (st : Z) (msg : string) (raw : JSValue) :
  let e := createErrorFromStatus st msg raw in
  (exists k, kind e = Some k)
  /\ (st = 400 -> kind e = Some Validation)
  /\ (st = 401 -> kind e = Some Authentication)
  /\ (st = 403 -> kind e = Some Authorization)
  /\ (st = 404 -> kind e = Some NotFound)
  /\ (st = 409 -> kind e = Some Conflict)
  /\ (500 <= st -> kind e = Some Server /\ status e = Some st)
  /\ (st < 500 -> st <> 400 -> st <> 401 -> st <> 403 -> st <> 404 -> st <> 409 ->
      kind e = Some Generic /\ status e = Some st)
  /\ (forall msg' raw', kind (createErrorFromStatus st msg' raw') = kind e).
Proof.
  cbv zeta. unfold createErrorFromStatus.
  repeat split; intros; subst; case_status; try lia; try reflexivity;
    eexists; reflexivity.
Qed.

Lemma createErrorFromStatus_classification_witness :
  kind (createErrorFromStatus 503 "Service Unavailable" Undefined) = Some Server
  /\ status (createErrorFromStatus 503 "Service Unavailable" Undefined) = Some 503.
Proof.
  destruct (createErrorFromStatus_classification 503 "Service Unavailable" Undefined)
    as (_ & _ & _ & _ & _ & _ & Hserver & _).
  apply Hserver. lia.
Defined.

(* ===================================================================== *)
(** * Properties of strings *)
(* ===================================================================== *)

Lemma append_nil_r (s : string) : s +:+ "" = s.
Proof. induction s as [|c s IH]; simpl; [reflexivity | now rewrite IH]. Qed.

Lemma append_assoc (s1 s2 s3 : string) : (s1 +:+ s2) +:+ s3 = s1 +:+ (s2 +:+ s3).
Proof. induction s1 as [|c s1 IH]; simpl; [reflexivity | now rewrite IH]. Qed.

Lemma every_append (p : ascii -> bool) (s1 s2 : string) :
  every p (s1 +:+ s2) = every p s1 && every p s2.
Proof.
  induction s1 as [|c s1 IH]; simpl; [reflexivity |].
  rewrite IH. now rewrite andb_assoc.
Qed.

Lemma every_impl (p q : ascii -> bool) (s : string) :
  (forall c, p c = true -> q c = true) -> every p s = true -> every q s = true.
Proof.
  intros Hpq. induction s as [|c s IH]; simpl; [reflexivity |].
  intros [Hc Hs]%andb_true_iff. rewrite (Hpq c Hc). simpl. now apply IH.
Qed.

Lemma every_is_slash_slashes (n : nat) : every is_slash (slashes n) = true.
Proof. induction n as [|n IH]; simpl; [reflexivity | exact IH]. Qed.

(** A text is followed by a slash or it is not. *)
Lemma final_slash_dec (s : string) :
  (exists s', s = s' +:+ "/") \/ (forall s', s <> s' +:+ "/").
Proof.
  induction s as [|c s IH].
  - right. intros [|c' s']; simpl; [discriminate |]. destruct s'; discriminate.
  - destruct IH as [[s' ->] | Hno].
    + left. exists (String c s'). reflexivity.
    + destruct s as [|d s].
      * destruct (Ascii.eqb_spec c "/") as [-> | Hc].
        -- left. exists "". reflexivity.
        -- right. intros [|c' s']; simpl; intros Heq; inversion Heq; subst.
           ++ now apply Hc.
           ++ destruct s'; discriminate.
      * right. intros [|c' s']; simpl; intros Heq; inversion Heq; subst.
        now apply (Hno s').
Qed.

Lemma ends_with_slash_append (s t : string) :
  t <> "" -> ends_with_slash (s +:+ t) = ends_with_slash t.
Proof.
  intros Ht. induction s as [|c s IH]; [reflexivity |].
  simpl. destruct (s +:+ t) eqn:Hst; [| exact IH].
  destruct s; simpl in Hst; [congruence | discriminate].
Qed.

(* ===================================================================== *)
(** * Properties of the configuration normaliser *)
(* ===================================================================== *)

Lemma replace_final_slash_append (s : string) : replace_final_slash (s +:+ "/") = s.
Proof.
  induction s as [|c s IH]; [reflexivity |].
  simpl. destruct (s +:+ "/") eqn:Hs.
  - destruct s; discriminate.
  - now rewrite IH.
Qed.

Lemma replace_final_slash_none (s : string) :
  (forall s', s <> s' +:+ "/") -> replace_final_slash s = s.
Proof.
  induction s as [|c s IH]; intros Hno; [reflexivity |].
  simpl. destruct s as [|d s].
  - destruct (Ascii.eqb_spec c "/") as [-> | Hc]; [| reflexivity].
    exfalso. now apply (Hno "").
  - rewrite IH; [reflexivity |].
    intros s' Hs'. apply (Hno (String c s')). simpl. now rewrite Hs'.
Qed.

(** The normaliser leaves no final slash when the base address ends in at
    most one. *)
Lemma replace_final_slash_clean (b : string) :
  (forall s, b <> s +:+ "//") -> forall s, replace_final_slash b <> s +:+ "/".
Proof.
  intros Hdouble s Hs.
  destruct (final_slash_dec b) as [[s' ->] | Hnone].
  - rewrite replace_final_slash_append in Hs. subst s'.
    apply (Hdouble s). now rewrite append_assoc.
  - rewrite (replace_final_slash_none b Hnone) in Hs. now apply (Hnone s).
Qed.

(** C5, as the code has it.  [validateConfig] throws exactly when the base
    address is missing or empty, and what it throws is a plain [Error] with
    the message "ERPServiceConfig.baseURL is required".  For every other
    input it returns a record whose base address is the given one without
    its final slash when it ends in one slash, and the given one when it ends
    in none, so that it does not end in a slash when the given one does not
    end in two; whose default headers are the given mapping, or the empty
    mapping when there is none; whose timeout is the given one, or 30000 when
    there is none or it is 0; and whose token capability is the given one. *)
Theorem validateConfig_normalises (config : ERPServiceConfig.t) :
  (validateConfig config
     = Throw (ThrownError (new_Error "ERPServiceConfig.baseURL is required"))
   <-> ERPServiceConfig.baseURL config = None \/ ERPServiceConfig.baseURL config = Some "")
  /\ (forall b, ERPServiceConfig.baseURL config = Some b -> b <> "" ->
      exists n, validateConfig config = Return n
        /\ (forall s, b = s +:+ "/" -> (forall s', s <> s' +:+ "/") ->
            ApiConfig.baseURL n = s)
        /\ ((forall s, b <> s +:+ "/") -> ApiConfig.baseURL n = b)
        /\ ((forall s, b <> s +:+ "//") -> forall s, ApiConfig.baseURL n <> s +:+ "/")
        /\ ApiConfig.defaultHeaders n = default ∅ (ERPServiceConfig.defaultHeaders config)
        /\ (ERPServiceConfig.timeout config = None \/ ERPServiceConfig.timeout config = Some 0 ->
            ApiConfig.timeout n = 30000)
        /\ (forall t, ERPServiceConfig.timeout config = Some t -> t <> 0 ->
            ApiConfig.timeout n = t)
        /\ ApiConfig.getAccessToken n = ERPServiceConfig.getAccessToken config).
Proof.
  unfold validateConfig. split.
  - destruct (ERPServiceConfig.baseURL config) as [b|]; [| intuition].
    destruct (String.eqb_spec b "") as [-> | Hb].
    + intuition.
    + split; [discriminate |]. intros [H | H]; [discriminate |]. congruence.
  - intros b -> Hb. destruct (String.eqb_spec b "") as [-> | _]; [congruence |].
    eexists. split; [reflexivity |]. simpl.
    split; [| split; [| split; [| split; [| split; [| split]]]]].
    + intros s -> _. apply replace_final_slash_append.
    + apply replace_final_slash_none.
    + apply replace_final_slash_clean.
    + destruct (ERPServiceConfig.defaultHeaders config); reflexivity.
    + intros [-> | ->]; reflexivity.
    + intros t -> Ht. destruct (Z.eqb_spec t 0); [contradiction | reflexivity].
    + reflexivity.
Qed.

Lemma validateConfig_normalises_witness :
  exists n, validateConfig readme_config = Return n
    /\ ApiConfig.baseURL n = "https://erp-api.kisanlink.in"
    /\ ApiConfig.timeout n = 30000.
Proof.
  destruct (validateConfig_normalises readme_config) as [_ H].
  destruct (H "https://erp-api.kisanlink.in/") as (n & Hn & Hstrip & _ & _ & _ & Ht & _ & _).
  - reflexivity.
  - discriminate.
  - exists n. split; [exact Hn |]. split.
    + apply Hstrip; [reflexivity |].
      intros s' Hs'. apply (f_equal ends_with_slash) in Hs'.
      rewrite ends_with_slash_append in Hs' by discriminate. discriminate Hs'.
    + apply Ht. left. reflexivity.
Defined.

(** C5, as the claim states it, fails: of two final slashes one is left, so
    the normalised base address still ends in a slash; and the failure for an
    empty base address is a plain [Error], which has no kind, not a
    Validation error. *)
Lemma validateConfig_leaves_a_final_slash :
  (exists n,
      validateConfig {| ERPServiceConfig.baseURL := Some "https://erp-api.kisanlink.in//";
                        ERPServiceConfig.defaultHeaders := None;
                        ERPServiceConfig.getAccessToken := None;
                        ERPServiceConfig.timeout := None |} = Return n
      /\ ApiConfig.baseURL n = "https://erp-api.kisanlink.in" +:+ "/")
  /\ (exists e,
      validateConfig {| ERPServiceConfig.baseURL := Some "";
                        ERPServiceConfig.defaultHeaders := None;
                        ERPServiceConfig.getAccessToken := None;
                        ERPServiceConfig.timeout := None |} = Throw (ThrownError e)
      /\ name e = "Error" /\ kind e = None).
Proof.
  split.
  - eexists. split; reflexivity.
  - eexists. split; [reflexivity |]. split; reflexivity.
Qed.

(* ===================================================================== *)
(** * Properties of the URL builder *)
(* ===================================================================== *)

Lemma normalizeURLPath_slashes (s : string) (n : nat) :
  normalizeURLPath (s +:+ slashes n) = normalizeURLPath s.
Proof.
  induction s as [|c s IH].
  - destruct n as [|n]; [reflexivity |].
    simpl. now rewrite every_is_slash_slashes.
  - simpl. rewrite every_append, every_is_slash_slashes, andb_true_r.
    now rewrite IH.
Qed.

Lemma every_is_slash_ends (s : string) :
  s <> "" -> every is_slash s = true -> ends_with_slash s = true.
Proof.
  induction s as [|c s IH]; [congruence |].
  intros _. simpl. intros [Hc Hs]%andb_true_iff.
  destruct s as [|d s]; [exact Hc |]. apply IH; [discriminate | exact Hs].
Qed.

Lemma normalizeURLPath_clean (s : string) :
  ends_with_slash s = false -> normalizeURLPath s = s.
Proof.
  induction s as [|c s IH]; [reflexivity |].
  intros Hend. cbn [normalizeURLPath].
  destruct s as [|d s].
  - simpl in Hend. simpl. now rewrite Hend.
  - change (ends_with_slash (String c (String d s))) with (ends_with_slash (String d s)) in Hend.
    destruct (every is_slash (String d s)) eqn:Hall.
    + apply every_is_slash_ends in Hall; [congruence | discriminate].
    + rewrite andb_false_r. now rewrite IH.
Qed.

(** The build does not see the slashes that follow the base address or the
    endpoint. *)
Lemma buildURL_trailing_slashes (baseURL endpoint : string) (k m : nat)
    (params : option (list (string * ParamValue))) :
  buildURL (baseURL +:+ slashes k) (endpoint +:+ slashes m) params
  = buildURL baseURL endpoint params.
Proof. unfold buildURL. now rewrite !normalizeURLPath_slashes. Qed.

Lemma path_char_not_slash (c : ascii) : path_char c = true -> is_slash c = false.
Proof.
  unfold is_slash. destruct (Ascii.eqb_spec c "/") as [-> | _]; [| reflexivity].
  discriminate.
Qed.

(** What the unreserved characters are to the URL parser: bytes that it
    accepts in a path, copies as they are, and that are no colon. *)
Lemma path_char_facts (c : ascii) :
  path_char c = true ->
  url_byte c = true /\ in_path_percent_encode_set c = false /\ Ascii.eqb c ":" = false.
Proof.
  destruct c as [[] [] [] [] [] [] [] []]; vm_compute; intros H;
    first [discriminate H | repeat split].
Qed.

Lemma authority_byte_not_slash (c : ascii) :
  host_byte c || Ascii.eqb c ":" = true -> negb (is_slash c) = true.
Proof.
  unfold is_slash. destruct (Ascii.eqb_spec c "/") as [-> | _]; [| reflexivity].
  vm_compute. discriminate.
Qed.

Lemma until_slash_none (s : string) :
  every (fun c => negb (is_slash c)) s = true -> until_slash s = (s, None).
Proof.
  induction s as [|c s IH]; [reflexivity |].
  simpl. intros [Hc Hs]%andb_true_iff.
  apply negb_true_iff in Hc. rewrite Hc, (IH Hs). reflexivity.
Qed.

Lemma skip_slashes_clean (s : string) :
  every (fun c => negb (is_slash c)) s = true -> skip_slashes s = s.
Proof.
  destruct s as [|c s]; [reflexivity |].
  simpl. intros [Hc _]%andb_true_iff. apply negb_true_iff in Hc. now rewrite Hc.
Qed.

(** An authority that the parser accepts is not empty and holds no slash. *)
Lemma parse_host_port_inv (sch authority h : string) :
  parse_host_port sch authority = Some h ->
  authority <> "" /\ every (fun c => negb (is_slash c)) authority = true.
Proof.
  unfold parse_host_port.
  destruct (every (fun c => host_byte c || Ascii.eqb c ":") authority) eqn:Hbytes;
    [| discriminate].
  intros H. split.
  - intros ->. discriminate H.
  - apply (every_impl (fun c => host_byte c || Ascii.eqb c ":")); [| exact Hbytes].
    exact authority_byte_not_slash.
Qed.

Lemma split_slash_not_nil (s : string) : split_slash s <> [].
Proof.
  destruct s as [|c s]; simpl; [discriminate |].
  destruct (is_slash c); [discriminate |].
  destruct (split_slash s); discriminate.
Qed.

(** The URL serialiser writes back the path that the slashes delimit. *)
Lemma serialize_path_split_slash (p : string) :
  serialize_path (split_slash p) = "/" +:+ p.
Proof.
  induction p as [|c p IH]; [reflexivity |].
  simpl. unfold is_slash at 1. destruct (Ascii.eqb_spec c "/") as [-> | Hc].
  - simpl. now rewrite IH.
  - destruct (split_slash p) as [|seg segs] eqn:Hsplit.
    + now apply split_slash_not_nil in Hsplit.
    + simpl in IH. injection IH as IH. simpl. now rewrite IH.
Qed.

(** Without dot segments the path state appends the segments as they are. *)
Lemma path_state_plain (segments acc : list string) :
  forallb (fun seg => negb (is_dot_segment seg) && negb (is_double_dot_segment seg)) segments
  = true ->
  path_state acc segments = (acc ++ segments)%list.
Proof.
  revert acc. induction segments as [|seg rest IH]; intros acc Hplain.
  - simpl. now rewrite app_nil_r.
  - simpl in Hplain. apply andb_true_iff in Hplain as [Hseg Hrest].
    apply andb_true_iff in Hseg as [Hdot Hdd].
    apply negb_true_iff in Hdot, Hdd.
    cbn [path_state]. rewrite Hdot, Hdd.
    rewrite (IH _ Hrest). now rewrite <- app_assoc.
Qed.

(** A text of unreserved characters and slashes goes through the checks and
    the encoding of the URL parser as it is. *)
Lemma plain_bytes_url (q : string) :
  every (fun c => path_char c || is_slash c) q = true -> every url_byte q = true.
Proof.
  apply every_impl. intros c [Hc | Hc]%orb_true_iff.
  - now apply path_char_facts.
  - unfold is_slash in Hc. apply Ascii.eqb_eq in Hc as ->. reflexivity.
Qed.

Lemma plain_bytes_no_scheme (q : string) :
  every (fun c => path_char c || is_slash c) q = true -> scheme_run q = false.
Proof.
  induction q as [|c q IH]; [reflexivity |].
  simpl. intros [Hc Hq]%andb_true_iff.
  assert (Hcolon : Ascii.eqb c ":" = false).
  { apply orb_true_iff in Hc as [Hc | Hc].
    - now apply path_char_facts.
    - unfold is_slash in Hc. apply Ascii.eqb_eq in Hc as ->. reflexivity. }
  rewrite Hcolon, (IH Hq). now destruct (scheme_byte c).
Qed.

Lemma map_path_encode_plain (q : string) :
  every (fun c => path_char c || is_slash c) q = true ->
  map path_encode (split_slash q) = split_slash q.
Proof.
  induction q as [|c q IH]; [reflexivity |].
  simpl. intros [Hc Hq]%andb_true_iff. specialize (IH Hq).
  destruct (is_slash c) eqn:Hslash.
  - simpl. now rewrite IH.
  - rewrite orb_false_r in Hc. destruct (path_char_facts c Hc) as (_ & Hplain & _).
    destruct (split_slash q) as [|seg segs].
    + simpl. now rewrite Hplain.
    + simpl in IH. injection IH as Hseg Hsegs.
      simpl. now rewrite Hplain, Hseg, Hsegs.
Qed.

(** The URL parser on a base address made of a scheme and an authority. *)
Lemma URL_parse_host (sch authority h : string) :
  sch = "http" \/ sch = "https" ->
  parse_host_port sch authority = Some h ->
  URL_parse (sch +:+ "://" +:+ authority)
  = Some {| scheme := sch; host := h; path := [EmptyString]; searchParams := [] |}.
Proof.
  intros Hsch Hh. destruct (parse_host_port_inv _ _ _ Hh) as [_ Hnoslash].
  assert (Hauth : parse_authority sch authority
                  = Some {| scheme := sch; host := h; path := [EmptyString];
                            searchParams := [] |}).
  { unfold parse_authority. now rewrite (until_slash_none _ Hnoslash), Hh. }
  unfold URL_parse.
  destruct Hsch as [-> | ->].
  - change (strip_prefix_ci "https:" ("http" +:+ "://" +:+ authority)) with (@None string).
    change (strip_prefix_ci "http:" ("http" +:+ "://" +:+ authority))
      with (Some ("//" +:+ authority)).
    cbv beta iota.
    change (skip_slashes ("//" +:+ authority)) with (skip_slashes authority).
    now rewrite (skip_slashes_clean _ Hnoslash).
  - change (strip_prefix_ci "https:" ("https" +:+ "://" +:+ authority))
      with (Some ("//" +:+ authority)).
    cbv beta iota.
    change (skip_slashes ("//" +:+ authority)) with (skip_slashes authority).
    now rewrite (skip_slashes_clean _ Hnoslash).
Qed.

Lemma plain_path_inv (p : string) :
  plain_path p = true ->
  (exists c rest, p = String c rest /\ path_char c = true)
  /\ every (fun c => path_char c || is_slash c) p = true
  /\ ends_with_slash p = false
  /\ parse_path [] p = split_slash p.
Proof.
  unfold plain_path. intros H.
  apply andb_true_iff in H as [H Hdots].
  apply andb_true_iff in H as [H Hend].
  apply andb_true_iff in H as [Hfirst Hchars].
  apply negb_true_iff in Hend.
  repeat split; try assumption.
  - destruct p as [|c rest]; [discriminate |]. now exists c, rest.
  - unfold parse_path. rewrite (map_path_encode_plain _ Hchars).
    now rewrite (path_state_plain _ [] Hdots).
Qed.

(** The URL constructor on a base address made of a scheme and an authority
    and a plain path that no slash or one slash precedes. *)
Lemma URL_new_plain (sch authority h p : string) (j : nat) :
  sch = "http" \/ sch = "https" ->
  parse_host_port sch authority = Some h ->
  plain_path p = true ->
  (j <= 1)%nat ->
  URL_new (slashes j +:+ p) (sch +:+ "://" +:+ authority)
  = Some {| scheme := sch; host := h; path := split_slash p; searchParams := [] |}.
Proof.
  intros Hsch Hh Hp Hj.
  destruct (plain_path_inv p Hp) as ((c & rest & -> & Hc) & Hchars & _ & Hstate).
  pose proof (path_char_not_slash c Hc) as Hns.
  pose proof (plain_bytes_url _ Hchars) as Hbytes.
  unfold URL_new. rewrite (URL_parse_host sch authority h Hsch Hh).
  destruct j as [|[|j]]; [| | lia].
  - cbn [slashes String.append]. rewrite Hbytes. cbn [negb].
    assert (Hscheme : has_scheme (String c rest) = false).
    { cbn [has_scheme]. cbn [every] in Hchars. apply andb_true_iff in Hchars as [_ Hrest].
      rewrite (plain_bytes_no_scheme _ Hrest). apply andb_false_r. }
    rewrite Hscheme. cbn [scheme host path removelast].
    rewrite Hns, Hstate. reflexivity.
  - cbn [slashes String.append].
    change (every url_byte (String "/" (String c rest)))
      with (every url_byte (String c rest)).
    rewrite Hbytes. cbn [negb].
    change (has_scheme (String "/" (String c rest))) with false.
    change (is_slash "/") with true. cbn [scheme host].
    rewrite Hns, Hstate. reflexivity.
Qed.

Lemma no_slash_ends (s : string) :
  every (fun c => negb (is_slash c)) s = true -> ends_with_slash s = false.
Proof.
  induction s as [|c s IH]; [reflexivity |].
  simpl. intros [Hc Hs]%andb_true_iff.
  destruct s as [|d s]; [now apply negb_true_iff in Hc | now apply IH].
Qed.

Lemma appended_pairs_cons (key : string) (value : ParamValue)
    (entries : list (string * ParamValue)) :
  appended_pairs ((key, value) :: entries)
  = if is_present value
    then (key, String_of value) :: appended_pairs entries
    else appended_pairs entries.
Proof. unfold appended_pairs. simpl. now destruct (is_present value). Qed.

(** The loop of [buildURL] leaves the URL as it is but for the pairs that it
    appends. *)
Lemma append_params_spec (entries : list (string * ParamValue)) (url : URL) :
  append_params url entries
  = {| scheme := scheme url; host := host url; path := path url;
       searchParams := (searchParams url ++ appended_pairs entries)%list |}.
Proof.
  unfold append_params. revert url.
  induction entries as [|[key value] entries IH]; intros url.
  - simpl. rewrite app_nil_r. now destruct url.
  - cbn [fold_left]. rewrite IH, appended_pairs_cons.
    destruct (is_present value); [| reflexivity].
    cbn [searchParams_append scheme host path searchParams].
    now rewrite <- app_assoc.
Qed.

(** C3, as the code has it.  Take a base address made of the scheme [http]
    or [https], [://] and an authority that the URL parser accepts: a host of
    ASCII letters, digits, hyphens, dots and underscores (a domain without
    Punycode label, or an IPv4 address), possibly followed by a colon and a
    port up to 65535; no path segment; then no, one or many slashes.  Take an
    endpoint path in plain form preceded by no slash or one slash and
    followed by no, one or many slashes.  The URL builder gives the scheme,
    [://], the authority as the URL serialiser writes it ([h]: the host in
    lower case, an IPv4 address in dotted decimal form, the port unless it is
    the default port of the scheme), one slash, the endpoint path and the
    query; the slashes that follow either part never change the result. *)
Theorem buildURL_one_separating_slash (sch authority h p : string) (j k m : nat)
    (params : option (list (string * ParamValue))) :
  sch = "http" \/ sch = "https" ->
  parse_host_port sch authority = Some h ->
  plain_path p = true ->
  (j <= 1)%nat ->
  buildURL (sch +:+ "://" +:+ authority +:+ slashes k) (slashes j +:+ p +:+ slashes m) params
  = Some (sch +:+ "://" +:+ h +:+ "/" +:+ p
          +:+ query_string (match params with
                            | Some entries => appended_pairs entries
                            | None => []
                            end)).
Proof.
  intros Hsch Hh Hp Hj.
  replace (sch +:+ "://" +:+ authority +:+ slashes k)
    with ((sch +:+ "://" +:+ authority) +:+ slashes k)
    by now rewrite !append_assoc.
  replace (slashes j +:+ p +:+ slashes m) with ((slashes j +:+ p) +:+ slashes m)
    by now rewrite !append_assoc.
  rewrite buildURL_trailing_slashes. unfold buildURL.
  destruct (parse_host_port_inv _ _ _ Hh) as [Hne Hnoslash].
  destruct (plain_path_inv p Hp) as ((c & rest & Hpeq & Hc) & _ & Hend & _).
  rewrite (normalizeURLPath_clean (sch +:+ "://" +:+ authority)).
  2:{ replace (sch +:+ "://" +:+ authority) with ((sch +:+ "://") +:+ authority)
        by now rewrite append_assoc.
      rewrite (ends_with_slash_append _ authority Hne). now apply no_slash_ends. }
  rewrite (normalizeURLPath_clean (slashes j +:+ p)).
  2:{ rewrite ends_with_slash_append; [exact Hend | subst p; discriminate]. }
  rewrite (URL_new_plain sch authority h p j Hsch Hh Hp Hj).
  f_equal. destruct params as [entries|].
  - rewrite append_params_spec. unfold URL_toString.
    cbn [scheme host path searchParams app].
    rewrite serialize_path_split_slash, !append_assoc. reflexivity.
  - unfold URL_toString. cbn [scheme host path searchParams].
    rewrite serialize_path_split_slash, !append_assoc. reflexivity.
Qed.

Lemma buildURL_one_separating_slash_witness :
  buildURL "http://LocalHost:3000//" "/api/v1/sales///" None
  = Some "http://localhost:3000/api/v1/sales".
Proof.
  exact (buildURL_one_separating_slash "http" "LocalHost:3000" "localhost:3000"
           "api/v1/sales" 1 2 3 None (or_introl eq_refl) eq_refl eq_refl (le_n 1)).
Defined.

(** The URL parser on the base addresses of the documentation and on some
    others: a port and digits in the host, letter case, an IPv4 address, a
    default port, dot segments and bytes that the path state encodes. *)
Lemma URL_parse_examples :
  URL_toString <$> URL_parse "http://localhost:3000" = Some "http://localhost:3000/"
  /\ URL_toString <$> URL_parse "https://erp-api2.kisanlink.in"
     = Some "https://erp-api2.kisanlink.in/"
  /\ URL_toString <$> URL_parse "HTTPS://ERP-API.Kisanlink.IN:443/api/../v1"
     = Some "https://erp-api.kisanlink.in/v1"
  /\ URL_toString <$> URL_parse "http://127.0.0.1:8080/a/%2E/b" = Some "http://127.0.0.1:8080/a/b"
  /\ URL_toString <$> URL_parse "http://0x7f.1" = Some "http://127.0.0.1/"
  /\ URL_toString <$> URL_parse "http://localhost:99999" = None
  /\ URL_toString <$> URL_new "/api/v1/sales/S:1{x}" "http://localhost:3000"
     = Some "http://localhost:3000/api/v1/sales/S:1%7Bx%7D".
Proof. repeat split; reflexivity. Qed.

(** C3, as the claim states it, fails: two slashes before the endpoint path
    make its first segment the host of the URL; and a path segment of the
    base address is not kept before an endpoint path, with or without a
    slash before it. *)
Lemma buildURL_loses_the_base :
  buildURL "https://erp-api.kisanlink.in" "//api/v1/sales" None
  = Some "https://api/v1/sales"
  /\ buildURL "https://erp-api.kisanlink.in/erp" "/api/v1/sales" None
     = Some "https://erp-api.kisanlink.in/api/v1/sales"
  /\ buildURL "https://erp-api.kisanlink.in/erp/" "api/v1/sales" None
     = Some "https://erp-api.kisanlink.in/api/v1/sales".
Proof. repeat split; reflexivity. Qed.

Lemma URL_new_searchParams (input base : string) (url : URL) :
  URL_new input base = Some url -> searchParams url = [].
Proof.
  assert (Hauth : forall sch i u, parse_authority sch i = Some u -> searchParams u = []).
  { intros sch i u. unfold parse_authority.
    destruct (until_slash i) as [a after].
    destruct (parse_host_port sch a); [| discriminate].
    destruct after as [q|]; [| now intros [= <-]].
    destruct (every url_byte q); [| discriminate]. now intros [= <-]. }
  assert (Hparse : forall i u, URL_parse i = Some u -> searchParams u = []).
  { intros i u. unfold URL_parse.
    destruct (strip_prefix_ci "https:" i) as [rest|]; [apply Hauth |].
    destruct (strip_prefix_ci "http:" i) as [rest|]; [apply Hauth | discriminate]. }
  unfold URL_new. destruct (URL_parse base) as [b|] eqn:Hb; [| discriminate].
  destruct (negb _); [discriminate |].
  destruct (has_scheme input); [discriminate |].
  destruct input as [|c rest].
  - intros [= <-]. now apply (Hparse base).
  - destruct (is_slash c); [| now intros [= <-]].
    destruct rest as [|c' rest']; [now intros [= <-] |].
    destruct (is_slash c'); [apply Hauth | now intros [= <-]].
Qed.

Lemma in_appended_pairs (entries : list (string * ParamValue)) (key text : string) :
  In (key, text) (appended_pairs entries) ->
  exists value, In (key, value) entries /\ is_present value = true /\ text = String_of value.
Proof.
  induction entries as [|[k v] entries IH]; [intros [] |].
  rewrite appended_pairs_cons. destruct (is_present v) eqn:Hv.
  - intros [[= -> <-] | Hin].
    + exists v. split; [now left | now split].
    + destruct (IH Hin) as (value & Hin' & Hp & Ht).
      exists value. split; [now right | now split].
  - intros Hin. destruct (IH Hin) as (value & Hin' & Hp & Ht).
    exists value. split; [now right | now split].
Qed.

Lemma in_keys_appended_pairs (entries : list (string * ParamValue)) (key : string) :
  In key (map fst (appended_pairs entries)) ->
  exists value, In (key, value) entries /\ is_present value = true.
Proof.
  intros Hin. apply in_map_iff in Hin as ([k text] & Hk & Hin). simpl in Hk. subst k.
  destruct (in_appended_pairs entries key text Hin) as (value & H1 & H2 & _).
  now exists value.
Qed.

(** An object has one value for a key. *)
Lemma entries_functional (entries : list (string * ParamValue)) (key : string)
    (v1 v2 : ParamValue) :
  List.NoDup (map fst entries) ->
  In (key, v1) entries -> In (key, v2) entries -> v1 = v2.
Proof.
  induction entries as [|[k v] entries IH]; [intros _ [] |].
  simpl. intros Hnd. apply NoDup_cons_iff in Hnd as [Hk Hnd].
  intros [[= -> ->] | H1] [[= ->] | H2].
  - reflexivity.
  - exfalso. apply Hk. apply in_map_iff. now exists (key, v2).
  - subst. exfalso. apply Hk. apply in_map_iff. now exists (key, v1).
  - now apply IH.
Qed.

Lemma filter_key_absent (entries : list (string * ParamValue)) (key : string) :
  ~ In key (map fst entries) ->
  List.filter (fun kv => String.eqb (fst kv) key) (appended_pairs entries) = [].
Proof.
  induction entries as [|[k v] entries IH]; [reflexivity |].
  simpl. intros Hk. rewrite appended_pairs_cons.
  assert (Hne : String.eqb k key = false) by (apply String.eqb_neq; intuition).
  destruct (is_present v); simpl; [rewrite Hne |]; apply IH; intuition.
Qed.

Lemma filter_key_present (entries : list (string * ParamValue)) (key : string)
    (value : ParamValue) :
  List.NoDup (map fst entries) ->
  In (key, value) entries ->
  is_present value = true ->
  List.filter (fun kv => String.eqb (fst kv) key) (appended_pairs entries)
  = [(key, String_of value)].
Proof.
  induction entries as [|[k v] entries IH]; [intros _ [] |].
  simpl. intros Hnd. apply NoDup_cons_iff in Hnd as [Hk Hnd].
  rewrite appended_pairs_cons.
  intros [[= -> ->] | Hin] Hp.
  - rewrite Hp. simpl. rewrite String.eqb_refl.
    now rewrite (filter_key_absent entries key Hk).
  - assert (Hne : String.eqb k key = false).
    { apply String.eqb_neq. intros ->. apply Hk. apply in_map_iff. now exists (key, value). }
    destruct (is_present v); simpl; [rewrite Hne |]; now apply IH.
Qed.

Lemma percent_encode_bytes (c : ascii) : every query_byte (percent_encode c) = true.
Proof. destruct c as [[|] [|] [|] [|] [|] [|] [|] [|]]; reflexivity. Qed.

Lemma urlencode_bytes (s : string) : every query_byte (urlencode s) = true.
Proof.
  induction s as [|c s IH]; [reflexivity |].
  cbn [urlencode]. destruct (urlencoded_plain c) eqn:Hplain.
  - cbn [every]. rewrite IH. unfold query_byte. now rewrite Hplain.
  - destruct (Ascii.eqb c " ").
    + cbn [every]. now rewrite IH.
    + now rewrite every_append, percent_encode_bytes, IH.
Qed.

Lemma query_string_bytes (pairs : list (string * string)) :
  every query_byte (query_string pairs) = true.
Proof.
  destruct pairs as [|kv pairs]; [reflexivity |].
  unfold query_string, urlencoded_serialize.
  change (every query_byte ("?" +:+ ?s)) with (every query_byte s).
  revert kv. induction pairs as [|kv' pairs IH]; intros kv.
  - cbn [map join]. now rewrite !every_append, !urlencode_bytes.
  - cbn [map join] in IH |- *.
    rewrite !every_append, !urlencode_bytes. cbn [andb].
    change (every query_byte "=") with true. change (every query_byte "&") with true.
    cbn [andb]. apply IH.
Qed.

(** C6. For every query parameter mapping, the query of the built URL holds
    exactly the pairs that the loop appends: a key whose value is [undefined]
    or [null] is not among them, a key with a value is there once, with
    [String(value)] (for a number, the text that [String] prints for it, such
    as [1e+21]); and the query is rendered by the
    [application/x-www-form-urlencoded] serialiser, so that it consists of
    bytes that need no encoding, plus signs, percent signs and separators. *)
Theorem buildURL_query_parameters (baseURL endpoint : string)
    (entries : list (string * ParamValue)) (built : string) :
  List.NoDup (map fst entries) ->
  buildURL baseURL endpoint (Some entries) = Some built ->
  exists url pairs,
    URL_new (normalizeURLPath endpoint) (normalizeURLPath baseURL) = Some url
    /\ searchParams url = []
    /\ built = URL_toString {| scheme := scheme url; host := host url; path := path url;
                               searchParams := pairs |}
    /\ every query_byte (query_string pairs) = true
    /\ (forall key value, In (key, value) entries -> is_present value = false ->
        ~ In key (map fst pairs))
    /\ (forall key value, In (key, value) entries -> is_present value = true ->
        List.filter (fun kv => String.eqb (fst kv) key) pairs = [(key, String_of value)]).
Proof.
  intros Hnd. unfold buildURL.
  destruct (URL_new (normalizeURLPath endpoint) (normalizeURLPath baseURL)) as [url|] eqn:Hurl;
    [| discriminate].
  intros [= <-]. pose proof (URL_new_searchParams _ _ _ Hurl) as Hq.
  exists url, (appended_pairs entries).
  split; [reflexivity |]. split; [exact Hq |]. split.
  { rewrite append_params_spec, Hq. reflexivity. }
  split; [apply query_string_bytes |]. split.
  - intros key value Hin Habsent Hkey.
    destruct (in_keys_appended_pairs entries key Hkey) as (value' & Hin' & Hp).
    rewrite (entries_functional entries key value value' Hnd Hin Hin') in Habsent.
    congruence.
  - intros key value Hin Hp. now apply filter_key_present.
Qed.

Lemma buildURL_query_parameters_witness :
  exists url pairs,
    URL_new "/api/v1/sales" "https://erp-api.kisanlink.in" = Some url
    /\ searchParams url = []
    /\ "https://erp-api.kisanlink.in/api/v1/sales?page=2&limit=1e%2B21&q=a+b%26c"
       = URL_toString {| scheme := scheme url; host := host url; path := path url;
                         searchParams := pairs |}
    /\ every query_byte (query_string pairs) = true
    /\ (forall key value,
        In (key, value) [("page", PNumber "2"); ("status", PUndefined); ("limit", PNumber "1e+21");
            ("q", PString "a b&c")] ->
        is_present value = false -> ~ In key (map fst pairs))
    /\ (forall key value,
        In (key, value) [("page", PNumber "2"); ("status", PUndefined); ("limit", PNumber "1e+21");
            ("q", PString "a b&c")] ->
        is_present value = true ->
        List.filter (fun kv => String.eqb (fst kv) key) pairs = [(key, String_of value)]).
Proof.
  apply (buildURL_query_parameters "https://erp-api.kisanlink.in" "/api/v1/sales/"
           [("page", PNumber "2"); ("status", PUndefined); ("limit", PNumber "1e+21");
            ("q", PString "a b&c")]).
  - repeat (constructor; [simpl; intuition discriminate |]). constructor.
  - reflexivity.
Defined.

(* ===================================================================== *)
(** * Properties of the header builder *)
(* ===================================================================== *)

Lemma buildHeaders_lookup_multipart (config : ApiConfig.t)
    (options : option RequestOptions.t) (name : string) :
  name <> "Authorization" ->
  buildHeaders config (options ≫= RequestOptions.headers) true !! name
  = supplied_header config options name.
Proof.
  intros Hname. unfold buildHeaders, supplied_header. cbn [negb andb].
  set (headers := match options ≫= RequestOptions.headers with
                  | Some extra => extra ∪ ApiConfig.defaultHeaders config
                  | None => ApiConfig.defaultHeaders config
                  end).
  assert (Hsupplied : headers !! name
            = match (options ≫= RequestOptions.headers) ≫= (fun extra => extra !! name) with
              | Some v => Some v
              | None => ApiConfig.defaultHeaders config !! name
              end).
  { subst headers. destruct (options ≫= RequestOptions.headers) as [extra|]; simpl.
    - rewrite lookup_union. destruct (extra !! name), (ApiConfig.defaultHeaders config !! name);
        reflexivity.
    - reflexivity. }
  rewrite <- Hsupplied.
  destruct (ApiConfig.getAccessToken config) as [get|]; [| reflexivity].
  destruct (get tt) as [tok|]; [| reflexivity].
  destruct (negb (String.eqb tok "")); [| reflexivity].
  apply lookup_insert_ne. congruence.
Qed.

(** C4, as the claim states it, fails: with the default headers that
    [config.ts] gives as its example, a request with a [FormData] body and no
    per-call header is sent with a JSON [Content-Type]. *)
Lemma multipart_request_with_json_content_type :
  exists call,
    fetch_call json_headers_config "POST" "/api/v1/attachments"
      (FormData [("file", "invoice.pdf")]) None = Some call
    /\ FetchCall.body call = Some (AsIs (FormData [("file", "invoice.pdf")]))
    /\ FetchCall.headers call !! "Content-Type" = Some "application/json".
Proof. eexists. split; [reflexivity |]. split; [reflexivity |]. vm_compute. reflexivity. Qed.

(** In the earlier revision the JSON content type is there whenever the
    configuration and the call supply no other, whatever the body. *)
Lemma Revision1_buildHeaders_content_type (config : ApiConfig.t)
    (options : option RequestOptions.t) :
  supplied_header config options "Content-Type" = None ->
  Revision1.buildHeaders config (options ≫= RequestOptions.headers) !! "Content-Type"
  = Some "application/json".
Proof.
  unfold supplied_header, Revision1.buildHeaders. intros Hnone.
  set (headers := match options ≫= RequestOptions.headers with
                  | Some extra =>
                      extra ∪ (ApiConfig.defaultHeaders config
                               ∪ {[ "Content-Type" := "application/json" ]})
                  | None => ApiConfig.defaultHeaders config
                            ∪ {[ "Content-Type" := "application/json" ]}
                  end).
  assert (Hct : headers !! "Content-Type" = Some "application/json").
  { subst headers. destruct (options ≫= RequestOptions.headers) as [extra|]; simpl in Hnone.
    - destruct (extra !! "Content-Type") eqn:Hextra; [discriminate |].
      rewrite !lookup_union, Hextra, Hnone. reflexivity.
    - rewrite lookup_union, Hnone. reflexivity. }
  destruct (ApiConfig.getAccessToken config) as [get|]; [| exact Hct].
  destruct (get tt) as [tok|]; [| exact Hct].
  destruct (negb (String.eqb tok "")); [| exact Hct].
  rewrite lookup_insert_ne by discriminate. exact Hct.
Qed.

(* ===================================================================== *)
(** * Properties of the request executor *)
(* ===================================================================== *)

Section EngineProperties.

Variable JSON_parse : string -> option JSON.
Variable abort_message : string.

(** The errors of [errors.ts] go through the [catch] as they are. *)
Lemma on_catch_rethrows (timeout : Z) (e : Error) :
  includes (name e) "Error" = true ->
  on_catch timeout (ThrownError e) = ThrownError e.
Proof. intros H. unfold on_catch. now rewrite H. Qed.

(** A request whose exchange is answered before the timer fires. *)
Lemma request_fulfilled (config : ApiConfig.t) (method endpoint : string) (body : JSValue)
    (options : option RequestOptions.t) (network : FetchCall.t -> Race)
    (call : FetchCall.t) (response : Response.t) :
  fetch_call config method endpoint body options = Some call ->
  network call = ExchangeFirst (Fulfilled response) ->
  request JSON_parse abort_message config method endpoint body options network
  = Some (match interpret JSON_parse method endpoint response with
          | Return value => Return value
          | Throw error => Throw (on_catch (effective_timeout config options) error)
          end).
Proof. intros Hcall Hnet. unfold request. rewrite Hcall, Hnet. reflexivity. Qed.

(** C8. For every response in the success range with status 204, or with a
    [content-length] header equal to "0", the request returns the empty
    object, whatever the method, the body of the response and the JSON
    decoder. *)
Theorem request_empty_success (config : ApiConfig.t) (method endpoint : string)
    (body : JSValue) (options : option RequestOptions.t) (network : FetchCall.t -> Race)
    (call : FetchCall.t) (response : Response.t) :
  fetch_call config method endpoint body options = Some call ->
  network call = ExchangeFirst (Fulfilled response) ->
  Response.ok response = true ->
  Response.status response = 204 \/ Response.content_length response = Some "0" ->
  request JSON_parse abort_message config method endpoint body options network
  = Some (Return (JObject [])).
Proof.
  intros Hcall Hnet Hok Hempty.
  rewrite (request_fulfilled _ _ _ _ _ _ _ _ Hcall Hnet).
  unfold interpret. rewrite Hok. cbn [negb].
  destruct Hempty as [-> | ->]; [reflexivity |].
  rewrite bool_decide_true by reflexivity. now rewrite orb_true_r.
Qed.

(** C7. For every response in the success range that is not empty and whose
    body does not decode as JSON, the request throws a [NetworkError] with the
    message "Failed to parse response JSON": an error of kind Network, not a
    returned value. *)
Theorem request_undecodable_success (config : ApiConfig.t) (method endpoint : string)
    (body : JSValue) (options : option RequestOptions.t) (network : FetchCall.t -> Race)
    (call : FetchCall.t) (response : Response.t) :
  fetch_call config method endpoint body options = Some call ->
  network call = ExchangeFirst (Fulfilled response) ->
  Response.ok response = true ->
  Response.status response <> 204 ->
  Response.content_length response <> Some "0" ->
  Response_json JSON_parse response = None ->
  request JSON_parse abort_message config method endpoint body options network
  = Some (Throw (ThrownError (new_NetworkError "Failed to parse response JSON")))
  /\ kind (new_NetworkError "Failed to parse response JSON") = Some Network.
Proof.
  intros Hcall Hnet Hok Hstatus Hlength Hjson.
  split; [| reflexivity].
  rewrite (request_fulfilled _ _ _ _ _ _ _ _ Hcall Hnet).
  unfold interpret. rewrite Hok, Hjson. cbn [negb].
  destruct (Z.eqb_spec (Response.status response) 204) as [? | _]; [contradiction |].
  rewrite bool_decide_false by exact Hlength. reflexivity.
Qed.

(** The message of an error response whose body decodes to a value with a
    non-empty string as its [message]. *)
Lemma error_message_of_message (method endpoint : string) (st : Z) (text : string)
    (errorJson : JSON) (m : string) :
  JSON_parse text = Some errorJson ->
  get_member errorJson "message" = Some (JString m) ->
  m <> "" ->
  error_message JSON_parse method endpoint st text = Some m.
Proof.
  intros Hparse Hmember Hm. unfold error_message. rewrite Hparse.
  destruct errorJson; try discriminate Hmember.
  rewrite Hmember. cbn [json_truthy json_toString].
  apply String.eqb_neq in Hm. now rewrite Hm.
Qed.

(** The same with an absent or falsy [message] and a non-empty string as
    [error]. *)
Lemma error_message_of_error (method endpoint : string) (st : Z) (text : string)
    (errorJson : JSON) (err : string) :
  JSON_parse text = Some errorJson ->
  (get_member errorJson "message" = None
   \/ exists v, get_member errorJson "message" = Some v /\ json_truthy v = false) ->
  get_member errorJson "error" = Some (JString err) ->
  err <> "" ->
  error_message JSON_parse method endpoint st text = Some err.
Proof.
  intros Hparse Hmessage Hmember Herr. unfold error_message. rewrite Hparse.
  destruct errorJson; try discriminate Hmember.
  apply String.eqb_neq in Herr.
  destruct Hmessage as [-> | (v & -> & ->)]; rewrite Hmember;
    cbn [json_truthy json_toString]; now rewrite Herr.
Qed.

Lemma request_not_ok (config : ApiConfig.t) (method endpoint : string) (body : JSValue)
    (options : option RequestOptions.t) (network : FetchCall.t -> Race)
    (call : FetchCall.t) (response : Response.t) :
  fetch_call config method endpoint body options = Some call ->
  network call = ExchangeFirst (Fulfilled response) ->
  Response.ok response = false ->
  request JSON_parse abort_message config method endpoint body options network
  = Some (Throw (ThrownError (error_of_response JSON_parse method endpoint response))).
Proof.
  intros Hcall Hnet Hok.
  rewrite (request_fulfilled _ _ _ _ _ _ _ _ Hcall Hnet).
  unfold interpret, error_of_response. rewrite Hok. cbn [negb].
  destruct (error_message _ _ _ _ _) as [errorMessage|].
  - now rewrite on_catch_rethrows by apply createErrorFromStatus_includes_Error.
  - reflexivity.
Qed.

(** C9, as the code has it.  For a response that is not ok, let [text] be
    the text of the body, the empty text when the body cannot be read.  When
    [text] decodes to a value whose [message] is a non-empty string, the
    request throws the error that [createErrorFromStatus] builds from the
    status, that string and [text]; when the [message] is absent or falsy and
    the [error] is a non-empty string, the same with that string.  A response
    with status 404 whose body decodes to an object with the single member
    [message], "not found", gives a [NotFoundError] with that message and
    status 404.  A body that cannot be read gives the error with the default
    message.  In every case the request throws an error and returns nothing:
    the error of [createErrorFromStatus], or, for a field whose conversion to
    a string throws, a [TypeError], the one of that conversion. *)
Theorem request_error_response (config : ApiConfig.t) (method endpoint : string)
    (body : JSValue) (options : option RequestOptions.t) (network : FetchCall.t -> Race)
    (call : FetchCall.t) (response : Response.t) :
  fetch_call config method endpoint body options = Some call ->
  network call = ExchangeFirst (Fulfilled response) ->
  Response.ok response = false ->
  let st := Response.status response in
  let text := default "" (Response.body response) in
  let outcome :=
    request JSON_parse abort_message config method endpoint body options network in
  (forall errorJson m,
     JSON_parse text = Some errorJson ->
     get_member errorJson "message" = Some (JString m) -> m <> "" ->
     outcome = Some (Throw (ThrownError (createErrorFromStatus st m (Json (JString text))))))
  /\ (forall errorJson err,
        JSON_parse text = Some errorJson ->
        (get_member errorJson "message" = None
         \/ exists v, get_member errorJson "message" = Some v /\ json_truthy v = false) ->
        get_member errorJson "error" = Some (JString err) -> err <> "" ->
        outcome
        = Some (Throw (ThrownError (createErrorFromStatus st err (Json (JString text))))))
  /\ (st = 404 ->
      JSON_parse text = Some (JObject [("message", JString "not found")]) ->
      exists e,
        outcome = Some (Throw (ThrownError e))
        /\ kind e = Some NotFound /\ message e = "not found" /\ status e = Some 404)
  /\ (Response.body response = None ->
      text = ""
      /\ (JSON_parse "" = None ->
          outcome
          = Some (Throw (ThrownError
                           (createErrorFromStatus st
                              ("API " +:+ method +:+ " " +:+ endpoint +:+ " failed: "
                               +:+ pretty st)
                              (Json (JString "")))))))
  /\ (exists e,
        outcome = Some (Throw (ThrownError e))
        /\ (name e = "TypeError"
            \/ e = createErrorFromStatus st (message e) (Json (JString text)))).
Proof.
  intros Hcall Hnet Hok st text outcome.
  assert (Houtcome : outcome
                     = Some (Throw (ThrownError (error_of_response JSON_parse method endpoint response))))
    by (exact (request_not_ok _ _ _ _ _ _ _ _ Hcall Hnet Hok)).
  rewrite Houtcome. unfold error_of_response. fold st text.
  split; [| split; [| split; [| split]]].
  - intros errorJson m Hparse Hmember Hm.
    now rewrite (error_message_of_message _ _ _ _ _ _ Hparse Hmember Hm).
  - intros errorJson err Hparse Hmessage Hmember Herr.
    now rewrite (error_message_of_error _ _ _ _ _ _ Hparse Hmessage Hmember Herr).
  - intros Hst Hparse.
    rewrite (error_message_of_message _ _ _ _ _ "not found" Hparse eq_refl) by discriminate.
    eexists. split; [reflexivity |]. rewrite Hst. repeat split; reflexivity.
  - intros Hbody. subst text. rewrite Hbody. split; [reflexivity |].
    intros Hparse. unfold error_message. cbn [default]. rewrite Hparse. reflexivity.
  - destruct (error_message _ _ _ _ _) as [errorMessage|].
    + eexists. split; [reflexivity |]. right. now rewrite createErrorFromStatus_message.
    + eexists. split; [reflexivity |]. now left.
Qed.

(** No thrown value leaves the [catch] as a timeout error that the [catch]
    built: an error whose name is "AbortError" has a name with "Error" in it,
    so it leaves as it came. *)
Lemma on_catch_outcomes (timeout : Z) (error : Thrown) :
  on_catch timeout error = error
  \/ on_catch timeout error = ThrownError (new_NetworkError "Network request failed").
Proof.
  destruct error as [e | v]; [| now right].
  unfold on_catch. destruct (includes (name e) "Error") eqn:Hinc; [now left |].
  destruct (String.eqb_spec (name e) "AbortError") as [Hname | _]; [| now right].
  rewrite Hname in Hinc. discriminate Hinc.
Qed.

(** A request whose timer fires before the exchange settles throws the
    [DOMException] of the abort. *)
Lemma request_timer_first (config : ApiConfig.t) (method endpoint : string) (body : JSValue)
    (options : option RequestOptions.t) (network : FetchCall.t -> Race) (call : FetchCall.t) :
  fetch_call config method endpoint body options = Some call ->
  network call = TimerFirst ->
  request JSON_parse abort_message config method endpoint body options network
  = Some (Throw (ThrownError (AbortError abort_message))).
Proof. intros Hcall Hnet. unfold request. rewrite Hcall, Hnet. reflexivity. Qed.

End EngineProperties.

(* ===================================================================== *)
(** * The request executor on concrete exchanges *)
(* ===================================================================== *)

Lemma request_empty_success_witness :
  request json_decode node_abort_message example_config "DELETE" "/api/v1/sales/42"
    Undefined None (answers (response_of 204 ""))
  = Some (Return (JObject [])).
Proof.
  eapply request_empty_success; [reflexivity | reflexivity | reflexivity |].
  left. reflexivity.
Defined.

Lemma request_undecodable_success_witness :
  request json_decode node_abort_message example_config "GET" "/api/v1/sales"
    Undefined None (answers (response_of 200 "not-json"))
  = Some (Throw (ThrownError (new_NetworkError "Failed to parse response JSON")))
  /\ kind (new_NetworkError "Failed to parse response JSON") = Some Network.
Proof.
  eapply request_undecodable_success;
    [reflexivity | reflexivity | reflexivity | discriminate | discriminate | reflexivity].
Defined.

Lemma request_error_response_witness :
  exists e,
    request json_decode node_abort_message example_config "GET" "/api/v1/sales/42"
      Undefined None (answers (response_of 404 (message_text "not found")))
    = Some (Throw (ThrownError e))
    /\ kind e = Some NotFound /\ message e = "not found" /\ status e = Some 404.
Proof.
  edestruct (request_error_response json_decode node_abort_message example_config
               "GET" "/api/v1/sales/42" Undefined None
               (answers (response_of 404 (message_text "not found"))))
    as (_ & _ & Hscenario & _);
    [reflexivity | reflexivity | reflexivity |].
  apply Hscenario; reflexivity.
Defined.

(** A [message] that is an object with a member named [toString] cannot be
    converted to a string: the request throws the [TypeError] of the
    conversion, and no [NotFoundError]. *)
Lemma toString_member_throws_TypeError :
  json_decode ("{" +:+ quoted "message" +:+ ":{" +:+ quoted "toString" +:+ ":1}}")
  = Some (JObject [("message", JObject [("toString", JNumber "1")])])
  /\ exists e,
       request json_decode node_abort_message example_config "GET" "/api/v1/sales/42"
         Undefined None
         (answers (response_of 404
                     ("{" +:+ quoted "message" +:+ ":{" +:+ quoted "toString" +:+ ":1}}")))
       = Some (Throw (ThrownError e))
       /\ name e = "TypeError" /\ kind e = None.
Proof. split; [reflexivity |]. eexists. repeat split. Qed.

(** C9, as the claim states it, fails: the body of this response decodes to
    an object whose [message] is the empty string, and the error carries the
    default message, not the value of the field. *)
Lemma empty_message_is_not_carried :
  json_decode (message_text "") = Some (JObject [("message", JString "")])
  /\ request json_decode node_abort_message example_config "GET" "/api/v1/sales/42"
       Undefined None (answers (response_of 404 (message_text "")))
     = Some (Throw (ThrownError
                      (new_NotFoundError "API GET /api/v1/sales/42 failed: 404"
                         (Some (404, Json (JString (message_text "")))))))
  /\ "API GET /api/v1/sales/42 failed: 404" <> "".
Proof. split; [reflexivity | split; [reflexivity | discriminate]]. Qed.

(** The three falsy bodies of the claim, and a truthy one. *)
Lemma falsy_bodies :
  truthy (Json (JNumber "0")) = false
  /\ truthy (Json (JString "")) = false
  /\ truthy (Json (JBool false)) = false
  /\ outgoing_body (Json (JObject [("quantity", JNumber "0")])) false
     = Some (Text ("{" +:+ quoted "quantity" +:+ ":0}")).
Proof. repeat split; reflexivity. Qed.

(** C1 fails on the code.  With a timeout of 50 ms and a network that does
    not answer in time, the request throws the [DOMException] named
    "AbortError" of the aborted [fetch], which is not an Error Record, and
    not a [NetworkError] with the message "Request timeout after 50ms": the
    [catch] first lets through every error whose name includes "Error", and
    "AbortError" does. *)
Theorem timeout_throws_the_abort_error :
  effective_timeout example_config (with_timeout 50) = 50
  /\ request json_decode node_abort_message example_config "GET" "/api/v1/sales"
       Undefined (with_timeout 50) too_slow
     = Some (Throw (ThrownError {| name := "AbortError"; message := node_abort_message;
                                   status := None; response := None |}))
  /\ kind {| name := "AbortError"; message := node_abort_message;
             status := None; response := None |} = None
  /\ includes "AbortError" "Error" = true.
Proof. repeat split; reflexivity. Qed.

(* ===================================================================== *)
(** * Further properties of the error taxonomy *)
(* ===================================================================== *)

Lemma createErrorFromStatus_response (st : Z) (msg : string) (raw : JSValue) :
  response (createErrorFromStatus st msg raw) = (if truthy raw then Some (st, raw) else None).
Proof. unfold createErrorFromStatus. case_status; reflexivity. Qed.

(** X1. The error that [createErrorFromStatus] builds carries the message and
    the status it was given, for every status (the classes with a fixed
    status are chosen for that very status), and the raw response, status
    and body, exactly when the body is truthy. *)
Theorem createErrorFromStatus_fields (st : Z) (msg : string) (raw : JSValue) :
  let e := createErrorFromStatus st msg raw in
  message e = msg
  /\ status e = Some st
  /\ response e = (if truthy raw then Some (st, raw) else None).
Proof.
  cbv zeta. split; [apply createErrorFromStatus_message |].
  split; [apply createErrorFromStatus_status |].
  apply createErrorFromStatus_response.
Qed.

(** X2. The kind of an error of [createErrorFromStatus] tells the status: a
    Validation error was built for 400, an Authentication error for 401, an
    Authorization error for 403, a NotFound error for 404, a Conflict error
    for 409, a Server error for a status of 500 or more, a Generic error for
    a status below 500 other than these five; it is never a Network error. *)
Theorem kind_determines_status (st : Z) (msg : string) (raw : JSValue) (k : Kind) :
  kind (createErrorFromStatus st msg raw) = Some k ->
  match k with
  | Validation => st = 400
  | Authentication => st = 401
  | Authorization => st = 403
  | NotFound => st = 404
  | Conflict => st = 409
  | Server => 500 <= st
  | Generic => st < 500 /\ st <> 400 /\ st <> 401 /\ st <> 403 /\ st <> 404 /\ st <> 409
  | Network => False
  end.
Proof.
  unfold createErrorFromStatus. case_status; cbn; intros [= <-]; repeat split; lia.
Qed.

Lemma kind_determines_status_witness : 418 < 500 /\ 418 <> 400.
Proof.
  destruct (kind_determines_status 418 "teapot" Undefined Generic eq_refl) as (H1 & H2 & _).
  split; assumption.
Defined.

(* ===================================================================== *)
(** * Further properties of the configuration normaliser *)
(* ===================================================================== *)

Lemma replace_final_slash_empty (b : string) :
  replace_final_slash b = "" <-> b = "" \/ b = "/".
Proof.
  split.
  - destruct b as [|c [|d b]]; [now left | |].
    + simpl. destruct (Ascii.eqb_spec c "/") as [-> | _]; [now right | discriminate].
    + cbn [replace_final_slash]. discriminate.
  - intros [-> | ->]; reflexivity.
Qed.

Lemma validateConfig_timeout_not_zero (config : ERPServiceConfig.t) (n : ApiConfig.t) :
  validateConfig config = Return n -> ApiConfig.timeout n <> 0.
Proof.
  unfold validateConfig. destruct (ERPServiceConfig.baseURL config) as [b|]; [| discriminate].
  destruct (String.eqb b ""); [discriminate |].
  intros [= <-]. cbn [ApiConfig.timeout].
  destruct (ERPServiceConfig.timeout config) as [t|]; [| discriminate].
  destruct (Z.eqb_spec t 0); [discriminate | assumption].
Qed.

(** X3. The timeout of a normalised configuration is never 0, and its base
    address is empty only when the given one is a single slash. *)
Theorem validateConfig_invariants (config : ERPServiceConfig.t) (n : ApiConfig.t) :
  validateConfig config = Return n ->
  ApiConfig.timeout n <> 0
  /\ (ApiConfig.baseURL n = "" <-> ERPServiceConfig.baseURL config = Some "/").
Proof.
  unfold validateConfig. destruct (ERPServiceConfig.baseURL config) as [b|]; [| discriminate].
  destruct (String.eqb_spec b "") as [-> | Hb]; [discriminate |].
  intros [= <-]. cbn [ApiConfig.timeout ApiConfig.baseURL]. split.
  - destruct (ERPServiceConfig.timeout config) as [t|]; [| discriminate].
    destruct (Z.eqb_spec t 0); [discriminate | assumption].
  - rewrite replace_final_slash_empty. split.
    + intros [-> | ->]; [contradiction | reflexivity].
    + intros [= ->]. now right.
Qed.

Lemma validateConfig_invariants_witness :
  exists n, validateConfig readme_config = Return n /\ ApiConfig.timeout n <> 0.
Proof.
  eexists. split; [reflexivity |].
  eapply (validateConfig_invariants readme_config). reflexivity.
Defined.

(** X4. A normalised configuration whose base address is not empty and does
    not end in a slash is normalised to itself. *)
Theorem validateConfig_fixed_point (config : ERPServiceConfig.t) (n : ApiConfig.t) :
  validateConfig config = Return n ->
  ApiConfig.baseURL n <> "" ->
  (forall s, ApiConfig.baseURL n <> s +:+ "/") ->
  validateConfig (as_supplied n) = Return n.
Proof.
  intros Hvalid Hne Hclean.
  pose proof (validateConfig_timeout_not_zero config n Hvalid) as Htimeout.
  unfold validateConfig, as_supplied. cbn [ERPServiceConfig.baseURL].
  destruct (String.eqb_spec (ApiConfig.baseURL n) "") as [? | _]; [contradiction |].
  cbn [ERPServiceConfig.defaultHeaders ERPServiceConfig.getAccessToken ERPServiceConfig.timeout].
  rewrite (replace_final_slash_none _ Hclean).
  destruct (Z.eqb_spec (ApiConfig.timeout n) 0) as [? | _]; [contradiction |].
  now destruct n.
Qed.

Lemma validateConfig_fixed_point_witness :
  exists n, validateConfig readme_config = Return n
            /\ validateConfig (as_supplied n) = Return n.
Proof.
  eexists. split; [reflexivity |].
  eapply (validateConfig_fixed_point readme_config); [reflexivity | discriminate |].
  intros s Hs. apply (f_equal ends_with_slash) in Hs.
  rewrite ends_with_slash_append in Hs by discriminate. discriminate Hs.
Defined.

Lemma normalizeURLPath_replace_final_slash (b : string) :
  normalizeURLPath (replace_final_slash b) = normalizeURLPath b.
Proof.
  destruct (final_slash_dec b) as [[s ->] | Hnone].
  - rewrite replace_final_slash_append.
    change (s +:+ "/") with (s +:+ slashes 1). now rewrite normalizeURLPath_slashes.
  - now rewrite replace_final_slash_none.
Qed.

(** X5. The URL builder gives the same URL from the base address of the
    normalised configuration as from the base address that was supplied: the
    slashes that [validateConfig] leaves are removed by [buildURL]. *)
Theorem buildURL_of_validated_base (config : ERPServiceConfig.t) (n : ApiConfig.t)
    (b endpoint : string) (params : option (list (string * ParamValue))) :
  validateConfig config = Return n ->
  ERPServiceConfig.baseURL config = Some b ->
  buildURL (ApiConfig.baseURL n) endpoint params = buildURL b endpoint params.
Proof.
  unfold validateConfig. intros Hvalid Hb. rewrite Hb in Hvalid.
  destruct (String.eqb b ""); [discriminate |].
  injection Hvalid as <-. cbn [ApiConfig.baseURL].
  unfold buildURL. now rewrite normalizeURLPath_replace_final_slash.
Qed.

Lemma buildURL_of_validated_base_witness :
  exists n, validateConfig readme_config = Return n
    /\ buildURL (ApiConfig.baseURL n) "/api/v1/sales" None
       = buildURL "https://erp-api.kisanlink.in/" "/api/v1/sales" None.
Proof.
  eexists. split; [reflexivity |].
  now apply (buildURL_of_validated_base readme_config).
Defined.

(* ===================================================================== *)
(** * Further properties of the URL and header builders *)
(* ===================================================================== *)

Lemma every_is_slash_slashes_length (s : string) :
  every is_slash s = true -> s = slashes (String.length s).
Proof.
  induction s as [|c s IH]; [reflexivity |].
  simpl. intros [Hc Hs]%andb_true_iff.
  unfold is_slash in Hc. apply Ascii.eqb_eq in Hc. subst c. now rewrite <- IH.
Qed.

(** X6. [normalizeURLPath] removes slashes at the end of its argument and
    nothing else; what it returns does not end in a slash, and is returned
    as it is when normalised again. *)
Theorem normalizeURLPath_removes_final_slashes (s : string) :
  (exists n, s = normalizeURLPath s +:+ slashes n)
  /\ ends_with_slash (normalizeURLPath s) = false
  /\ normalizeURLPath (normalizeURLPath s) = normalizeURLPath s.
Proof.
  assert (H : (exists n, s = normalizeURLPath s +:+ slashes n)
              /\ ends_with_slash (normalizeURLPath s) = false).
  { induction s as [|c s [[n IHn] IHend]].
    - split; [now exists O | reflexivity].
    - cbn [normalizeURLPath].
      destruct (is_slash c && every is_slash s) eqn:Hall.
      + split; [| reflexivity].
        apply andb_true_iff in Hall as [Hc Hs].
        exists (S (String.length s)). cbn [slashes String.append].
        unfold is_slash in Hc. apply Ascii.eqb_eq in Hc. subst c.
        now rewrite <- every_is_slash_slashes_length.
      + split.
        * exists n. cbn [String.append]. now rewrite <- IHn.
        * cbn [ends_with_slash]. destruct (normalizeURLPath s) eqn:Hnorm; [| exact IHend].
          cbn [String.append] in IHn.
          rewrite IHn, every_is_slash_slashes, andb_true_r in Hall. exact Hall. }
  destruct H as [Hex Hend]. split; [exact Hex |]. split; [exact Hend |].
  now apply normalizeURLPath_clean.
Qed.

(** The headers before the builder adds its own hold what is supplied. *)
Lemma supplied_header_lookup (config : ApiConfig.t) (options : option RequestOptions.t)
    (name : string) :
  match options ≫= RequestOptions.headers with
  | Some extra => extra ∪ ApiConfig.defaultHeaders config
  | None => ApiConfig.defaultHeaders config
  end !! name
  = supplied_header config options name.
Proof.
  unfold supplied_header.
  destruct (options ≫= RequestOptions.headers) as [extra|]; simpl; [| reflexivity].
  rewrite lookup_union.
  destruct (extra !! name), (ApiConfig.defaultHeaders config !! name); reflexivity.
Qed.

(** Every header of the header builder. *)
Lemma buildHeaders_lookup (config : ApiConfig.t) (options : option RequestOptions.t)
    (isFormData : bool) (name : string) :
  buildHeaders config (options ≫= RequestOptions.headers) isFormData !! name
  = match current_token config with
    | Some tok =>
        if String.eqb name "Authorization" then Some ("Bearer " +:+ tok)
        else if String.eqb name "Content-Type" && negb isFormData
        then match supplied_header config options "Content-Type" with
             | Some v => if String.eqb v "" then Some "application/json" else Some v
             | None => Some "application/json"
             end
        else supplied_header config options name
    | None =>
        if String.eqb name "Content-Type" && negb isFormData
        then match supplied_header config options "Content-Type" with
             | Some v => if String.eqb v "" then Some "application/json" else Some v
             | None => Some "application/json"
             end
        else supplied_header config options name
    end.
Proof.
  unfold buildHeaders, current_token.
  rewrite <- !supplied_header_lookup.
  set (headers := match options ≫= RequestOptions.headers with
                  | Some extra => extra ∪ ApiConfig.defaultHeaders config
                  | None => ApiConfig.defaultHeaders config
                  end).
  set (withType := if negb isFormData && _ then _ else headers).
  assert (Htype : withType !! name
            = if String.eqb name "Content-Type" && negb isFormData
              then match headers !! "Content-Type" with
                   | Some v => if String.eqb v "" then Some "application/json" else Some v
                   | None => Some "application/json"
                   end
              else headers !! name).
  { subst withType. destruct isFormData; cbn [negb andb].
    - now rewrite andb_false_r.
    - rewrite andb_true_r.
      destruct (String.eqb_spec name "Content-Type") as [-> | Hname].
      + destruct (headers !! "Content-Type") as [v|] eqn:Hv.
        * destruct (String.eqb v ""); cbn [negb]; [apply lookup_insert_eq | exact Hv].
        * cbn [negb]. apply lookup_insert_eq.
      + destruct (negb _); [| reflexivity]. now rewrite lookup_insert_ne. }
  destruct (ApiConfig.getAccessToken config) as [getAccessToken|]; [| exact Htype].
  destruct (getAccessToken tt) as [tok|]; [| exact Htype].
  destruct (String.eqb tok ""); cbn [negb]; [exact Htype |].
  destruct (String.eqb_spec name "Authorization") as [-> | Hname].
  - apply lookup_insert_eq.
  - rewrite lookup_insert_ne by congruence. exact Htype.
Qed.

(** X7. When the token capability yields a non-empty token, the request
    carries [Authorization: Bearer <token>], whatever the default and the
    per-call headers say; with no capability, no token or an empty token, the
    [Authorization] header is the one that these supply, if any. *)
Theorem buildHeaders_authorization (config : ApiConfig.t) (options : option RequestOptions.t)
    (isFormData : bool) :
  buildHeaders config (options ≫= RequestOptions.headers) isFormData !! "Authorization"
  = match current_token config with
    | Some tok => Some ("Bearer " +:+ tok)
    | None => supplied_header config options "Authorization"
    end.
Proof. rewrite buildHeaders_lookup. now destruct (current_token config). Qed.

(** X8. For a body that is not a [FormData], the [Content-Type] of the
    request is the supplied one when that is a non-empty string, and
    [application/json] when none is supplied or the supplied one is
    empty. *)
Theorem buildHeaders_json_content_type (config : ApiConfig.t)
    (options : option RequestOptions.t) :
  buildHeaders config (options ≫= RequestOptions.headers) false !! "Content-Type"
  = match supplied_header config options "Content-Type" with
    | Some v => if String.eqb v "" then Some "application/json" else Some v
    | None => Some "application/json"
    end.
Proof. rewrite buildHeaders_lookup. now destruct (current_token config). Qed.

(** X9. Every header other than [Content-Type] and [Authorization] is the
    per-call header of that name when there is one, and the default header
    otherwise, whatever the body. *)
Theorem buildHeaders_passes_headers (config : ApiConfig.t) (options : option RequestOptions.t)
    (isFormData : bool) (name : string) :
  name <> "Content-Type" ->
  name <> "Authorization" ->
  buildHeaders config (options ≫= RequestOptions.headers) isFormData !! name
  = match (options ≫= RequestOptions.headers) ≫= (fun extra => extra !! name) with
    | Some v => Some v
    | None => ApiConfig.defaultHeaders config !! name
    end.
Proof.
  intros Htype Hauth. rewrite buildHeaders_lookup.
  apply String.eqb_neq in Htype, Hauth. rewrite Htype, Hauth.
  now destruct (current_token config).
Qed.

Lemma buildHeaders_passes_headers_witness :
  buildHeaders json_headers_config
    (Some {| RequestOptions.headers := Some {[ "Accept" := "application/pdf" ]};
             RequestOptions.params := None; RequestOptions.timeout := None |}
     ≫= RequestOptions.headers) true !! "Accept"
  = Some "application/pdf".
Proof.
  rewrite (buildHeaders_passes_headers json_headers_config
             (Some {| RequestOptions.headers := Some {[ "Accept" := "application/pdf" ]};
                      RequestOptions.params := None; RequestOptions.timeout := None |})
             true "Accept") by discriminate.
  reflexivity.
Defined.

Lemma appended_pairs_none (entries : list (string * ParamValue)) :
  forallb (fun kv => negb (is_present (snd kv))) entries = true ->
  appended_pairs entries = [].
Proof.
  induction entries as [|[key value] entries IH]; [reflexivity |].
  cbn [forallb snd]. intros [Hv Hrest]%andb_true_iff.
  rewrite appended_pairs_cons. apply negb_true_iff in Hv. rewrite Hv. now apply IH.
Qed.

(** X10. A mapping without any present value (an empty mapping, or one whose
    values are all [undefined] or [null]) gives the URL that no mapping
    gives: no question mark is added. *)
Theorem buildURL_without_present_params (baseURL endpoint : string)
    (entries : list (string * ParamValue)) :
  forallb (fun kv => negb (is_present (snd kv))) entries = true ->
  buildURL baseURL endpoint (Some entries) = buildURL baseURL endpoint None.
Proof.
  intros Hnone. unfold buildURL.
  destruct (URL_new _ _) as [url|]; [| reflexivity].
  rewrite append_params_spec, (appended_pairs_none entries Hnone), app_nil_r.
  now destruct url.
Qed.

Lemma buildURL_without_present_params_witness :
  buildURL "https://erp-api.kisanlink.in" "/api/v1/sales"
    (Some [("status", PUndefined); ("limit", PNull)])
  = buildURL "https://erp-api.kisanlink.in" "/api/v1/sales" None.
Proof. now apply buildURL_without_present_params. Defined.

(** X11. The query of the built URL lists the present entries of the mapping
    in the order in which [Object.entries] gives them: the URL is the one
    built without a mapping, followed by the serialisation of these pairs. *)
Theorem buildURL_query_in_order (baseURL endpoint bare : string)
    (entries : list (string * ParamValue)) :
  buildURL baseURL endpoint None = Some bare ->
  buildURL baseURL endpoint (Some entries)
  = Some (bare +:+ query_string
                     (map (fun kv => (fst kv, String_of (snd kv)))
                          (List.filter (fun kv => is_present (snd kv)) entries))).
Proof.
  unfold buildURL.
  destruct (URL_new _ _) as [url|] eqn:Hurl; [| discriminate].
  intros [= <-]. rewrite append_params_spec.
  unfold URL_toString. cbn [scheme host path searchParams].
  rewrite (URL_new_searchParams _ _ _ Hurl). cbn [app].
  change (query_string []) with "". fold (appended_pairs entries).
  now rewrite append_nil_r, !append_assoc.
Qed.

Lemma buildURL_query_in_order_witness :
  buildURL "https://erp-api.kisanlink.in" "/api/v1/sales"
    (Some [("offset", PNumber "20"); ("status", PUndefined); ("price", PNumber "0.5");
           ("active", PBoolean true)])
  = Some "https://erp-api.kisanlink.in/api/v1/sales?offset=20&price=0.5&active=true".
Proof.
  now rewrite (buildURL_query_in_order _ _ "https://erp-api.kisanlink.in/api/v1/sales").
Defined.

(* ===================================================================== *)
(** * Further properties of the request executor *)
(* ===================================================================== *)

(** X12. For a normalised configuration the timeout of a request is never 0:
    it is the per-call timeout when that is given and not 0, and the timeout
    of the configuration otherwise (a per-call timeout of 0 does not
    override). *)
Theorem effective_timeout_of_validated (supplied : ERPServiceConfig.t) (config : ApiConfig.t)
    (options : option RequestOptions.t) :
  validateConfig supplied = Return config ->
  effective_timeout config options <> 0
  /\ (forall t, options ≫= RequestOptions.timeout = Some t -> t <> 0 ->
      effective_timeout config options = t)
  /\ (options ≫= RequestOptions.timeout = None \/ options ≫= RequestOptions.timeout = Some 0 ->
      effective_timeout config options = ApiConfig.timeout config).
Proof.
  intros Hvalid. pose proof (validateConfig_timeout_not_zero supplied config Hvalid) as Hnz.
  unfold effective_timeout. split; [| split].
  - destruct (options ≫= RequestOptions.timeout) as [t|]; [| exact Hnz].
    destruct (Z.eqb_spec t 0); assumption.
  - intros t -> Ht. destruct (Z.eqb_spec t 0); [contradiction | reflexivity].
  - intros [-> | ->]; reflexivity.
Qed.

Lemma effective_timeout_of_validated_witness :
  exists config, validateConfig readme_config = Return config
    /\ effective_timeout config (with_timeout 0) = 30000.
Proof.
  eexists. split; [reflexivity |].
  eapply (effective_timeout_of_validated readme_config); [reflexivity |].
  right. reflexivity.
Defined.

Section MoreEngineProperties.

Variable JSON_parse : string -> option JSON.
Variable abort_message : string.

Lemma on_catch_is_error (timeout : Z) (error : Thrown) :
  exists e, on_catch timeout error = ThrownError e.
Proof.
  destruct error as [e | v]; unfold on_catch; [| eauto].
  destruct (includes (name e) "Error"); [eauto |].
  destruct (String.eqb (name e) "AbortError"); eauto.
Qed.

(** X13. The [try] of [request] with its [catch], that is, all of [request]
    from the call of [fetch] on: whatever [fetch] settles with, what is
    thrown to the caller from there is an instance of [Error]; a value of
    another sort that [fetch] is rejected with never reaches the caller.
    (What is thrown before the [try], by the URL constructor or by
    [config.getAccessToken], is not the matter of this property.) *)
Theorem request_throws_errors_only (method endpoint : string) (timeout : Z)
    (result : FetchResult) (thrown : Thrown) :
  settle JSON_parse method endpoint timeout result = Throw thrown ->
  exists e, thrown = ThrownError e.
Proof.
  unfold settle.
  destruct (match result with
            | Fulfilled response => interpret JSON_parse method endpoint response
            | Rejected reason => Throw reason
            end) as [value | error]; [discriminate |].
  intros [= <-]. apply on_catch_is_error.
Qed.

(** X14. A request returns a value only for an answer in the success range:
    the call was made, the network answered it in time with an ok response,
    and the value is the empty object of an empty response (status 204 or
    content length "0") or the decoded body. *)
Theorem request_returns_only_ok (config : ApiConfig.t) (method endpoint : string)
    (body : JSValue) (options : option RequestOptions.t) (network : FetchCall.t -> Race)
    (value : JSON) :
  request JSON_parse abort_message config method endpoint body options network
  = Some (Return value) ->
  exists call response,
    fetch_call config method endpoint body options = Some call
    /\ network call = ExchangeFirst (Fulfilled response)
    /\ Response.ok response = true
    /\ ((value = JObject []
         /\ (Response.status response = 204 \/ Response.content_length response = Some "0"))
        \/ (Response.status response <> 204
            /\ Response.content_length response <> Some "0"
            /\ exists text, Response.body response = Some text
                            /\ JSON_parse text = Some value)).
Proof.
  unfold request. destruct (fetch_call _ _ _ _ _) as [call|] eqn:Hcall; [| discriminate].
  unfold settle, fetch.
  destruct (network call) as [| [response | reason]] eqn:Hnet;
    [discriminate | | discriminate].
  unfold interpret.
  destruct (Response.ok response) eqn:Hok; cbn [negb];
    [| destruct (error_message _ _ _ _ _); discriminate].
  intros Hreturn. exists call, response.
  split; [reflexivity |]. split; [exact Hnet |]. split; [exact Hok |].
  destruct (Z.eqb_spec (Response.status response) 204) as [H204 | H204]; cbn [orb] in Hreturn.
  - injection Hreturn as <-. left. split; [reflexivity | now left].
  - destruct (bool_decide_reflect (Response.content_length response = Some "0")) as [Hlen | Hlen].
    + injection Hreturn as <-. left. split; [reflexivity | now right].
    + right. split; [exact H204 |]. split; [exact Hlen |].
      unfold Response_json in Hreturn.
      destruct (Response.body response) as [text|]; [| discriminate].
      exists text. split; [reflexivity |].
      destruct (JSON_parse text); [| discriminate]. now injection Hreturn as ->.
Qed.

(** X15. When [fetch] is rejected, an error whose name includes "Error" (the
    [TypeError] of a failed connection is one) is thrown to the caller as it
    is; an error with another name, and a value that is no error, is
    replaced by a [NetworkError] with the message "Network request
    failed". *)
Theorem request_rejected (config : ApiConfig.t) (method endpoint : string)
    (body : JSValue) (options : option RequestOptions.t) (network : FetchCall.t -> Race)
    (call : FetchCall.t) (reason : Thrown) :
  fetch_call config method endpoint body options = Some call ->
  network call = ExchangeFirst (Rejected reason) ->
  request JSON_parse abort_message config method endpoint body options network
  = Some (Throw match reason with
                | ThrownError e =>
                    if includes (name e) "Error" then reason
                    else ThrownError (new_NetworkError "Network request failed")
                | ThrownValue _ => ThrownError (new_NetworkError "Network request failed")
                end).
Proof.
  intros Hcall Hnet. unfold request. rewrite Hcall, Hnet. cbn [fetch settle].
  destruct reason as [e | v]; [| reflexivity].
  unfold on_catch. destruct (includes (name e) "Error") eqn:Hinc; [reflexivity |].
  destruct (String.eqb_spec (name e) "AbortError") as [Hname | _]; [| reflexivity].
  rewrite Hname in Hinc. discriminate Hinc.
Qed.

(** X16. The error of a response that is not ok and whose body is a text that
    does not decode, or decodes to [null], has the message "API <method>
    <endpoint> failed: <status>", followed by " - " and the text when the
    text is not empty; its raw response holds the status and the text when
    the text is not empty, and is absent otherwise. *)
Theorem request_error_plain_text (config : ApiConfig.t) (method endpoint : string)
    (body : JSValue) (options : option RequestOptions.t) (network : FetchCall.t -> Race)
    (call : FetchCall.t) (answer : Response.t) :
  fetch_call config method endpoint body options = Some call ->
  network call = ExchangeFirst (Fulfilled answer) ->
  Response.ok answer = false ->
  let st := Response.status answer in
  let text := default "" (Response.body answer) in
  JSON_parse text = None \/ JSON_parse text = Some JNull ->
  exists e,
    request JSON_parse abort_message config method endpoint body options network
    = Some (Throw (ThrownError e))
    /\ status e = Some st
    /\ (text = "" ->
        message e = "API " +:+ method +:+ " " +:+ endpoint +:+ " failed: " +:+ pretty st
        /\ response e = None)
    /\ (text <> "" ->
        message e = ("API " +:+ method +:+ " " +:+ endpoint +:+ " failed: " +:+ pretty st)
                    +:+ " - " +:+ text
        /\ response e = Some (st, Json (JString text))).
Proof.
  intros Hcall Hnet Hok st text Hparse.
  set (msg := if negb (String.eqb text "")
              then ("API " +:+ method +:+ " " +:+ endpoint +:+ " failed: " +:+ pretty st)
                   +:+ " - " +:+ text
              else "API " +:+ method +:+ " " +:+ endpoint +:+ " failed: " +:+ pretty st).
  exists (createErrorFromStatus st msg (Json (JString text))).
  assert (Hmessage : error_message JSON_parse method endpoint st text = Some msg).
  { unfold error_message. now destruct Hparse as [-> | ->]. }
  pose proof (createErrorFromStatus_message st msg (Json (JString text))) as Hmsg.
  pose proof (createErrorFromStatus_status st msg (Json (JString text))) as Hst.
  pose proof (createErrorFromStatus_response st msg (Json (JString text))) as Hresp.
  split; [| split; [exact Hst | split]].
  - rewrite (request_not_ok _ _ _ _ _ _ _ _ _ _ Hcall Hnet Hok).
    unfold error_of_response. fold st text. now rewrite Hmessage.
  - intros Hempty. rewrite Hmsg, Hresp. subst msg. rewrite Hempty. split; reflexivity.
  - intros Hne. rewrite Hmsg, Hresp. subst msg. cbn [truthy json_truthy].
    apply String.eqb_neq in Hne. rewrite Hne. split; reflexivity.
Qed.

End MoreEngineProperties.

Lemma request_throws_errors_only_witness :
  exists e,
    ThrownError (new_NetworkError "Network request failed") = ThrownError e.
Proof.
  apply (request_throws_errors_only json_decode "GET" "/api/v1/sales" 30000
           (Rejected (ThrownValue (Json (JString "offline"))))).
  reflexivity.
Defined.


Lemma request_returns_only_ok_witness :
  exists call response,
    fetch_call example_config "GET" "/api/v1/sales" Undefined None = Some call
    /\ answers (response_of 200 (message_text "ok")) call = ExchangeFirst (Fulfilled response)
    /\ Response.ok response = true
    /\ ((JObject [("message", JString "ok")] = JObject []
         /\ (Response.status response = 204 \/ Response.content_length response = Some "0"))
        \/ (Response.status response <> 204
            /\ Response.content_length response <> Some "0"
            /\ exists text, Response.body response = Some text
                            /\ json_decode text = Some (JObject [("message", JString "ok")]))).
Proof.
  apply (request_returns_only_ok json_decode node_abort_message example_config "GET"
           "/api/v1/sales" Undefined None (answers (response_of 200 (message_text "ok")))).
  reflexivity.
Defined.

Lemma request_rejected_witness :
  request json_decode node_abort_message example_config "GET" "/api/v1/sales" Undefined None
    (fun _ => ExchangeFirst (Rejected (ThrownError fetch_failed)))
  = Some (Throw (ThrownError fetch_failed)).
Proof.
  etransitivity; [eapply request_rejected; reflexivity | reflexivity].
Defined.

Lemma request_error_plain_text_witness :
  exists e,
    request json_decode node_abort_message example_config "GET" "/api/v1/sales" Undefined None
      (answers (response_of 502 "Bad Gateway"))
    = Some (Throw (ThrownError e))
    /\ message e = "API GET /api/v1/sales failed: 502 - Bad Gateway"
    /\ response e = Some (502, Json (JString "Bad Gateway")).
Proof.
  edestruct (request_error_plain_text json_decode node_abort_message example_config
               "GET" "/api/v1/sales" Undefined None (answers (response_of 502 "Bad Gateway")))
    as (e & Hrequest & _ & _ & Htext);
    [reflexivity | reflexivity | reflexivity | left; reflexivity |].
  exists e. split; [exact Hrequest |]. apply Htext. discriminate.
Defined.

(* ===================================================================== *)
(** * Properties of the client *)
(* ===================================================================== *)

Section ClientProperties.

Variable JSON_parse : string -> option JSON.
Variable abort_message : string.

(** The outcome of a request depends on the network only through the race of
    the one call that the request makes. *)
Lemma request_depends_on_its_call (config : ApiConfig.t) (method endpoint : string)
    (body : JSValue) (options : option RequestOptions.t)
    (network network' : FetchCall.t -> Race) :
  (forall call, fetch_call config method endpoint body options = Some call ->
                network call = network' call) ->
  request JSON_parse abort_message config method endpoint body options network
  = request JSON_parse abort_message config method endpoint body options network'.
Proof.
  intros Hsame. unfold request.
  destruct (fetch_call _ _ _ _ _) as [call|]; [| reflexivity].
  now rewrite (Hsame call eq_refl).
Qed.

Lemma fetch_call_method (config : ApiConfig.t) (method endpoint : string) (body : JSValue)
    (options : option RequestOptions.t) (call : FetchCall.t) :
  fetch_call config method endpoint body options = Some call ->
  FetchCall.method call = method
  /\ FetchCall.body call = outgoing_body body (instanceof_FormData body).
Proof.
  unfold fetch_call. destruct (buildURL _ _ _); [| discriminate].
  intros [= <-]. split; reflexivity.
Qed.

(** X17. Each method of the client makes calls of its own HTTP method only,
    and [get] and [delete] make calls without a body only: two networks that
    agree on these calls give the same outcome. *)
Theorem createApiClient_calls (config : ApiConfig.t) (endpoint : string) (body : JSValue)
    (options : option RequestOptions.t) (network network' : FetchCall.t -> Race) :
  let client := createApiClient JSON_parse abort_message config in
  let agree (method : string) (bodiless : bool) :=
    forall call, FetchCall.method call = method ->
                 (bodiless = true -> FetchCall.body call = None) ->
                 network call = network' call in
  (agree "GET" true ->
   ApiClient.get client endpoint options network
   = ApiClient.get client endpoint options network')
  /\ (agree "DELETE" true ->
      ApiClient.delete client endpoint options network
      = ApiClient.delete client endpoint options network')
  /\ (agree "POST" false ->
      ApiClient.post client endpoint body options network
      = ApiClient.post client endpoint body options network')
  /\ (agree "PUT" false ->
      ApiClient.put client endpoint body options network
      = ApiClient.put client endpoint body options network')
  /\ (agree "PATCH" false ->
      ApiClient.patch client endpoint body options network
      = ApiClient.patch client endpoint body options network').
Proof.
  cbv zeta. cbn [createApiClient ApiClient.get ApiClient.delete ApiClient.post
                 ApiClient.put ApiClient.patch].
  repeat split; intros Hagree; apply request_depends_on_its_call; intros call Hcall;
    destruct (fetch_call_method _ _ _ _ _ _ Hcall) as [Hmethod Hbody];
    apply Hagree; try exact Hmethod; try discriminate; intros _; exact Hbody.
Qed.

End ClientProperties.

Lemma createApiClient_calls_witness :
  ApiClient.get (createApiClient json_decode node_abort_message example_config)
    "/api/v1/sales" None
    (fun call => match FetchCall.body call with
                 | None => ExchangeFirst (Fulfilled (response_of 204 ""))
                 | Some _ => TimerFirst
                 end)
  = ApiClient.get (createApiClient json_decode node_abort_message example_config)
      "/api/v1/sales" None (answers (response_of 204 "")).
Proof.
  apply (createApiClient_calls json_decode node_abort_message example_config
           "/api/v1/sales" Undefined None).
  intros call _ Hbody. unfold answers. now rewrite (Hbody eq_refl).
Defined.

(* ===================================================================== *)
(** * The two revisions of the executor *)
(* ===================================================================== *)

Lemma Revision1_buildHeaders_lookup (config : ApiConfig.t) (options : option RequestOptions.t)
    (name : string) :
  Revision1.buildHeaders config (options ≫= RequestOptions.headers) !! name
  = match current_token config with
    | Some tok =>
        if String.eqb name "Authorization" then Some ("Bearer " +:+ tok)
        else match supplied_header config options name with
             | Some v => Some v
             | None => if String.eqb name "Content-Type" then Some "application/json" else None
             end
    | None =>
        match supplied_header config options name with
        | Some v => Some v
        | None => if String.eqb name "Content-Type" then Some "application/json" else None
        end
    end.
Proof.
  unfold Revision1.buildHeaders, current_token, supplied_header.
  set (headers := match options ≫= RequestOptions.headers with
                  | Some extra => extra ∪ (_ ∪ _)
                  | None => _ ∪ _
                  end).
  assert (Hbase : headers !! name
            = match
                match (options ≫= RequestOptions.headers) ≫= (fun extra => extra !! name) with
                | Some v => Some v
                | None => ApiConfig.defaultHeaders config !! name
                end
              with
              | Some v => Some v
              | None => if String.eqb name "Content-Type" then Some "application/json" else None
              end).
  { subst headers.
    assert (Hsingle : ({[ "Content-Type" := "application/json" ]} : gmap string string) !! name
                      = if String.eqb name "Content-Type" then Some "application/json" else None).
    { destruct (String.eqb_spec name "Content-Type") as [-> | Hne].
      - apply lookup_singleton_eq.
      - apply lookup_singleton_ne. congruence. }
    destruct (options ≫= RequestOptions.headers) as [extra|]; simpl.
    - rewrite !lookup_union, Hsingle.
      destruct (extra !! name), (ApiConfig.defaultHeaders config !! name),
        (String.eqb name "Content-Type"); reflexivity.
    - rewrite lookup_union, Hsingle.
      destruct (ApiConfig.defaultHeaders config !! name), (String.eqb name "Content-Type");
        reflexivity. }
  destruct (ApiConfig.getAccessToken config) as [getAccessToken|]; [| exact Hbase].
  destruct (getAccessToken tt) as [tok|]; [| exact Hbase].
  destruct (String.eqb tok ""); cbn [negb]; [exact Hbase |].
  destruct (String.eqb_spec name "Authorization") as [-> | Hname].
  - apply lookup_insert_eq.
  - rewrite lookup_insert_ne by congruence. exact Hbase.
Qed.

Lemma revisions_same_headers (config : ApiConfig.t) (options : option RequestOptions.t) :
  supplied_header config options "Content-Type" <> Some "" ->
  Revision1.buildHeaders config (options ≫= RequestOptions.headers)
  = buildHeaders config (options ≫= RequestOptions.headers) false.
Proof.
  intros Hempty. apply map_eq. intros name.
  rewrite Revision1_buildHeaders_lookup, buildHeaders_lookup. cbn [negb]. rewrite andb_true_r.
  assert (Hrest : match supplied_header config options name with
                  | Some v => Some v
                  | None => if String.eqb name "Content-Type"
                            then Some "application/json" else None
                  end
                  = if String.eqb name "Content-Type"
                    then match supplied_header config options "Content-Type" with
                         | Some v => if String.eqb v "" then Some "application/json" else Some v
                         | None => Some "application/json"
                         end
                    else supplied_header config options name).
  { destruct (String.eqb_spec name "Content-Type") as [-> | _].
    - destruct (supplied_header config options "Content-Type") as [v|]; [| reflexivity].
      destruct (String.eqb_spec v "") as [-> | _]; [contradiction | reflexivity].
    - now destruct (supplied_header config options name). }
  destruct (current_token config); [destruct (String.eqb name "Authorization") |];
    try reflexivity; exact Hrest.
Qed.

(** X18. The two revisions of the header builder build the same headers for
    a body that is not a [FormData], unless the supplied [Content-Type] is
    the empty string (which the earlier revision keeps and the current one
    replaces by [application/json]). *)
Theorem revisions_build_same_headers (config : ApiConfig.t)
    (options : option RequestOptions.t) :
  (supplied_header config options "Content-Type" <> Some "" ->
   Revision1.buildHeaders config (options ≫= RequestOptions.headers)
   = buildHeaders config (options ≫= RequestOptions.headers) false)
  /\ (supplied_header config options "Content-Type" = Some "" ->
      Revision1.buildHeaders config (options ≫= RequestOptions.headers) !! "Content-Type"
      = Some ""
      /\ buildHeaders config (options ≫= RequestOptions.headers) false !! "Content-Type"
         = Some "application/json").
Proof.
  split; [apply revisions_same_headers |].
  intros Hempty. rewrite Revision1_buildHeaders_lookup, buildHeaders_lookup, Hempty.
  now destruct (current_token config).
Qed.

Lemma revisions_build_same_headers_witness :
  Revision1.buildHeaders json_headers_config (None ≫= RequestOptions.headers)
  = buildHeaders json_headers_config (None ≫= RequestOptions.headers) false.
Proof.
  apply (revisions_build_same_headers json_headers_config None). discriminate.
Defined.

Section RevisionProperties.

Variable JSON_parse : string -> option JSON.
Variable abort_message : string.

(** X19. The two revisions of [request] make the same call and give the same
    outcome when neither the base address nor the endpoint ends in a slash,
    the body is not a [FormData] and the supplied [Content-Type] is not the
    empty string. *)
Theorem revisions_agree (config : ApiConfig.t) (method endpoint : string) (body : JSValue)
    (options : option RequestOptions.t) (network : FetchCall.t -> Race) :
  ends_with_slash (ApiConfig.baseURL config) = false ->
  ends_with_slash endpoint = false ->
  instanceof_FormData body = false ->
  supplied_header config options "Content-Type" <> Some "" ->
  Revision1Executor.fetch_call config method endpoint body options
  = fetch_call config method endpoint body options
  /\ Revision1Executor.request JSON_parse abort_message config method endpoint body options
       network
     = request JSON_parse abort_message config method endpoint body options network.
Proof.
  intros Hbase Hendpoint Hform Htype.
  assert (Hcall : Revision1Executor.fetch_call config method endpoint body options
                  = fetch_call config method endpoint body options).
  { unfold Revision1Executor.fetch_call, Revision1Executor.buildURL, fetch_call, buildURL.
    rewrite (normalizeURLPath_clean _ Hbase), (normalizeURLPath_clean _ Hendpoint).
    destruct (URL_new endpoint (ApiConfig.baseURL config)) as [url|]; [| reflexivity].
    rewrite (revisions_same_headers config options Htype), Hform.
    unfold Revision1.outgoing_body, outgoing_body. reflexivity. }
  split; [exact Hcall |].
  unfold Revision1Executor.request, request. now rewrite Hcall.
Qed.

End RevisionProperties.

Lemma revisions_agree_witness :
  Revision1Executor.request json_decode node_abort_message example_config "POST"
    "/api/v1/sales" (Json (JObject [("quantity", JNumber "2")])) None
    (answers (response_of 204 ""))
  = request json_decode node_abort_message example_config "POST"
      "/api/v1/sales" (Json (JObject [("quantity", JNumber "2")])) None
      (answers (response_of 204 "")).
Proof.
  apply (revisions_agree json_decode node_abort_message example_config);
    [reflexivity | reflexivity | reflexivity | discriminate].
Defined.

(* ===================================================================== *)
(** * Multipart and falsy bodies in the two revisions *)
(* ===================================================================== *)

(** C4, as the code has it.  In the current revision of [buildHeaders], for a
    request whose body is a [FormData], the header builder adds no content
    type of its own: every header of the request but [Authorization] is the
    one that the per-call overrides or, failing that, the default headers
    supply.  So the request carries a JSON [Content-Type] exactly when these
    supply it, and no [Content-Type] when they supply none; the body is passed
    as it is.  The earlier revision of [buildHeaders] does not look at the
    body: for a [FormData] body too, the request carries the [Content-Type]
    that the overrides or the defaults supply and, when they supply none, the
    JSON one. *)
Theorem fetch_call_multipart_headers (config : ApiConfig.t) (method endpoint : string)
    (entries : list (string * string)) (options : option RequestOptions.t)
    (call : FetchCall.t) :
  fetch_call config method endpoint (FormData entries) options = Some call ->
  ((forall name, name <> "Authorization" ->
      FetchCall.headers call !! name = supplied_header config options name)
   /\ (FetchCall.headers call !! "Content-Type" = Some "application/json"
       <-> supplied_header config options "Content-Type" = Some "application/json")
   /\ (supplied_header config options "Content-Type" = None ->
       FetchCall.headers call !! "Content-Type" = None)
   /\ FetchCall.body call = Some (AsIs (FormData entries)))
  /\ (forall earlier,
        Revision1Executor.fetch_call config method endpoint (FormData entries) options
        = Some earlier ->
        FetchCall.headers earlier !! "Content-Type"
        = Some (default "application/json" (supplied_header config options "Content-Type"))).
Proof.
  intros Hcall. split.
  - revert Hcall. unfold fetch_call.
    destruct (buildURL _ _ _) as [url|]; [| discriminate].
    intros [= <-]. cbn [FetchCall.headers FetchCall.body instanceof_FormData].
    assert (Hct : "Content-Type" <> "Authorization") by discriminate.
    split; [| split; [| split]].
    + intros name Hname. now apply buildHeaders_lookup_multipart.
    + now rewrite (buildHeaders_lookup_multipart config options _ Hct).
    + intros Hnone. now rewrite (buildHeaders_lookup_multipart config options _ Hct).
    + reflexivity.
  - intros earlier. unfold Revision1Executor.fetch_call.
    destruct (Revision1Executor.buildURL _ _ _); [| discriminate].
    intros [= <-]. cbn [FetchCall.headers].
    rewrite Revision1_buildHeaders_lookup.
    change (String.eqb "Content-Type" "Authorization") with false.
    change (String.eqb "Content-Type" "Content-Type") with true.
    destruct (current_token config), (supplied_header config options "Content-Type");
      reflexivity.
Qed.

Lemma fetch_call_multipart_headers_witness :
  exists call,
    fetch_call example_config "POST" "/api/v1/attachments"
      (FormData [("file", "invoice.pdf"); ("entity_type", "sale")]) None = Some call
    /\ FetchCall.headers call !! "Content-Type" = None
    /\ FetchCall.body call
       = Some (AsIs (FormData [("file", "invoice.pdf"); ("entity_type", "sale")]))
    /\ forall earlier,
         Revision1Executor.fetch_call example_config "POST" "/api/v1/attachments"
           (FormData [("file", "invoice.pdf"); ("entity_type", "sale")]) None = Some earlier ->
         FetchCall.headers earlier !! "Content-Type" = Some "application/json".
Proof.
  eexists. split; [reflexivity |].
  match goal with
  | |- context [FetchCall.body ?c] =>
      destruct (fetch_call_multipart_headers example_config "POST" "/api/v1/attachments"
                  [("file", "invoice.pdf"); ("entity_type", "sale")] None c eq_refl)
        as ((_ & _ & Hnone & Hbody) & Hearlier)
  end.
  split; [apply Hnone; reflexivity |]. split; [exact Hbody | exact Hearlier].
Defined.

Section BodyProperties.

Variable JSON_parse : string -> option JSON.
Variable abort_message : string.

(** C10, as the code has it.  In both revisions a body that is falsy, so not
    a [FormData], is not sent: the call of [fetch] has no body and is the call
    of the request without a body, and so is the outcome.  In the current
    revision a body is sent as a JSON text only when it is truthy and not a
    [FormData], and the text is then [JSON.stringify(body)].  In the earlier
    revision every truthy body, a [FormData] too, is sent as the text
    [JSON.stringify(body)]. *)
Theorem falsy_body_is_not_sent (config : ApiConfig.t) (method endpoint : string)
    (body : JSValue) (options : option RequestOptions.t) (network : FetchCall.t -> Race) :
  (truthy body = false ->
     instanceof_FormData body = false
     /\ fetch_call config method endpoint body options
        = fetch_call config method endpoint Undefined options
     /\ (forall call, fetch_call config method endpoint body options = Some call ->
           FetchCall.body call = None)
     /\ request JSON_parse abort_message config method endpoint body options network
        = request JSON_parse abort_message config method endpoint Undefined options network
     /\ Revision1.outgoing_body body = None
     /\ Revision1Executor.fetch_call config method endpoint body options
        = Revision1Executor.fetch_call config method endpoint Undefined options
     /\ (forall call,
           Revision1Executor.fetch_call config method endpoint body options = Some call ->
           FetchCall.body call = None)
     /\ Revision1Executor.request JSON_parse abort_message config method endpoint body
          options network
        = Revision1Executor.request JSON_parse abort_message config method endpoint Undefined
            options network)
  /\ (forall call text,
        fetch_call config method endpoint body options = Some call ->
        FetchCall.body call = Some (Text text) ->
        truthy body = true /\ instanceof_FormData body = false
        /\ stringify body = Some text)
  /\ (forall call,
        Revision1Executor.fetch_call config method endpoint body options = Some call ->
        FetchCall.body call = if truthy body then Text <$> stringify body else None).
Proof.
  split; [| split].
  - intros Hfalsy.
    assert (Hform : instanceof_FormData body = false)
      by (destruct body; [easy | easy | discriminate]).
    assert (Hcall : fetch_call config method endpoint body options
                    = fetch_call config method endpoint Undefined options).
    { unfold fetch_call. destruct (buildURL _ _ _); [| reflexivity].
      unfold outgoing_body. rewrite Hfalsy, Hform. reflexivity. }
    assert (Hearlier : Revision1Executor.fetch_call config method endpoint body options
                       = Revision1Executor.fetch_call config method endpoint Undefined options).
    { unfold Revision1Executor.fetch_call.
      destruct (Revision1Executor.buildURL _ _ _); [| reflexivity].
      unfold Revision1.outgoing_body. rewrite Hfalsy. reflexivity. }
    split; [exact Hform |]. split; [exact Hcall |].
    split; [| split; [| split; [| split; [exact Hearlier | split]]]].
    + intros call. unfold fetch_call. destruct (buildURL _ _ _); [| discriminate].
      intros [= <-]. cbn [FetchCall.body]. unfold outgoing_body. now rewrite Hfalsy.
    + unfold request. now rewrite Hcall.
    + unfold Revision1.outgoing_body. now rewrite Hfalsy.
    + intros call. unfold Revision1Executor.fetch_call.
      destruct (Revision1Executor.buildURL _ _ _); [| discriminate].
      intros [= <-]. cbn [FetchCall.body]. unfold Revision1.outgoing_body.
      now rewrite Hfalsy.
    + unfold Revision1Executor.request. now rewrite Hearlier.
  - intros call text. unfold fetch_call. destruct (buildURL _ _ _); [| discriminate].
    intros [= <-]. cbn [FetchCall.body]. unfold outgoing_body.
    destruct (truthy body); [| discriminate].
    destruct (instanceof_FormData body); [discriminate |].
    destruct (stringify body) as [json|]; [| discriminate].
    intros [= ->]. repeat split.
  - intros call. unfold Revision1Executor.fetch_call.
    destruct (Revision1Executor.buildURL _ _ _); [| discriminate].
    intros [= <-]. reflexivity.
Qed.

End BodyProperties.

Lemma falsy_body_is_not_sent_witness :
  fetch_call example_config "POST" "/api/v1/sales" (Json (JNumber "0")) None
  = fetch_call example_config "POST" "/api/v1/sales" Undefined None
  /\ Revision1Executor.fetch_call example_config "POST" "/api/v1/sales" (Json (JNumber "0")) None
     = Revision1Executor.fetch_call example_config "POST" "/api/v1/sales" Undefined None.
Proof.
  destruct (falsy_body_is_not_sent json_decode node_abort_message example_config
              "POST" "/api/v1/sales" (Json (JNumber "0")) None too_slow) as [Hfalsy _].
  destruct (Hfalsy eq_refl) as (_ & Hcall & _ & _ & _ & Hearlier & _).
  split; [exact Hcall | exact Hearlier].
Defined.

(** C10, as the claim states it, fails on the earlier revision: a [FormData]
    is truthy, and where the current revision passes it to [fetch] as it is,
    the earlier one sends the text that [JSON.stringify] gives for it. *)
Lemma earlier_revision_stringifies_FormData :
  truthy (FormData [("file", "invoice.pdf")]) = true
  /\ instanceof_FormData (FormData [("file", "invoice.pdf")]) = true
  /\ FetchCall.body <$> fetch_call example_config "POST" "/api/v1/attachments"
                          (FormData [("file", "invoice.pdf")]) None
     = Some (Some (AsIs (FormData [("file", "invoice.pdf")])))
  /\ FetchCall.body <$> Revision1Executor.fetch_call example_config "POST"
                          "/api/v1/attachments" (FormData [("file", "invoice.pdf")]) None
     = Some (Some (Text "{}")).
Proof. repeat split; reflexivity. Qed.

(* ===================================================================== *)
(** * Endpoints with more than a plain path *)
(* ===================================================================== *)

(** The URL constructor on a base address made of a scheme and an
    authority and an endpoint of unreserved characters and slashes whose first
    character is not a slash, preceded by no slash or one slash. *)
Lemma URL_new_rooted (sch authority h q : string) (j : nat) :
  sch = "http" \/ sch = "https" ->
  parse_host_port sch authority = Some h ->
  every (fun c => path_char c || is_slash c) q = true ->
  (exists c rest, q = String c rest /\ path_char c = true) ->
  (j <= 1)%nat ->
  URL_new (slashes j +:+ q) (sch +:+ "://" +:+ authority)
  = Some {| scheme := sch; host := h; path := path_state [] (split_slash q);
            searchParams := [] |}.
Proof.
  intros Hsch Hh Hchars (c & rest & -> & Hc) Hj.
  pose proof (path_char_not_slash c Hc) as Hns.
  pose proof (plain_bytes_url _ Hchars) as Hbytes.
  assert (Hpath : forall acc, parse_path acc (String c rest)
                              = path_state acc (split_slash (String c rest))).
  { intros acc. unfold parse_path. now rewrite (map_path_encode_plain _ Hchars). }
  unfold URL_new. rewrite (URL_parse_host sch authority h Hsch Hh).
  destruct j as [|[|j]]; [| | lia].
  - cbn [slashes String.append]. rewrite Hbytes. cbn [negb].
    assert (Hscheme : has_scheme (String c rest) = false).
    { cbn [has_scheme]. cbn [every] in Hchars. apply andb_true_iff in Hchars as [_ Hrest].
      rewrite (plain_bytes_no_scheme _ Hrest). apply andb_false_r. }
    rewrite Hscheme. cbn [scheme host path removelast].
    now rewrite Hns, Hpath.
  - cbn [slashes String.append].
    change (every url_byte (String "/" (String c rest)))
      with (every url_byte (String c rest)).
    rewrite Hbytes. cbn [negb].
    change (has_scheme (String "/" (String c rest))) with false.
    change (is_slash "/") with true. cbn [scheme host].
    now rewrite Hns, Hpath.
Qed.

(** The URL builder on such a base, followed by any number of slashes, and
    such an endpoint that does not end in a slash. *)
Lemma buildURL_rooted (sch authority h q : string) (j k : nat) :
  sch = "http" \/ sch = "https" ->
  parse_host_port sch authority = Some h ->
  every (fun c => path_char c || is_slash c) q = true ->
  (exists c rest, q = String c rest /\ path_char c = true) ->
  ends_with_slash q = false ->
  (j <= 1)%nat ->
  buildURL (sch +:+ "://" +:+ authority +:+ slashes k) (slashes j +:+ q) None
  = Some (sch +:+ "://" +:+ h +:+ serialize_path (path_state [] (split_slash q))).
Proof.
  intros Hsch Hh Hchars Hfirst Hend Hj.
  replace (sch +:+ "://" +:+ authority +:+ slashes k)
    with ((sch +:+ "://" +:+ authority) +:+ slashes k)
    by now rewrite !append_assoc.
  replace (slashes j +:+ q) with ((slashes j +:+ q) +:+ slashes 0) by apply append_nil_r.
  rewrite buildURL_trailing_slashes. unfold buildURL.
  destruct (parse_host_port_inv _ _ _ Hh) as [Hne Hnoslash].
  rewrite (normalizeURLPath_clean (sch +:+ "://" +:+ authority)).
  2:{ replace (sch +:+ "://" +:+ authority) with ((sch +:+ "://") +:+ authority)
        by now rewrite append_assoc.
      rewrite (ends_with_slash_append _ authority Hne). now apply no_slash_ends. }
  rewrite (normalizeURLPath_clean (slashes j +:+ q)).
  2:{ rewrite ends_with_slash_append; [exact Hend |].
      destruct Hfirst as (c & rest & -> & _). discriminate. }
  rewrite (URL_new_rooted sch authority h q j Hsch Hh Hchars Hfirst Hj).
  unfold URL_toString. cbn [scheme host path searchParams query_string].
  now rewrite append_nil_r.
Qed.

Lemma split_slash_append_slash (p : string) :
  split_slash (p +:+ "/") = (split_slash p ++ [EmptyString])%list.
Proof.
  induction p as [|c p IH]; [reflexivity |].
  cbn [String.append split_slash]. rewrite IH.
  destruct (is_slash c); [reflexivity |].
  destruct (split_slash p) as [|seg segs] eqn:Hsplit; [| reflexivity].
  now apply split_slash_not_nil in Hsplit.
Qed.

Lemma serialize_path_app (l1 l2 : list string) :
  serialize_path (l1 ++ l2) = serialize_path l1 +:+ serialize_path l2.
Proof.
  induction l1 as [|seg l1 IH]; [reflexivity |].
  cbn [app serialize_path]. now rewrite IH, !append_assoc.
Qed.

(** X20. For a base address made of the scheme [http] or [https], [://] and
    an authority that the URL parser accepts (a host of ASCII letters,
    digits, hyphens, dots and underscores, possibly with a port; [h] is the
    authority as the URL serialiser writes it) and an endpoint path in plain
    form preceded by no slash or one slash: in the earlier revision a slash at
    the end of the endpoint is part of the URL; the current revision builds
    the URL without it. *)
Theorem revision1_keeps_final_slash (sch authority h p : string) (j : nat) :
  sch = "http" \/ sch = "https" ->
  parse_host_port sch authority = Some h ->
  plain_path p = true ->
  (j <= 1)%nat ->
  URL_toString <$> Revision1Executor.buildURL (sch +:+ "://" +:+ authority)
                     (slashes j +:+ p +:+ "/") None
  = Some (sch +:+ "://" +:+ h +:+ "/" +:+ p +:+ "/")
  /\ buildURL (sch +:+ "://" +:+ authority) (slashes j +:+ p +:+ "/") None
     = Some (sch +:+ "://" +:+ h +:+ "/" +:+ p).
Proof.
  intros Hsch Hh Hp Hj.
  destruct (plain_path_inv p Hp) as ((c & rest & Hpeq & Hc) & Hchars & Hend & Hstate).
  assert (Hdots : forallb (fun seg => negb (is_dot_segment seg)
                                      && negb (is_double_dot_segment seg))
                          (split_slash p) = true).
  { unfold plain_path in Hp. now apply andb_true_iff in Hp as [_ Hp]. }
  split.
  - unfold Revision1Executor.buildURL.
    rewrite (URL_new_rooted sch authority h (p +:+ "/") j Hsch Hh).
    + cbn [fmap option_fmap option_map]. unfold URL_toString.
      cbn [scheme host path searchParams query_string].
      rewrite split_slash_append_slash, path_state_plain.
      * cbn [app]. rewrite serialize_path_app, serialize_path_split_slash.
        cbn [serialize_path]. now rewrite !append_assoc.
      * rewrite forallb_app, Hdots. reflexivity.
    + rewrite every_append, Hchars. reflexivity.
    + subst p. exists c, (rest +:+ "/"). now split.
    + exact Hj.
  - replace (sch +:+ "://" +:+ authority) with (sch +:+ "://" +:+ authority +:+ slashes 0)
      by now rewrite append_nil_r.
    replace (slashes j +:+ p +:+ "/") with ((slashes j +:+ p) +:+ slashes 1)
      by now rewrite append_assoc.
    replace (sch +:+ "://" +:+ authority +:+ slashes 0)
      with ((sch +:+ "://" +:+ authority) +:+ slashes 0)
      by now rewrite !append_assoc.
    rewrite buildURL_trailing_slashes.
    replace (sch +:+ "://" +:+ authority) with (sch +:+ "://" +:+ authority +:+ slashes 0)
      by now rewrite append_nil_r.
    rewrite (buildURL_rooted sch authority h p j 0 Hsch Hh Hchars); try assumption.
    + unfold parse_path in Hstate. rewrite (map_path_encode_plain _ Hchars) in Hstate.
      now rewrite Hstate, serialize_path_split_slash.
    + now exists c, rest.
Qed.

Lemma revision1_keeps_final_slash_witness :
  URL_toString <$> Revision1Executor.buildURL "https://erp-api.kisanlink.in"
                     "/api/v1/sales/" None
  = Some "https://erp-api.kisanlink.in/api/v1/sales/"
  /\ buildURL "https://erp-api.kisanlink.in" "/api/v1/sales/" None
     = Some "https://erp-api.kisanlink.in/api/v1/sales".
Proof.
  exact (revision1_keeps_final_slash "https" "erp-api.kisanlink.in" "erp-api.kisanlink.in"
           "api/v1/sales" 1 (or_intror eq_refl) eq_refl eq_refl (le_n 1)).
Defined.

(* ===================================================================== *)
(** * Properties of the services *)
(* ===================================================================== *)

Lemma object_set_fresh (entries : list (string * ParamValue)) (key : string)
    (value : ParamValue) :
  ~ In key (map fst entries) ->
  object_set entries key value = (entries ++ [(key, value)])%list.
Proof.
  induction entries as [|[k v] entries IH]; [reflexivity |].
  cbn [map fst In object_set app]. intros Hfresh.
  destruct (String.eqb_spec k key) as [-> | _]; [exfalso; apply Hfresh; now left |].
  rewrite IH; [reflexivity | intuition].
Qed.

(** The loop of [toQueryParams] over entries with distinct keys, none of
    which is in the object yet, appends the present ones. *)
Lemma toQueryParams_loop (entries params : list (string * ParamValue)) :
  List.NoDup (map fst params ++ map fst entries) ->
  fold_left
    (fun params kv =>
       match kv with
       | (key, value) =>
           if is_present value then
             match value with
             | PBoolean _ => object_set params key value
             | PNumber _ => object_set params key value
             | _ => object_set params key (PString (String_of value))
             end
           else params
       end)
    entries params
  = (params ++ List.filter (fun kv => is_present (snd kv)) entries)%list.
Proof.
  revert params. induction entries as [|[key value] entries IH]; intros params Hnd.
  - cbn. now rewrite app_nil_r.
  - cbn [fold_left List.filter snd].
    assert (Hfresh : ~ In key (map fst params)).
    { intros Hin. cbn [map fst] in Hnd. apply NoDup_remove_2 in Hnd.
      apply Hnd. apply in_or_app. now left. }
    assert (Hnd' : forall v, List.NoDup (map fst (params ++ [(key, v)]) ++ map fst entries)).
    { intros v. rewrite map_app, <- app_assoc. exact Hnd. }
    destruct value as [| | s | n | b]; cbn [is_present String_of].
    + apply IH. cbn [map fst] in Hnd. now apply NoDup_remove_1 in Hnd.
    + apply IH. cbn [map fst] in Hnd. now apply NoDup_remove_1 in Hnd.
    + rewrite (object_set_fresh _ _ _ Hfresh), (IH _ (Hnd' _)), <- app_assoc. reflexivity.
    + rewrite (object_set_fresh _ _ _ Hfresh), (IH _ (Hnd' _)), <- app_assoc. reflexivity.
    + rewrite (object_set_fresh _ _ _ Hfresh), (IH _ (Hnd' _)), <- app_assoc. reflexivity.
Qed.

Lemma appended_pairs_filter (entries : list (string * ParamValue)) :
  appended_pairs (List.filter (fun kv => is_present (snd kv)) entries)
  = appended_pairs entries.
Proof.
  unfold appended_pairs. f_equal.
  induction entries as [|kv entries IH]; [reflexivity |].
  cbn [List.filter]. destruct (is_present (snd kv)) eqn:Hp; [| exact IH].
  cbn [List.filter]. now rewrite Hp, IH.
Qed.

Lemma buildURL_same_pairs (baseURL endpoint : string)
    (params params' : option (list (string * ParamValue))) :
  match params with Some entries => appended_pairs entries | None => [] end
  = match params' with Some entries => appended_pairs entries | None => [] end ->
  buildURL baseURL endpoint params = buildURL baseURL endpoint params'.
Proof.
  intros Hpairs. unfold buildURL.
  destruct (URL_new _ _) as [url|]; [| reflexivity]. f_equal. f_equal.
  assert (Hnone : url = {| scheme := scheme url; host := host url; path := path url;
                           searchParams := (searchParams url ++ [])%list |}).
  { rewrite app_nil_r. now destruct url. }
  destruct params as [entries|], params' as [entries'|].
  - now rewrite !append_params_spec, Hpairs.
  - rewrite append_params_spec, Hpairs. now symmetry.
  - rewrite append_params_spec, <- Hpairs. exact Hnone.
  - reflexivity.
Qed.

(** X21. For a filter with distinct keys, [toQueryParams] returns the present
    entries of the filter, in order and with their values, or nothing when
    no entry is present; the URL built with what it returns is the URL built
    with the filter itself. *)
Theorem toQueryParams_keeps_present_entries (baseURL endpoint : string)
    (entries : list (string * ParamValue)) :
  List.NoDup (map fst entries) ->
  toQueryParams (Some entries)
  = match List.filter (fun kv => is_present (snd kv)) entries with
    | [] => None
    | present => Some present
    end
  /\ buildURL baseURL endpoint (toQueryParams (Some entries))
     = buildURL baseURL endpoint (Some entries).
Proof.
  intros Hnd.
  assert (Hresult : toQueryParams (Some entries)
            = match List.filter (fun kv => is_present (snd kv)) entries with
              | [] => None
              | present => Some present
              end).
  { unfold toQueryParams. rewrite (toQueryParams_loop entries [] Hnd). cbn [app].
    now destruct (List.filter _ entries). }
  split; [exact Hresult |].
  apply buildURL_same_pairs. rewrite Hresult.
  destruct (List.filter _ entries) eqn:Hfilter.
  - rewrite <- appended_pairs_filter, Hfilter. reflexivity.
  - rewrite <- Hfilter. apply appended_pairs_filter.
Qed.

Lemma toQueryParams_keeps_present_entries_witness :
  toQueryParams (Some [("format", PString "json"); ("limit", PNumber "50");
                       ("search", PUndefined); ("is_active", PBoolean true)])
  = Some [("format", PString "json"); ("limit", PNumber "50"); ("is_active", PBoolean true)].
Proof.
  refine (proj1 (toQueryParams_keeps_present_entries "" ""
                   [("format", PString "json"); ("limit", PNumber "50");
                    ("search", PUndefined); ("is_active", PBoolean true)] _)).
  repeat (constructor; [simpl; intuition discriminate |]). constructor.
Defined.

Lemma split_slash_single (s : string) :
  every path_char s = true -> split_slash s = [s].
Proof.
  induction s as [|c s IH]; [reflexivity |].
  cbn [every split_slash]. intros [Hc Hs]%andb_true_iff.
  now rewrite (path_char_not_slash c Hc), (IH Hs).
Qed.

Lemma plain_id_inv (id : string) :
  plain_id id = true ->
  id <> "" /\ every path_char id = true
  /\ is_dot_segment id = false /\ is_double_dot_segment id = false.
Proof.
  unfold plain_id. intros H.
  apply andb_true_iff in H as [H Hdd]. apply andb_true_iff in H as [H Hd].
  apply andb_true_iff in H as [Hne Hchars].
  apply negb_true_iff in Hne, Hd, Hdd. apply String.eqb_neq in Hne.
  now repeat split.
Qed.

Section ServiceProperties.

Variable JSON_parse : string -> option JSON.
Variable abort_message : string.

(** X22. A report in the format [xlsx] or [pdf] is requested with the
    matching [Accept] header, and its answer is decoded as JSON like every
    other: when the body of an ok response does not decode, the report call
    throws the [NetworkError] "Failed to parse response JSON". *)
Theorem getReport_binary_format (config : ApiConfig.t) (endpoint : string)
    (entries : list (string * ParamValue)) (mime : string)
    (network : FetchCall.t -> Race) (call : FetchCall.t) (answer : Response.t) :
  (object_get entries "format" = PString "xlsx"
   /\ mime = "application/vnd.openxmlformats-officedocument.spreadsheetml.sheet")
  \/ (object_get entries "format" = PString "pdf" /\ mime = "application/pdf") ->
  fetch_call config "GET" endpoint Undefined
    (Some {| RequestOptions.headers := Some {[ "Accept" := mime ]};
             RequestOptions.params := toQueryParams (Some entries);
             RequestOptions.timeout := None |}) = Some call ->
  network call = ExchangeFirst (Fulfilled answer) ->
  Response.ok answer = true ->
  Response.status answer <> 204 ->
  Response.content_length answer <> Some "0" ->
  Response_json JSON_parse answer = None ->
  FetchCall.headers call !! "Accept" = Some mime
  /\ getReport (createApiClient JSON_parse abort_message config) endpoint (Some entries) network
     = Some (Throw (ThrownError (new_NetworkError "Failed to parse response JSON"))).
Proof.
  intros Hformat Hcall Hnet Hok Hstatus Hlength Hjson. split.
  - remember (Some {| RequestOptions.headers := Some {[ "Accept" := mime ]};
                      RequestOptions.params := toQueryParams (Some entries);
                      RequestOptions.timeout := None |}) as options eqn:Hoptions.
    unfold fetch_call in Hcall. destruct (buildURL _ _ _); [| discriminate].
    injection Hcall as <-. cbn [FetchCall.headers instanceof_FormData].
    rewrite buildHeaders_lookup. unfold supplied_header. subst options.
    cbn [mbind option_bind RequestOptions.headers].
    rewrite lookup_singleton_eq.
    now destruct (current_token config).
  - assert (Hget : getReport (createApiClient JSON_parse abort_message config) endpoint
                     (Some entries) network
                   = request JSON_parse abort_message config "GET" endpoint Undefined
                       (Some {| RequestOptions.headers := Some {[ "Accept" := mime ]};
                                RequestOptions.params := toQueryParams (Some entries);
                                RequestOptions.timeout := None |}) network).
    { unfold getReport. destruct Hformat as [[-> ->] | [-> ->]]; reflexivity. }
    rewrite Hget, (request_fulfilled _ _ _ _ _ _ _ _ _ _ Hcall Hnet).
    unfold interpret. rewrite Hok, Hjson. cbn [negb].
    destruct (Z.eqb_spec (Response.status answer) 204) as [? | _]; [contradiction |].
    rewrite bool_decide_false by exact Hlength. reflexivity.
Qed.

Lemma category_endpoint (id : string) :
  plain_id id = true ->
  every (fun c => path_char c || is_slash c) ("api/v1/categories/" +:+ id) = true
  /\ ends_with_slash ("api/v1/categories/" +:+ id) = false
  /\ path_state [] (split_slash ("api/v1/categories/" +:+ id))
     = ["api"; "v1"; "categories"; id].
Proof.
  intros Hid. destruct (plain_id_inv id Hid) as (Hne & Hchars & Hdot & Hdd).
  split; [| split].
  - rewrite every_append. apply andb_true_iff. split; [reflexivity |].
    apply (every_impl path_char); [| exact Hchars]. intros c ->. reflexivity.
  - rewrite (ends_with_slash_append _ id Hne). apply no_slash_ends.
    apply (every_impl path_char); [| exact Hchars].
    intros c Hc. now rewrite (path_char_not_slash c Hc).
  - change (split_slash ("api/v1/categories/" +:+ id))
      with ("api" :: "v1" :: "categories" :: split_slash id).
    rewrite (split_slash_single id Hchars).
    rewrite path_state_plain; [reflexivity |].
    cbn [forallb]. rewrite Hdot, Hdd. reflexivity.
Qed.

(** X23. A client created for a base address made of the scheme [http] or
    [https], [://] and an authority that the URL parser accepts (a host of
    ASCII letters, digits, hyphens, dots and underscores, possibly with a
    port), followed by any number of slashes, asks for a category with a plain
    identifier by one call: a GET of [<scheme>://<h>/api/v1/categories/<id>],
    where [h] is the authority as the URL serialiser writes it (the host in
    lower case, the port unless it is the default one), without a body, with
    the headers of the normalised configuration and its timeout. *)
Theorem categories_get_call (sch authority h id : string) (k : nat)
    (supplied : ERPServiceConfig.t) :
  sch = "http" \/ sch = "https" ->
  parse_host_port sch authority = Some h ->
  plain_id id = true ->
  ERPServiceConfig.baseURL supplied = Some (sch +:+ "://" +:+ authority +:+ slashes k) ->
  exists config categories,
    validateConfig supplied = Return config
    /\ createERPService JSON_parse abort_message createCategoryService supplied
       = Return categories
    /\ forall network,
         CategoryService.get categories id network
         = Some (settle JSON_parse "GET" ("/api/v1/categories/" +:+ id)
                   (ApiConfig.timeout config)
                   (fetch abort_message
                      (network {| FetchCall.url :=
                                    sch +:+ "://" +:+ h +:+ "/api/v1/categories/" +:+ id;
                                  FetchCall.method := "GET";
                                  FetchCall.headers := buildHeaders config None false;
                                  FetchCall.body := None |}))).
Proof.
  intros Hsch Hh Hid Hbase.
  destruct (category_endpoint id Hid) as (Hchars & Hend & Hpath).
  assert (Hvalid : exists config, validateConfig supplied = Return config
                     /\ ApiConfig.baseURL config
                        = replace_final_slash (sch +:+ "://" +:+ authority +:+ slashes k)).
  { unfold validateConfig. rewrite Hbase.
    assert (Hne : String.eqb (sch +:+ "://" +:+ authority +:+ slashes k) "" = false)
      by (destruct Hsch as [-> | ->]; reflexivity).
    rewrite Hne. eexists. split; reflexivity. }
  destruct Hvalid as (config & Hvalid & Hconfig).
  exists config, (createCategoryService (createApiClient JSON_parse abort_message config)).
  split; [exact Hvalid |]. split.
  - unfold createERPService. now rewrite Hvalid.
  - intros network.
    cbn [createCategoryService CategoryService.get createApiClient ApiClient.get].
    unfold request, fetch_call. cbn [mbind option_bind].
    assert (Hurl : buildURL (ApiConfig.baseURL config) ("/api/v1/categories/" +:+ id) None
                   = Some (sch +:+ "://" +:+ h +:+ "/api/v1/categories/" +:+ id)).
    { rewrite Hconfig. unfold buildURL at 1.
      rewrite normalizeURLPath_replace_final_slash.
      change (match URL_new (normalizeURLPath ("/api/v1/categories/" +:+ id))
                      (normalizeURLPath (sch +:+ "://" +:+ authority +:+ slashes k)) with
              | Some url => Some (URL_toString url)
              | None => None
              end)
        with (buildURL (sch +:+ "://" +:+ authority +:+ slashes k)
                       (slashes 1 +:+ ("api/v1/categories/" +:+ id)) None).
      rewrite (buildURL_rooted sch authority h ("api/v1/categories/" +:+ id) 1 k Hsch Hh Hchars);
        [| now exists "a"%char, ("pi/v1/categories/" +:+ id) | exact Hend | lia].
      rewrite Hpath. cbn [serialize_path]. rewrite append_nil_r. reflexivity. }
    rewrite Hurl. reflexivity.
Qed.

(** X24. The identifier is put into the path as it is: for a base address
    made of the scheme [http] or [https], [://] and an authority that the URL
    parser accepts (serialised as [h]), an identifier made of "../" and a
    plain path leaves the collection, and the call goes to
    [<scheme>://<h>/api/v1/<rest>]. *)
Theorem categories_get_dot_segments (sch authority h x : string) (config : ApiConfig.t)
    (network : FetchCall.t -> Race) :
  sch = "http" \/ sch = "https" ->
  parse_host_port sch authority = Some h ->
  plain_path x = true ->
  ApiConfig.baseURL config = sch +:+ "://" +:+ authority ->
  CategoryService.get (createCategoryService (createApiClient JSON_parse abort_message config))
    ("../" +:+ x) network
  = Some (settle JSON_parse "GET" ("/api/v1/categories/../" +:+ x)
            (ApiConfig.timeout config)
            (fetch abort_message
               (network {| FetchCall.url := sch +:+ "://" +:+ h +:+ "/api/v1/" +:+ x;
                           FetchCall.method := "GET";
                           FetchCall.headers := buildHeaders config None false;
                           FetchCall.body := None |}))).
Proof.
  intros Hsch Hh Hx Hbase.
  destruct (plain_path_inv x Hx) as ((c & rest & Hxeq & Hc) & Hchars & Hend & _).
  assert (Hdots : forallb (fun seg => negb (is_dot_segment seg)
                                      && negb (is_double_dot_segment seg))
                          (split_slash x) = true).
  { unfold plain_path in Hx. now apply andb_true_iff in Hx as [_ Hx]. }
  cbn [createCategoryService CategoryService.get createApiClient ApiClient.get].
  unfold request, fetch_call. cbn [mbind option_bind].
  assert (Hurl : buildURL (ApiConfig.baseURL config) ("/api/v1/categories/" +:+ "../" +:+ x) None
                 = Some (sch +:+ "://" +:+ h +:+ "/api/v1/" +:+ x)).
  { rewrite Hbase.
    replace (sch +:+ "://" +:+ authority) with (sch +:+ "://" +:+ authority +:+ slashes 0)
      by now rewrite append_nil_r.
    change ("/api/v1/categories/" +:+ "../" +:+ x)
      with (slashes 1 +:+ ("api/v1/categories/../" +:+ x)).
    rewrite (buildURL_rooted sch authority h ("api/v1/categories/../" +:+ x) 1 0 Hsch Hh).
    - change (split_slash ("api/v1/categories/../" +:+ x))
        with ("api" :: "v1" :: "categories" :: ".." :: split_slash x).
      assert (Hstate : path_state [] ("api" :: "v1" :: "categories" :: ".." :: split_slash x)
                       = path_state ["api"; "v1"] (split_slash x)).
      { destruct (split_slash x) as [|seg segs] eqn:Hsplit;
          [now apply split_slash_not_nil in Hsplit | reflexivity]. }
      rewrite Hstate, path_state_plain by exact Hdots.
      rewrite serialize_path_app, serialize_path_split_slash.
      cbn [serialize_path]. now rewrite !append_assoc.
    - rewrite every_append, Hchars. reflexivity.
    - now exists "a"%char, ("pi/v1/categories/../" +:+ x).
    - rewrite ends_with_slash_append; [exact Hend | subst x; discriminate].
    - lia. }
  rewrite Hurl. reflexivity.
Qed.

End ServiceProperties.

Lemma getReport_binary_format_witness :
  ReportService.sales
    (createReportService (createApiClient json_decode node_abort_message example_config))
    (Some [("format", PString "xlsx"); ("warehouse_id", PString "WH_001")])
    (answers (response_of 200 "PK"))
  = Some (Throw (ThrownError (new_NetworkError "Failed to parse response JSON"))).
Proof.
  eapply proj2, (getReport_binary_format json_decode node_abort_message example_config
                   "/api/v1/reports/sales"
                   [("format", PString "xlsx"); ("warehouse_id", PString "WH_001")]
                   "application/vnd.openxmlformats-officedocument.spreadsheetml.sheet");
    [left; split; reflexivity | reflexivity | reflexivity | reflexivity
     | discriminate | discriminate | reflexivity].
Defined.

Lemma categories_get_call_witness :
  exists config categories,
    validateConfig readme_config = Return config
    /\ createERPService json_decode node_abort_message createCategoryService readme_config
       = Return categories
    /\ forall network,
         CategoryService.get categories "CAT_00000001" network
         = Some (settle json_decode "GET" "/api/v1/categories/CAT_00000001"
                   (ApiConfig.timeout config)
                   (fetch node_abort_message
                      (network {| FetchCall.url :=
                                    "https://erp-api.kisanlink.in/api/v1/categories/CAT_00000001";
                                  FetchCall.method := "GET";
                                  FetchCall.headers := buildHeaders config None false;
                                  FetchCall.body := None |}))).
Proof.
  exact (categories_get_call json_decode node_abort_message "https" "erp-api.kisanlink.in"
           "erp-api.kisanlink.in" "CAT_00000001" 1 readme_config
           (or_intror eq_refl) eq_refl eq_refl eq_refl).
Defined.

Lemma categories_get_dot_segments_witness :
  CategoryService.get
    (createCategoryService (createApiClient json_decode node_abort_message example_config))
    "../products"
    (fun call =>
       if String.eqb (FetchCall.url call) "https://erp-api.kisanlink.in/api/v1/products"
       then ExchangeFirst (Fulfilled (response_of 204 ""))
       else TimerFirst)
  = Some (Return (JObject [])).
Proof.
  etransitivity;
    [exact (categories_get_dot_segments json_decode node_abort_message "https"
              "erp-api.kisanlink.in" "erp-api.kisanlink.in" "products" example_config _
              (or_intror eq_refl) eq_refl eq_refl eq_refl)
    | reflexivity].
Defined.

Section AttachmentProperties.

Variable JSON_parse : string -> option JSON.
Variable abort_message : string.

(** X25. An upload makes one call, a POST of the attachments endpoint whose
    body is the [FormData] with the file, the entity type and the entity
    identifier, as it is, and whose [Content-Type] is "multipart/form-data",
    the per-call header of the service, whatever the default headers of the
    configuration. *)
Theorem upload_call (config : ApiConfig.t) (file entityType entityId url : string) :
  buildURL (ApiConfig.baseURL config) "/api/v1/attachments" None = Some url ->
  exists headers : gmap string string,
    headers !! "Content-Type" = Some "multipart/form-data"
    /\ forall network,
         AttachmentService.upload
           (createAttachmentService (createApiClient JSON_parse abort_message config))
           file entityType entityId network
         = Some (settle JSON_parse "POST" "/api/v1/attachments" (ApiConfig.timeout config)
                   (fetch abort_message
                      (network {| FetchCall.url := url;
                                  FetchCall.method := "POST";
                                  FetchCall.headers := headers;
                                  FetchCall.body :=
                                    Some (AsIs (FormData [("file", file);
                                                          ("entity_type", entityType);
                                                          ("entity_id", entityId)])) |}))).
Proof.
  intros Hurl.
  remember (Some {| RequestOptions.headers := Some {[ "Content-Type" := "multipart/form-data" ]};
                    RequestOptions.params := None; RequestOptions.timeout := None |})
    as options eqn:Hoptions.
  exists (buildHeaders config (options ≫= RequestOptions.headers) true). split.
  - rewrite buildHeaders_lookup. unfold supplied_header. subst options.
    cbn [mbind option_bind RequestOptions.headers negb andb].
    rewrite andb_false_r, lookup_singleton_eq.
    now destruct (current_token config).
  - intros network.
    cbn [createAttachmentService AttachmentService.upload createApiClient ApiClient.post].
    rewrite <- Hoptions. unfold request, fetch_call.
    replace (options ≫= RequestOptions.params) with (@None (list (string * ParamValue)))
      by now subst options.
    rewrite Hurl. subst options. reflexivity.
Qed.

End AttachmentProperties.

Lemma upload_call_witness :
  exists headers : gmap string string,
    headers !! "Content-Type" = Some "multipart/form-data"
    /\ forall network,
         AttachmentService.upload
           (createAttachmentService
              (createApiClient json_decode node_abort_message json_headers_config))
           "invoice.pdf" "sale" "SALE_00000001" network
         = Some (settle json_decode "POST" "/api/v1/attachments"
                   (ApiConfig.timeout json_headers_config)
                   (fetch node_abort_message
                      (network {| FetchCall.url := "https://erp-api.kisanlink.in/api/v1/attachments";
                                  FetchCall.method := "POST";
                                  FetchCall.headers := headers;
                                  FetchCall.body :=
                                    Some (AsIs (FormData [("file", "invoice.pdf");
                                                          ("entity_type", "sale");
                                                          ("entity_id", "SALE_00000001")])) |}))).
Proof.
  apply (upload_call json_decode node_abort_message json_headers_config). reflexivity.
Defined.

(** X26. In the earlier revision a [FormData] body is not sent: the call
    carries the text of the empty object, with the JSON content type unless
    another is supplied. *)
Theorem revision1_serialises_FormData (config : ApiConfig.t) (method endpoint : string)
    (entries : list (string * string)) (options : option RequestOptions.t)
    (call : FetchCall.t) :
  Revision1Executor.fetch_call config method endpoint (FormData entries) options = Some call ->
  FetchCall.body call = Some (Text "{}")
  /\ (supplied_header config options "Content-Type" = None ->
      FetchCall.headers call !! "Content-Type" = Some "application/json").
Proof.
  unfold Revision1Executor.fetch_call.
  destruct (Revision1Executor.buildURL _ _ _); [| discriminate].
  intros [= <-]. cbn [FetchCall.body FetchCall.headers]. split; [reflexivity |].
  intros Hnone. rewrite Revision1_buildHeaders_lookup, Hnone.
  now destruct (current_token config).
Qed.

Lemma revision1_serialises_FormData_witness :
  exists call,
    Revision1Executor.fetch_call example_config "POST" "/api/v1/attachments"
      (FormData [("file", "invoice.pdf")]) None = Some call
    /\ FetchCall.body call = Some (Text "{}").
Proof.
  eexists. split; [reflexivity |].
  eapply proj1, (revision1_serialises_FormData example_config "POST" "/api/v1/attachments"
                   [("file", "invoice.pdf")] None).
  reflexivity.
Defined.
